(** * Hyperliquid MCP server: the request handlers of [src/index.ts]

    A shallow embedding of the four request handlers the server registers
    (list resources, read resource, list tools is static and left out,
    call tool) together with the session state they share:
    [userCredentials], [strategies] and [hyperliquidClient].

    Modelling choices, all taken from the source:
    - arguments carry the TypeScript / input-schema types of the handler
      ([string], [number], [boolean], any field possibly absent);
    - a JavaScript number is an IEEE 754 binary64 value ([spec_float] with
      precision 53 and maximal exponent 1024);
    - [strategies] and [priceMap] are plain objects: a property read that
      finds no own property continues in [Object.prototype];
    - the exchange SDK is outside the program: every awaited call is
      answered by the environment and recorded in a trace. *)

From Stdlib Require Import String Ascii List Bool ZArith Lia DecimalString.
From Stdlib Require Import Floats.SpecFloat.
Import ListNotations.
Open Scope string_scope.

Set Implicit Arguments.

(** ** Numbers *)

Definition number : Type := spec_float.

Module Num.

Definition prec : Z := 53.
Definition emax : Z := 1024.

Definition NaN : number := S754_nan.
Definition zero : number := S754_zero false.

(** [m * 2^e], rounded to the nearest binary64. *)
Definition make (m e : Z) : number := binary_normalize prec emax m e false.
Definition of_Z (z : Z) : number := make z 0.

Definition mul (x y : number) : number := SFmul prec emax x y.

Definition is_nan (x : number) : bool :=
  match x with S754_nan => true | _ => false end.

Definition is_zero (x : number) : bool :=
  match x with S754_zero _ => true | _ => false end.

Definition is_finite (x : number) : bool :=
  match x with S754_zero _ | S754_finite _ _ _ => true | _ => false end.

(** [ToBoolean] on a number: [0], [-0] and [NaN] are falsy. *)
Definition truthy (x : number) : bool := negb (is_zero x || is_nan x).

(** [x === y] on numbers. *)
Definition strict_eq (x y : number) : bool := SFeqb x y.

(** [Math.floor]. *)
Definition floor (x : number) : number :=
  match x with
  | S754_finite s m e =>
      if (0 <=? e)%Z then x
      else
        let q := Z.shiftr (Zpos m) (- e) in
        let exact := (Z.shiftl q (- e) =? Zpos m)%Z in
        if s
        then binary_normalize prec emax (- (if exact then q else q + 1)) 0 true
        else binary_normalize prec emax q 0 false
  | _ => x
  end.

End Num.

(** ** JSON values

    Opaque payloads that the handlers store or pass through unchanged:
    a strategy's [config], the exchange's answers. *)

#[local] Unset Elimination Schemes.
Inductive JSON : Type :=
| JNull
| JBool (b : bool)
| JNumber (x : number)
| JString (s : string)
| JArray (elems : list JSON)
| JObject (fields : list (string * JSON)).
#[local] Set Elimination Schemes.

(** ** Strings *)

(** [s.startsWith(p)] *)
Definition startsWith (s p : string) : bool := String.prefix p s.

Fixpoint string_drop (n : nat) (s : string) : string :=
  match n, s with
  | O, _ => s
  | S n', String _ s' => string_drop n' s'
  | S _, EmptyString => EmptyString
  end.

(** [s.replace(pat, rep)] with a string pattern: the first occurrence only. *)
Fixpoint replace (s pat rep : string) : string :=
  if String.prefix pat s then rep ++ string_drop (String.length pat) s
  else match s with
       | EmptyString => EmptyString
       | String c s' => String c (replace s' pat rep)
       end.

(** Truthiness of an optional string: [undefined] and [""] are falsy. *)
Definition truthy_str (o : option string) : bool :=
  match o with
  | Some s => negb (s =? "")
  | None => false
  end.

(** Truthiness of an optional number ([undefined], [0], [-0], [NaN]). *)
Definition truthy_num (o : option number) : bool :=
  match o with
  | Some x => Num.truthy x
  | None => false
  end.

(** ** Plain objects used as maps

    Own properties are kept in insertion order, the order [Object.entries]
    enumerates string keys in.  A read that finds no own property continues
    in [Object.prototype]; the only property the server itself can add
    there is [active] (see [activate_strategy]). *)

Definition Object_prototype_names : list string :=
  [ "constructor"; "__defineGetter__"; "__defineSetter__"; "hasOwnProperty";
    "__lookupGetter__"; "__lookupSetter__"; "isPrototypeOf";
    "propertyIsEnumerable"; "toString"; "valueOf"; "__proto__";
    "toLocaleString" ].

Definition is_builtin (k : string) : bool :=
  existsb (String.eqb k) Object_prototype_names.

Inductive Inherited : Type :=
| BuiltinMember (k : string)      (* a function, or [Object.prototype] itself for [__proto__] *)
| PollutedActive (b : bool).      (* [Object.prototype.active], once written *)

Inductive Slot (A : Type) : Type :=
| Own (a : A)
| FromPrototype (i : Inherited)
| Absent.

Arguments Own {A} a.
Arguments FromPrototype {A} i.
Arguments Absent {A}.

Fixpoint own_get {A} (o : list (string * A)) (k : string) : option A :=
  match o with
  | [] => None
  | (k', v) :: o' => if k' =? k then Some v else own_get o' k
  end.

(** Writes an own property: in place when the key exists, appended otherwise. *)
Fixpoint own_set {A} (o : list (string * A)) (k : string) (v : A) : list (string * A) :=
  match o with
  | [] => [(k, v)]
  | (k', v') :: o' =>
      if k' =? k then (k, v) :: o' else (k', v') :: own_set o' k v
  end.

(** [o[k]] for a plain object [o]. *)
Definition get {A} (proto_active : option bool) (o : list (string * A)) (k : string) : Slot A :=
  match own_get o k with
  | Some v => Own v
  | None =>
      if is_builtin k then FromPrototype (BuiltinMember k)
      else if k =? "active" then
        match proto_active with
        | Some b => FromPrototype (PollutedActive b)
        | None => Absent
        end
      else Absent
  end.

(** [o[k] = x] for a number [x]: the [__proto__] setter ignores primitives,
    every other key becomes (or stays) an own property. *)
Definition set_number (o : list (string * number)) (k : string) (x : number)
  : list (string * number) :=
  if k =? "__proto__" then o else own_set o k x.

(** ** Errors *)

(** [ErrorCode] of the MCP SDK. *)
Inductive ErrorCode : Type :=
| ConnectionClosed
| RequestTimeout
| ParseError
| InvalidRequest
| MethodNotFound
| InvalidParams
| InternalError.

(** What a [throw] or a rejected promise carries. *)
Inductive Thrown : Type :=
| McpError (code : ErrorCode) (message : string)
| OtherError (message : string)      (* any other instance of [Error] *)
| NonError (shown : string).         (* any other value; [shown] is [String(error)] *)

Inductive Completion (A : Type) : Type :=
| Returned (a : A)
| Threw (e : Thrown).

Arguments Returned {A} a.
Arguments Threw {A} e.

(** ** Session state *)

Record UserCredentials : Type := {
  privateKey : option string;
  walletAddress : option string;
  testnet : bool;
  vaultAddress : option string
}.

Record Strategy : Type := {
  id : string;
  name : string;
  description : string;
  config : JSON;
  active : bool
}.

(** The options object a [Hyperliquid] client was constructed from. *)
Record Hyperliquid : Type := {
  client_privateKey : option string;
  client_testnet : bool;
  client_walletAddress : option string;
  client_vaultAddress : option string;
  enableWs : bool
}.

Record State : Type := {
  userCredentials : UserCredentials;
  strategies : list (string * Strategy);
  hyperliquidClient : option Hyperliquid;
  (** [Object.prototype.active]: absent until [activate_strategy] is
      called with the id [__proto__]. *)
  Object_prototype_active : option bool
}.

Definition initial_state : State := {|
  userCredentials := {| privateKey := None; walletAddress := None;
                        testnet := true; vaultAddress := None |};
  strategies := [];
  hyperliquidClient := None;
  Object_prototype_active := None
|}.

Definition with_client (st : State) (c : option Hyperliquid) : State := {|
  userCredentials := userCredentials st;
  strategies := strategies st;
  hyperliquidClient := c;
  Object_prototype_active := Object_prototype_active st
|}.

Definition with_strategies (st : State) (m : list (string * Strategy)) : State := {|
  userCredentials := userCredentials st;
  strategies := m;
  hyperliquidClient := hyperliquidClient st;
  Object_prototype_active := Object_prototype_active st
|}.

(** ** The exchange SDK, as the handlers see it *)

Inductive OrderType : Type :=
| Limit_Gtc       (* [{ limit: { tif: "Gtc" } }] *)
| Market.         (* [{ market: {} }] *)

Record OrderRequest : Type := {
  coin : string;
  is_buy : bool;
  sz : number;
  reduce_only : bool;
  limit_px : option number;
  order_type : OrderType
}.

Record SpotBalance : Type := {
  balance_coin : string;
  balance_total : string;
  balance_others : list (string * JSON);
  price : option string;
  usdValue : option string
}.

Record SpotClearinghouseState : Type := {
  balances : option (list SpotBalance)
}.

Record SpotAssetCtx : Type := {
  ctx_coin : string;
  markPx : string
}.

(** The calls a handler can make on the client. *)
Inductive ClientCall : Type :=
| Connect
| GetClearinghouseState (user : string)
| GetSpotClearinghouseState (user : string)
| GetSpotMetaAndAssetCtxs
| GetL2Book (symbol : string)
| PlaceOrder (order : OrderRequest)
| CancelOrder (coin : string) (o : number).

(** How the client answers during one request. *)
Record Exchange : Type := {
  connect : Completion unit;
  getClearinghouseState : string -> Completion JSON;
  getSpotClearinghouseState : string -> Completion (option SpotClearinghouseState);
  getSpotMetaAndAssetCtxs : Completion (JSON * list SpotAssetCtx);
  getL2Book : string -> Completion JSON;
  placeOrder : OrderRequest -> Completion JSON;
  cancelOrder : string -> number -> Completion JSON
}.

(** Everything one request reads from outside the program. *)
Record Env : Type := {
  exchange : Exchange;
  Date_now : number;             (* [Date.now()] *)
  Math_random : number;          (* [Math.random()] *)
  Date_toISOString : string      (* [new Date().toISOString()] *)
}.

(** Built-ins and library constructors the handlers call. *)
Class JsHost : Type := {
  parseFloat : string -> number;
  parseInt10 : string -> number;                     (* [parseInt(s, 10)] *)
  NumberToString : number -> string;                 (* [x.toString()], [`${x}`] *)
  builtin_toString : string -> string;               (* text of a member of [Object.prototype] *)
  McpError_message : ErrorCode -> string -> string;  (* [message] of an [McpError] *)
  ethers_Wallet : string -> bool;                    (* [new ethers.Wallet(key)] does not throw *)
  new_Hyperliquid : Hyperliquid -> bool              (* [new Hyperliquid(options)] does not throw *)
}.

(** ** Responses *)

Inductive AccountInfo : Type :=
| EmptyAccount                    (* [{}] *)
| Account (perpetuals : JSON) (spot : option SpotClearinghouseState) (network : string).

(** The [text] of a response item. *)
Inductive Document : Type :=
| Text (s : string)
| JSON_stringify (v : JSON)
| JSON_stringify_strategy (s : Strategy)
| JSON_stringify_account (a : AccountInfo)
| JSON_stringify_market (symbol : string) (orderBook : JSON) (timestamp : string)
| JSON_stringify_prototype (polluted : option bool)   (* [Object.prototype] *)
| JSON_stringify_bool (b : bool)
| Undefined.                                          (* [JSON.stringify] of a function *)

Record TextContent : Type := {
  type : string;
  text : Document
}.

Record ToolResult : Type := {
  content : list TextContent
}.

Record Resource : Type := {
  uri : string;
  mimeType : string;
  resource_name : string;
  resource_description : string
}.

Record ResourceContents : Type := {
  contents_uri : string;
  contents_mimeType : string;
  contents_text : Document
}.

Record ReadResult : Type := {
  contents : list ResourceContents
}.

(** A handler run: how it completed, the state it left and the client
    calls it made, in order. *)
Record Run (A : Type) : Type := {
  completion : Completion A;
  final : State;
  calls : list ClientCall
}.

Arguments completion {A} r.
Arguments final {A} r.
Arguments calls {A} r.

(** ** A try block: awaited calls are logged until something is thrown *)

Definition Attempt (A : Type) : Type := (list ClientCall * Completion A)%type.

Definition ret {A} (a : A) : Attempt A := ([], Returned a).

Definition throw {A} (e : Thrown) : Attempt A := ([], Threw e).

Definition await {A} (c : ClientCall) (answer : Completion A) : Attempt A :=
  ([c], answer).

Definition bind {A B} (m : Attempt A) (k : A -> Attempt B) : Attempt B :=
  match m with
  | (t, Returned a) => let '(t', r) := k a in ((t ++ t')%list, r)
  | (t, Threw e) => (t, Threw e)
  end.

Notation "x <- m ;; k" := (bind m (fun x => k))
  (at level 61, m at next level, right associativity).

(** [try { body } catch (error) { throw handler(error) }] *)
Definition catch_rethrow {A} (body : Attempt A) (handler : Thrown -> Thrown) : Attempt A :=
  match body with
  | (t, Returned a) => (t, Returned a)
  | (t, Threw e) => (t, Threw (handler e))
  end.

(** ** Arguments of the tools, typed as their input schemas declare *)

Module Authenticate.
Record Args : Type := {
  privateKey : option string;
  walletAddress : option string;
  testnet : option bool;
  vaultAddress : option string
}.
End Authenticate.

Module GetMarketData.
Record Args : Type := {
  symbol : option string
}.
End GetMarketData.

Module PlaceOrderArgs.
Record Args : Type := {
  symbol : option string;
  side : option string;
  size : option number;
  price : option number;
  orderType : option string;
  reduceOnly : option bool
}.
End PlaceOrderArgs.

Module CancelOrderArgs.
Record Args : Type := {
  symbol : option string;
  orderId : option string
}.
End CancelOrderArgs.

Module CreateStrategy.
Record Args : Type := {
  name : option string;
  description : option string;
  config : option JSON
}.
End CreateStrategy.

Module ActivateStrategy.
Record Args : Type := {
  strategyId : option string;
  active : option bool
}.
End ActivateStrategy.

(** [ToBoolean] on an optional JSON value. *)
Definition truthy_json (o : option JSON) : bool :=
  match o with
  | None | Some JNull => false
  | Some (JBool b) => b
  | Some (JNumber x) => Num.truthy x
  | Some (JString s) => negb (s =? "")
  | Some (JArray _) | Some (JObject _) => true
  end.

(** [Number(x)] for an optional number: [Number(undefined)] is [NaN]. *)
Definition Number (o : option number) : number :=
  match o with
  | Some x => x
  | None => Num.NaN
  end.

(** A string in a template literal or a strict comparison; [undefined]
    prints as such. *)
Definition show (o : option string) : string :=
  match o with
  | Some s => s
  | None => "undefined"
  end.

(** [o === lit] for an optional string [o]. *)
Definition is_string (o : option string) (lit : string) : bool :=
  match o with
  | Some s => s =? lit
  | None => false
  end.

Definition text_result (d : Document) : ToolResult :=
  {| content := [ {| type := "text"; text := d |} ] |}.

Definition read_result (u : string) (d : Document) : ReadResult :=
  {| contents := [ {| contents_uri := u;
                      contents_mimeType := "application/json";
                      contents_text := d |} ] |}.

Section Handlers.

Context {host : JsHost}.

(** [error instanceof Error ? error.message : String(error)] *)
Definition errorMessage (e : Thrown) : string :=
  match e with
  | McpError c m => McpError_message c m
  | OtherError m => m
  | NonError s => s
  end.

(** *** [initializeClient] *)

Definition initializeClient (st : State) : option Hyperliquid :=
  let creds := userCredentials st in
  if negb (truthy_str (privateKey creds)) && negb (truthy_str (walletAddress creds))
  then None
  else
    let client := {| client_privateKey := privateKey creds;
                     client_testnet := testnet creds;
                     client_walletAddress := walletAddress creds;
                     client_vaultAddress := vaultAddress creds;
                     enableWs := true |} in
    if new_Hyperliquid client then Some client else None.

(** [if (!hyperliquidClient) { hyperliquidClient = initializeClient(); }] *)
Definition ensure_client (st : State) : State :=
  match hyperliquidClient st with
  | Some _ => st
  | None => with_client st (initializeClient st)
  end.

(** *** List resources *)

Definition account_resource : Resource :=
  {| uri := "hyperliquid://account";
     mimeType := "application/json";
     resource_name := "Hyperliquid Account";
     resource_description := "Current account information from Hyperliquid" |}.

Definition strategy_resource (entry : string * Strategy) : Resource :=
  let '(k, strategy) := entry in
  {| uri := "hyperliquid://strategy/" ++ k;
     mimeType := "application/json";
     resource_name := name strategy;
     resource_description := "Trading strategy: " ++ description strategy |}.

Definition list_resources (st : State) : list Resource :=
  let creds := userCredentials st in
  ((if truthy_str (privateKey creds) || truthy_str (walletAddress creds)
    then [account_resource] else [])
   ++ map strategy_resource (strategies st))%list.

(** *** Read resource: the account branch *)

(** [priceMap[assetCtx.coin] = parseFloat(assetCtx.markPx)] for every context. *)
Definition build_priceMap (spotAssetCtxs : list SpotAssetCtx) : list (string * number) :=
  fold_left
    (fun priceMap assetCtx =>
       set_number priceMap (ctx_coin assetCtx) (parseFloat (markPx assetCtx)))
    spotAssetCtxs [].

(** [!priceMap[k]] *)
Definition slot_falsy (s : Slot number) : bool :=
  match s with
  | Own p => negb (Num.truthy p)
  | FromPrototype (BuiltinMember _) => false
  | FromPrototype (PollutedActive b) => negb b
  | Absent => true
  end.

(** [priceMap[k] === 0] *)
Definition slot_is_zero (s : Slot number) : bool :=
  match s with
  | Own p => Num.strict_eq p Num.zero
  | _ => false
  end.

(** [if (!priceMap["USDC-SPOT"] || priceMap["USDC-SPOT"] === 0) priceMap["USDC-SPOT"] = 1.0] *)
Definition ensure_USDC (proto_active : option bool) (priceMap : list (string * number))
  : list (string * number) :=
  if slot_falsy (get proto_active priceMap "USDC-SPOT")
     || slot_is_zero (get proto_active priceMap "USDC-SPOT")
  then set_number priceMap "USDC-SPOT" (Num.of_Z 1)
  else priceMap.

(** The value of [priceMap[balance.coin] || 0]. *)
Inductive Operand : Type :=
| OpNumber (x : number)
| OpInherited (i : Inherited).

Definition or_zero (s : Slot number) : Operand :=
  match s with
  | Own p => if Num.truthy p then OpNumber p else OpNumber Num.zero
  | FromPrototype (BuiltinMember k) => OpInherited (BuiltinMember k)
  | FromPrototype (PollutedActive true) => OpInherited (PollutedActive true)
  | FromPrototype (PollutedActive false) => OpNumber Num.zero
  | Absent => OpNumber Num.zero
  end.

(** The operand as a factor of [*]. *)
Definition ToNumber (o : Operand) : number :=
  match o with
  | OpNumber x => x
  | OpInherited (BuiltinMember _) => Num.NaN
  | OpInherited (PollutedActive b) => if b then Num.of_Z 1 else Num.zero
  end.

(** [price.toString()] *)
Definition toString (o : Operand) : string :=
  match o with
  | OpNumber x => NumberToString x
  | OpInherited (BuiltinMember k) => builtin_toString k
  | OpInherited (PollutedActive b) => if b then "true" else "false"
  end.

(** The callback of [spotState.balances.map]. *)
Definition enrich (proto_active : option bool) (priceMap : list (string * number))
           (balance : SpotBalance) : SpotBalance :=
  let tokenAmount := parseFloat (balance_total balance) in
  let price_ := or_zero (get proto_active priceMap (balance_coin balance)) in
  let usdValue_ := Num.mul tokenAmount (ToNumber price_) in
  {| balance_coin := balance_coin balance;
     balance_total := balance_total balance;
     balance_others := balance_others balance;
     price := Some (toString price_);
     usdValue := Some (NumberToString usdValue_) |}.

(** [spotState && spotState.balances && spotState.balances.length > 0] *)
Definition has_balances (spotState : option SpotClearinghouseState) : option (list SpotBalance) :=
  match spotState with
  | Some {| balances := Some (b :: bs) |} => Some (b :: bs)
  | _ => None
  end.

(** The inner [try]/[catch] around the spot fetches: whatever is thrown is
    logged and dropped, [spotState] keeps the value it had. *)
Definition spot_section (ex : Exchange) (proto_active : option bool) (user : string)
  : list ClientCall * option SpotClearinghouseState :=
  match getSpotClearinghouseState ex user with
  | Threw _ => ([GetSpotClearinghouseState user], None)
  | Returned spotState =>
      match has_balances spotState with
      | None => ([GetSpotClearinghouseState user], spotState)
      | Some bs =>
          match getSpotMetaAndAssetCtxs ex with
          | Threw _ =>
              ([GetSpotClearinghouseState user; GetSpotMetaAndAssetCtxs], spotState)
          | Returned (spotMeta, spotAssetCtxs) =>
              let priceMap := ensure_USDC proto_active (build_priceMap spotAssetCtxs) in
              ([GetSpotClearinghouseState user; GetSpotMetaAndAssetCtxs],
               Some {| balances := Some (map (enrich proto_active priceMap) bs) |})
          end
      end
  end.

(** The outer [try] block of the account branch. *)
Definition account_body (env : Env) (st : State) : Attempt AccountInfo :=
  let ex := exchange env in
  let creds := userCredentials st in
  _ <- await Connect (connect ex) ;;
  if truthy_str (walletAddress creds) then
    let user := show (walletAddress creds) in
    perpState <- await (GetClearinghouseState user) (getClearinghouseState ex user) ;;
    let '(t, spotState) := spot_section ex (Object_prototype_active st) user in
    (t, Returned (Account perpState spotState
                          (if testnet creds then "testnet" else "mainnet")))
  else ret EmptyAccount.

Definition read_account (env : Env) (st : State) (u : string) : Run ReadResult :=
  let st1 := ensure_client st in
  match hyperliquidClient st1 with
  | None =>
      {| completion := Threw (McpError InvalidRequest
                                "No credentials provided. Please authenticate first.");
         final := st1; calls := [] |}
  | Some _ =>
      let '(t, r) :=
        catch_rethrow
          (accountInfo <- account_body env st1 ;;
           ret (read_result u (JSON_stringify_account accountInfo)))
          (fun error => McpError InternalError
                          ("Failed to fetch account information: " ++ errorMessage error)) in
      {| completion := r; final := st1; calls := t |}
  end.

(** *** Read resource: the strategy branch *)

Definition read_strategy (st : State) (u : string) : Run ReadResult :=
  let strategyId := replace u "hyperliquid://strategy/" "" in
  let found (d : Document) :=
    {| completion := Returned (read_result u d); final := st; calls := [] |} in
  let not_found :=
    {| completion := Threw (McpError InvalidRequest
                              ("Strategy " ++ strategyId ++ " not found"));
       final := st; calls := [] |} in
  match get (Object_prototype_active st) (strategies st) strategyId with
  | Own strategy => found (JSON_stringify_strategy strategy)
  | FromPrototype (BuiltinMember k) =>
      found (if k =? "__proto__"
             then JSON_stringify_prototype (Object_prototype_active st)
             else Undefined)
  | FromPrototype (PollutedActive true) => found (JSON_stringify_bool true)
  | FromPrototype (PollutedActive false) => not_found
  | Absent => not_found
  end.

Definition read_resource (env : Env) (st : State) (u : string) : Run ReadResult :=
  if u =? "hyperliquid://account" then read_account env st u
  else if startsWith u "hyperliquid://strategy/" then read_strategy st u
  else {| completion := Threw (McpError InvalidRequest ("Resource not found: " ++ u));
          final := st; calls := [] |}.

(** *** Call tool *)

Definition thrown {A} (st : State) (code : ErrorCode) (message : string) : Run A :=
  {| completion := Threw (McpError code message); final := st; calls := [] |}.

Definition returned (st : State) (d : Document) : Run ToolResult :=
  {| completion := Returned (text_result d); final := st; calls := [] |}.

(** [case "authenticate"] *)
Definition authenticate (st : State) (args : Authenticate.Args) : Run ToolResult :=
  let privateKey_ := Authenticate.privateKey args in
  let walletAddress_ := Authenticate.walletAddress args in
  let testnet_ := match Authenticate.testnet args with Some b => b | None => true end in
  let vaultAddress_ := Authenticate.vaultAddress args in
  if negb (truthy_str privateKey_) && negb (truthy_str walletAddress_) then
    thrown st InvalidParams "Either privateKey or walletAddress must be provided"
  else if truthy_str privateKey_
          && negb (ethers_Wallet
                     (if startsWith (show privateKey_) "0x"
                      then show privateKey_
                      else "0x" ++ show privateKey_)) then
    thrown st InvalidParams "Invalid private key format"
  else
    let st1 := {| userCredentials := {| privateKey := privateKey_;
                                        walletAddress := walletAddress_;
                                        testnet := testnet_;
                                        vaultAddress := vaultAddress_ |};
                  strategies := strategies st;
                  hyperliquidClient := hyperliquidClient st;
                  Object_prototype_active := Object_prototype_active st |} in
    let st2 := with_client st1 (initializeClient st1) in
    match hyperliquidClient st2 with
    | None => thrown st2 InternalError "Failed to initialize Hyperliquid client"
    | Some _ =>
        returned st2 (Text ("Successfully authenticated with Hyperliquid "
                            ++ (if testnet_ then "testnet" else "mainnet")))
    end.

(** [case "get_market_data"] *)
Definition get_market_data (env : Env) (st : State) (args : GetMarketData.Args)
  : Run ToolResult :=
  let symbol_ := GetMarketData.symbol args in
  if negb (truthy_str symbol_) then
    thrown st InvalidParams "Symbol is required"
  else
    let st1 := ensure_client st in
    match hyperliquidClient st1 with
    | None => thrown st1 InvalidRequest "No credentials provided. Please authenticate first."
    | Some _ =>
        let '(t, r) :=
          catch_rethrow
            (_ <- await Connect (connect (exchange env)) ;;
             l2Book <- await (GetL2Book (show symbol_))
                             (getL2Book (exchange env) (show symbol_)) ;;
             ret (text_result (JSON_stringify_market (show symbol_) l2Book
                                                     (Date_toISOString env))))
            (fun error => McpError InternalError
                            ("Failed to fetch market data: " ++ errorMessage error)) in
        {| completion := r; final := st1; calls := t |}
    end.

(** The [try] block of [case "place_order"]. *)
Definition place_order_body (env : Env) (symbol_ side_ : option string) (size_ : number)
           (price_ : option number) (orderType_ : option string) (reduceOnly_ : bool)
  : Attempt ToolResult :=
  _ <- await Connect (connect (exchange env)) ;;
  orderRequest <-
    (if is_string orderType_ "limit" then
       if negb (truthy_num price_) then
         throw (McpError InvalidParams "Price is required for limit orders")
       else
         ret {| coin := show symbol_; is_buy := is_string side_ "buy"; sz := size_;
                reduce_only := reduceOnly_;
                limit_px := price_; order_type := Limit_Gtc |}
     else
       ret {| coin := show symbol_; is_buy := is_string side_ "buy"; sz := size_;
              reduce_only := reduceOnly_;
              limit_px := None; order_type := Market |}) ;;
  result <- await (PlaceOrder orderRequest) (placeOrder (exchange env) orderRequest) ;;
  ret (text_result (JSON_stringify result)).

(** [case "place_order"] *)
Definition place_order (env : Env) (st : State) (args : PlaceOrderArgs.Args)
  : Run ToolResult :=
  let symbol_ := PlaceOrderArgs.symbol args in
  let side_ := PlaceOrderArgs.side args in
  let size_ := Number (PlaceOrderArgs.size args) in
  let price_ := PlaceOrderArgs.price args in
  let orderType_ := PlaceOrderArgs.orderType args in
  let reduceOnly_ :=
    match PlaceOrderArgs.reduceOnly args with Some b => b | None => false end in
  if negb (truthy_str symbol_) || negb (truthy_str side_)
     || negb (Num.truthy size_) || negb (truthy_str orderType_) then
    thrown st InvalidParams "Symbol, side, size, and orderType are required"
  else
    let st1 := ensure_client st in
    match hyperliquidClient st1 with
    | None => thrown st1 InvalidRequest "No credentials provided. Please authenticate first."
    | Some _ =>
        if negb (truthy_str (privateKey (userCredentials st1))) then
          thrown st1 InvalidRequest "Private key is required for trading operations"
        else
          let '(t, r) :=
            catch_rethrow
              (place_order_body env symbol_ side_ size_ price_ orderType_ reduceOnly_)
              (fun error => McpError InternalError
                              ("Failed to place order: " ++ errorMessage error)) in
          {| completion := r; final := st1; calls := t |}
    end.

(** [case "cancel_order"] *)
Definition cancel_order (env : Env) (st : State) (args : CancelOrderArgs.Args)
  : Run ToolResult :=
  let symbol_ := CancelOrderArgs.symbol args in
  let orderId_ := CancelOrderArgs.orderId args in
  if negb (truthy_str symbol_) || negb (truthy_str orderId_) then
    thrown st InvalidParams "Symbol and orderId are required"
  else
    let st1 := ensure_client st in
    match hyperliquidClient st1 with
    | None => thrown st1 InvalidRequest "No credentials provided. Please authenticate first."
    | Some _ =>
        if negb (truthy_str (privateKey (userCredentials st1))) then
          thrown st1 InvalidRequest "Private key is required for trading operations"
        else
          let o := parseInt10 (show orderId_) in
          let '(t, r) :=
            catch_rethrow
              (_ <- await Connect (connect (exchange env)) ;;
               result <- await (CancelOrder (show symbol_) o)
                               (cancelOrder (exchange env) (show symbol_) o) ;;
               ret (text_result (JSON_stringify result)))
              (fun error => McpError InternalError
                              ("Failed to cancel order: " ++ errorMessage error)) in
          {| completion := r; final := st1; calls := t |}
    end.

(** [`strategy-${Date.now()}-${Math.floor(Math.random() * 1000)}`] *)
Definition generate_id (env : Env) : string :=
  "strategy-" ++ NumberToString (Date_now env) ++ "-"
  ++ NumberToString (Num.floor (Num.mul (Math_random env) (Num.of_Z 1000))).

Definition dquote : string := String (ascii_of_nat 34) EmptyString.

(** [case "create_strategy"] *)
Definition create_strategy (env : Env) (st : State) (args : CreateStrategy.Args)
  : Run ToolResult :=
  match CreateStrategy.name args, CreateStrategy.description args,
        CreateStrategy.config args with
  | Some name_, Some description_, Some config_ =>
      if negb (truthy_str (Some name_)) || negb (truthy_str (Some description_))
         || negb (truthy_json (Some config_)) then
        thrown st InvalidParams "Name, description, and config are required"
      else
        let id_ := generate_id env in
        let strategy := {| id := id_; name := name_; description := description_;
                           config := config_; active := false |} in
        returned (with_strategies st (own_set (strategies st) id_ strategy))
                 (Text ("Created strategy " ++ dquote ++ name_ ++ dquote
                        ++ " with ID: " ++ id_))
  | _, _, _ => thrown st InvalidParams "Name, description, and config are required"
  end.

Definition set_active (s : Strategy) (b : bool) : Strategy :=
  {| id := id s; name := name s; description := description s;
     config := config s; active := b |}.

(** [case "activate_strategy"] *)
Definition activate_strategy (st : State) (args : ActivateStrategy.Args)
  : Run ToolResult :=
  let strategyId_ := ActivateStrategy.strategyId args in
  (* [args.active] is read through the prototype chain as well *)
  let active_ :=
    match ActivateStrategy.active args with
    | Some b => b
    | None => match Object_prototype_active st with Some b => b | None => false end
    end in
  if negb (truthy_str strategyId_) then
    thrown st InvalidParams "StrategyId and active status are required"
  else
    let k := show strategyId_ in
    let done (st' : State) :=
      returned st' (Text ("Strategy " ++ k ++ " "
                          ++ (if active_ then "activated" else "deactivated"))) in
    let not_found := thrown st InvalidRequest ("Strategy " ++ k ++ " not found") in
    match get (Object_prototype_active st) (strategies st) k with
    | Absent => not_found
    | FromPrototype (PollutedActive false) => not_found
    | Own strategy =>
        done (with_strategies st (own_set (strategies st) k (set_active strategy active_)))
    | FromPrototype (BuiltinMember b) =>
        (* the flag lands on the inherited object: on [Object.prototype]
           itself for [__proto__], on a built-in function otherwise *)
        if b =? "__proto__" then
          done {| userCredentials := userCredentials st;
                  strategies := strategies st;
                  hyperliquidClient := hyperliquidClient st;
                  Object_prototype_active := Some active_ |}
        else done st
    | FromPrototype (PollutedActive true) =>
        (* a property assignment on the primitive [true] throws in strict mode *)
        {| completion := Threw (OtherError
                                  "Cannot create property 'active' on boolean 'true'");
           final := st; calls := [] |}
    end.

(** The [switch] of the call-tool handler. *)
Inductive ToolCall : Type :=
| call_authenticate (args : Authenticate.Args)
| call_get_market_data (args : GetMarketData.Args)
| call_place_order (args : PlaceOrderArgs.Args)
| call_cancel_order (args : CancelOrderArgs.Args)
| call_create_strategy (args : CreateStrategy.Args)
| call_activate_strategy (args : ActivateStrategy.Args)
| call_other (tool : string).

Definition call_tool (env : Env) (st : State) (c : ToolCall) : Run ToolResult :=
  match c with
  | call_authenticate args => authenticate st args
  | call_get_market_data args => get_market_data env st args
  | call_place_order args => place_order env st args
  | call_cancel_order args => cancel_order env st args
  | call_create_strategy args => create_strategy env st args
  | call_activate_strategy args => activate_strategy st args
  | call_other tool => thrown st MethodNotFound ("Unknown tool: " ++ tool)
  end.

(** *** The server: one request after the other *)

Inductive Request : Type :=
| ListResources
| ReadResource (u : string)
| CallTool (c : ToolCall).

(** The state a request leaves. *)
Definition handle (env : Env) (st : State) (r : Request) : State :=
  match r with
  | ListResources => st
  | ReadResource u => final (read_resource env st u)
  | CallTool c => final (call_tool env st c)
  end.

(** The state after a sequence of requests, each with its environment. *)
Definition serve (st : State) (requests : list (Env * Request)) : State :=
  fold_left (fun st' er => handle (fst er) st' (snd er)) requests st.

End Handlers.

(** ** A host to run the handlers on

    Stand-ins for the built-ins and the library constructors, used where a
    handler is evaluated on a concrete request.  [parse_decimal] reads an
    optional sign, decimal digits and an optional fraction; it agrees with
    [parseFloat] on strings of that form with at most fifteen significant
    digits, and on strings that start with none of a digit, a sign, a dot,
    white space or [Infinity] (both give [NaN]).  [print_number] prints
    [NaN], zero, integers below 2^53 and short dyadic fractions the way
    [Number.prototype.toString] does. *)

Module SampleHost.

Definition digit (c : ascii) : option Z :=
  let n := nat_of_ascii c in
  if (48 <=? n)%nat && (n <=? 57)%nat then Some (Z.of_nat (n - 48)) else None.

(** Leading digits of [s]: accumulated value, digits read, rest. *)
Fixpoint read_digits (s : string) (acc : Z) (n : nat) : Z * nat * string :=
  match s with
  | EmptyString => (acc, n, s)
  | String c s' =>
      match digit c with
      | Some d => read_digits s' (10 * acc + d)%Z (S n)
      | None => (acc, n, s)
      end
  end.

Definition parse_decimal (s : string) : number :=
  let '(neg, s1) :=
    match s with
    | String "-" r => (true, r)
    | String "+" r => (false, r)
    | _ => (false, s)
    end in
  let '(ip, ni, s2) := read_digits s1 0 0 in
  let '(m, nf) :=
    match s2 with
    | String "." r => let '(fp, nf, _) := read_digits r ip 0 in (fp, nf)
    | _ => (ip, O)
    end in
  if (ni + nf =? 0)%nat then Num.NaN
  else
    let v := SFdiv Num.prec Num.emax (Num.of_Z m) (Num.of_Z (10 ^ Z.of_nat nf)) in
    if neg then SFopp v else v.

(** An optional sign and decimal digits. *)
Definition parse_integer (s : string) : number :=
  let '(neg, s1) :=
    match s with
    | String "-" r => (true, r)
    | String "+" r => (false, r)
    | _ => (false, s)
    end in
  let '(m, n, _) := read_digits s1 0 0 in
  if (n =? 0)%nat then Num.NaN
  else if neg then SFopp (Num.of_Z m) else Num.of_Z m.

Definition decimal (z : Z) : string := NilZero.string_of_uint (N.to_uint (Z.to_N z)).

Fixpoint zeros (n : nat) : string :=
  match n with O => "" | S n' => String "0" (zeros n') end.

(** Drops the zeros at the end of [s]. *)
Fixpoint strip_zeros (s : string) : string :=
  match s with
  | EmptyString => EmptyString
  | String c s' =>
      match strip_zeros s' with
      | EmptyString => if (c =? "0")%char then EmptyString else String c EmptyString
      | r => String c r
      end
  end.

Definition print_number (x : number) : string :=
  match x with
  | S754_nan => "NaN"
  | S754_zero _ => "0"
  | S754_infinity s => if s then "-Infinity" else "Infinity"
  | S754_finite s m e =>
      let sign := if s then "-" else "" in
      if (0 <=? e)%Z then sign ++ decimal (Z.shiftl (Zpos m) e)
      else
        let k := Z.to_nat (- e) in
        let ip := Z.shiftr (Zpos m) (- e) in
        let fp := ((Zpos m - Z.shiftl ip (- e)) * 5 ^ (- e))%Z in
        let fd := decimal fp in
        let frac := strip_zeros (zeros (k - String.length fd) ++ fd) in
        sign ++ decimal ip ++ (if frac =? "" then "" else "." ++ frac)
  end.

Definition code_number (c : ErrorCode) : string :=
  match c with
  | ConnectionClosed => "-32000"
  | RequestTimeout => "-32001"
  | ParseError => "-32700"
  | InvalidRequest => "-32600"
  | MethodNotFound => "-32601"
  | InvalidParams => "-32602"
  | InternalError => "-32603"
  end.

Definition is_hex (c : ascii) : bool :=
  let n := nat_of_ascii c in
  ((48 <=? n) && (n <=? 57) || (97 <=? n) && (n <=? 102) || (65 <=? n) && (n <=? 70))%nat.

Fixpoint all_hex (s : string) : bool :=
  match s with
  | EmptyString => true
  | String c s' => is_hex c && all_hex s'
  end.

Definition host : JsHost := {|
  parseFloat := parse_decimal;
  parseInt10 := parse_integer;
  NumberToString := print_number;
  builtin_toString := fun k =>
    if k =? "__proto__" then "[object Object]"
    else "function " ++ (if k =? "constructor" then "Object" else k)
         ++ "() { [native code] }";
  McpError_message := fun c m => "MCP error " ++ code_number c ++ ": " ++ m;
  ethers_Wallet := fun key =>
    startsWith key "0x" && (String.length key =? 66)%nat && all_hex (string_drop 2 key);
  new_Hyperliquid := fun _ => true
|}.

Definition key : string :=
  "0x0123456789abcdef0123456789abcdef0123456789abcdef0123456789abcdef".

Definition address : string := "0x1111111111111111111111111111111111111111".

(** The state after [authenticate] with [key] and [address] on the test net. *)
Definition authenticated : State := {|
  userCredentials := {| privateKey := Some key; walletAddress := Some address;
                        testnet := true; vaultAddress := None |};
  strategies := [];
  hyperliquidClient := Some {| client_privateKey := Some key; client_testnet := true;
                               client_walletAddress := Some address;
                               client_vaultAddress := None; enableWs := true |};
  Object_prototype_active := None
|}.

(** An exchange that answers every call. *)
Definition up : Exchange := {|
  connect := Returned tt;
  getClearinghouseState := fun _ => Returned (JObject []);
  getSpotClearinghouseState := fun _ => Returned (Some {| balances := Some [] |});
  getSpotMetaAndAssetCtxs := Returned (JObject [], []);
  getL2Book := fun _ => Returned (JObject []);
  placeOrder := fun _ => Returned (JObject [("status", JString "ok")]);
  cancelOrder := fun _ _ => Returned (JObject [("status", JString "ok")])
|}.

Definition env (ex : Exchange) (now random : number) : Env := {|
  exchange := ex;
  Date_now := now;
  Math_random := random;
  Date_toISOString := "2024-01-01T00:00:00.000Z"
|}.

Definition now : number := Num.of_Z 1700000000000.

(** Two results of [Math.random()] in the same thousandth: 1234/4096 and 1235/4096. *)
Definition random1 : number := Num.make 1234 (-12).
Definition random2 : number := Num.make 1235 (-12).

Definition anonymous : Authenticate.Args := {|
  Authenticate.privateKey := None;
  Authenticate.walletAddress := None;
  Authenticate.testnet := Some false;
  Authenticate.vaultAddress := Some "0x2222222222222222222222222222222222222222"
|}.

Definition activate (k : string) : ActivateStrategy.Args := {|
  ActivateStrategy.strategyId := Some k;
  ActivateStrategy.active := Some true
|}.

Definition order (side_ : string) (size_ : Z) (orderType_ : string) : PlaceOrderArgs.Args := {|
  PlaceOrderArgs.symbol := Some "BTC-PERP";
  PlaceOrderArgs.side := Some side_;
  PlaceOrderArgs.size := Some (Num.of_Z size_);
  PlaceOrderArgs.price := None;
  PlaceOrderArgs.orderType := Some orderType_;
  PlaceOrderArgs.reduceOnly := None
|}.

(** An exchange whose perpetual fetch fails. *)
Definition perp_down : Exchange := {|
  connect := Returned tt;
  getClearinghouseState := fun _ => Threw (OtherError "perpetuals unavailable");
  getSpotClearinghouseState := fun _ => Returned (Some {| balances := Some [] |});
  getSpotMetaAndAssetCtxs := Returned (JObject [], []);
  getL2Book := fun _ => Returned (JObject []);
  placeOrder := fun _ => Returned (JObject []);
  cancelOrder := fun _ _ => Returned (JObject [])
|}.

(** An exchange whose spot fetch fails. *)
Definition spot_down : Exchange := {|
  connect := Returned tt;
  getClearinghouseState := fun _ => Returned (JObject [("marginSummary", JObject [])]);
  getSpotClearinghouseState := fun _ => Threw (OtherError "spot unavailable");
  getSpotMetaAndAssetCtxs := Returned (JObject [], []);
  getL2Book := fun _ => Returned (JObject []);
  placeOrder := fun _ => Returned (JObject []);
  cancelOrder := fun _ _ => Returned (JObject [])
|}.

Definition balance (coin_ total_ : string) : SpotBalance := {|
  balance_coin := coin_;
  balance_total := total_;
  balance_others := [("hold", JString "0.0")];
  price := None;
  usdValue := None
|}.

(** An exchange with three spot balances and a mark price for one coin. *)
Definition spot_up : Exchange := {|
  connect := Returned tt;
  getClearinghouseState := fun _ => Returned (JObject [("marginSummary", JObject [])]);
  getSpotClearinghouseState := fun _ =>
    Returned (Some {| balances := Some [ balance "PURR-SPOT" "10";
                                         balance "HFUN-SPOT" "4";
                                         balance "JEFF-SPOT" "abc" ] |});
  getSpotMetaAndAssetCtxs :=
    Returned (JObject [], [ {| ctx_coin := "PURR-SPOT"; markPx := "2.5" |} ]);
  getL2Book := fun _ => Returned (JObject []);
  placeOrder := fun _ => Returned (JObject []);
  cancelOrder := fun _ _ => Returned (JObject [])
|}.

Definition momentum : CreateStrategy.Args := {|
  CreateStrategy.name := Some "momentum";
  CreateStrategy.description := Some "buys strength";
  CreateStrategy.config := Some (JObject [("window", JNumber (Num.of_Z 14))])
|}.

End SampleHost.

(** ** Vocabulary of the statements *)

(** [Object.prototype] has a property named [k]. *)
Definition inherits (proto_active : option bool) (k : string) : bool :=
  is_builtin k
  || ((k =? "active") && match proto_active with Some _ => true | None => false end).

(** The strategy id of a request is the key of a stored record. *)
Definition names_record (st : State) (strategyId : option string) : bool :=
  match strategyId with
  | Some k => match own_get (strategies st) k with Some _ => true | None => false end
  | None => false
  end.

(** The strategy id of a request is the name of an inherited property. *)
Definition names_inherited (st : State) (strategyId : option string) : bool :=
  match strategyId with
  | Some k => inherits (Object_prototype_active st) k
  | None => false
  end.

(** The code of the [McpError] a handler threw, if it threw one. *)
Definition error_code {A} (c : Completion A) : option ErrorCode :=
  match c with
  | Threw (McpError code _) => Some code
  | _ => None
  end.

(** The orders a run submitted to the exchange. *)
Definition submitted (t : list ClientCall) : list OrderRequest :=
  flat_map (fun c => match c with PlaceOrder o => [o] | _ => [] end) t.

(** The request activates or deactivates the strategy [k], or is a
    [create_strategy] that generates the id [k]. *)
Definition touches {host : JsHost} (k : string) (er : Env * Request) : bool :=
  match snd er with
  | CallTool (call_activate_strategy args) => is_string (ActivateStrategy.strategyId args) k
  | CallTool (call_create_strategy _) => generate_id (fst er) =? k
  | _ => false
  end.

(** [userCredentials.testnet ? "testnet" : "mainnet"] *)
Definition network (st : State) : string :=
  if testnet (userCredentials st) then "testnet" else "mainnet".

(** ** List tools

    The catalog the list-tools handler returns: for every tool its name,
    its description and its input schema. *)

Record Property : Type := {
  property_name : string;
  property_type : string;
  property_enum : list string;
  property_description : string
}.

Record Tool : Type := {
  tool_name : string;
  tool_description : string;
  properties : list Property;
  required : list string
}.

Definition property (n t d : string) : Property :=
  {| property_name := n; property_type := t; property_enum := [];
     property_description := d |}.

Definition list_tools : list Tool :=
  [ {| tool_name := "authenticate";
       tool_description := "Authenticate with Hyperliquid using private key or wallet address";
       properties :=
         [ property "privateKey" "string"
             "Private key for authentication (optional if walletAddress is provided)";
           property "walletAddress" "string"
             "Wallet address for authentication (optional if privateKey is provided)";
           property "testnet" "boolean" "Whether to use testnet (default: true)";
           property "vaultAddress" "string" "Vault address (optional)" ];
       required := [] |};
    {| tool_name := "get_market_data";
       tool_description := "Get current market data for a specific asset";
       properties :=
         [ property "symbol" "string"
             "Symbol to get market data for (e.g., BTC-PERP, ETH-SPOT)" ];
       required := ["symbol"] |};
    {| tool_name := "place_order";
       tool_description := "Place an order on Hyperliquid";
       properties :=
         [ property "symbol" "string" "Symbol to trade (e.g., BTC-PERP, ETH-SPOT)";
           {| property_name := "side"; property_type := "string";
              property_enum := ["buy"; "sell"];
              property_description := "Order side (buy or sell)" |};
           property "size" "number" "Order size";
           property "price" "number" "Limit price (use 0 for market orders)";
           {| property_name := "orderType"; property_type := "string";
              property_enum := ["limit"; "market"];
              property_description := "Order type (limit or market)" |};
           property "reduceOnly" "boolean" "Whether the order is reduce-only" ];
       required := ["symbol"; "side"; "size"; "orderType"] |};
    {| tool_name := "cancel_order";
       tool_description := "Cancel an existing order";
       properties :=
         [ property "symbol" "string" "Symbol of the order to cancel";
           property "orderId" "string" "ID of the order to cancel" ];
       required := ["symbol"; "orderId"] |};
    {| tool_name := "create_strategy";
       tool_description := "Create a new trading strategy";
       properties :=
         [ property "name" "string" "Name of the strategy";
           property "description" "string" "Description of the strategy";
           property "config" "object" "Strategy configuration" ];
       required := ["name"; "description"; "config"] |};
    {| tool_name := "activate_strategy";
       tool_description := "Activate or deactivate a strategy";
       properties :=
         [ property "strategyId" "string" "ID of the strategy to activate/deactivate";
           property "active" "boolean"
             "Whether to activate (true) or deactivate (false) the strategy" ];
       required := ["strategyId"; "active"] |} ].

(** ** The call-tool request: a tool name and an argument bag

    [request.params.arguments], with every property any schema declares,
    at the type the schema gives it. *)

Module Arguments.
Record t : Type := {
  privateKey : option string;
  walletAddress : option string;
  testnet : option bool;
  vaultAddress : option string;
  symbol : option string;
  side : option string;
  size : option number;
  price : option number;
  orderType : option string;
  reduceOnly : option bool;
  orderId : option string;
  name : option string;
  description : option string;
  config : option JSON;
  strategyId : option string;
  active : option bool
}.
End Arguments.

Definition is_some {A} (o : option A) : bool :=
  match o with Some _ => true | None => false end.

(** The bag has the property [field]. *)
Definition has (args : Arguments.t) (field : string) : bool :=
  if field =? "privateKey" then is_some (Arguments.privateKey args)
  else if field =? "walletAddress" then is_some (Arguments.walletAddress args)
  else if field =? "testnet" then is_some (Arguments.testnet args)
  else if field =? "vaultAddress" then is_some (Arguments.vaultAddress args)
  else if field =? "symbol" then is_some (Arguments.symbol args)
  else if field =? "side" then is_some (Arguments.side args)
  else if field =? "size" then is_some (Arguments.size args)
  else if field =? "price" then is_some (Arguments.price args)
  else if field =? "orderType" then is_some (Arguments.orderType args)
  else if field =? "reduceOnly" then is_some (Arguments.reduceOnly args)
  else if field =? "orderId" then is_some (Arguments.orderId args)
  else if field =? "name" then is_some (Arguments.name args)
  else if field =? "description" then is_some (Arguments.description args)
  else if field =? "config" then is_some (Arguments.config args)
  else if field =? "strategyId" then is_some (Arguments.strategyId args)
  else if field =? "active" then is_some (Arguments.active args)
  else false.

(** [switch (request.params.name)]: the case taken, with the properties
    that case reads. *)
Definition select (tool : string) (args : Arguments.t) : ToolCall :=
  if tool =? "authenticate" then
    call_authenticate
      {| Authenticate.privateKey := Arguments.privateKey args;
         Authenticate.walletAddress := Arguments.walletAddress args;
         Authenticate.testnet := Arguments.testnet args;
         Authenticate.vaultAddress := Arguments.vaultAddress args |}
  else if tool =? "get_market_data" then
    call_get_market_data {| GetMarketData.symbol := Arguments.symbol args |}
  else if tool =? "place_order" then
    call_place_order
      {| PlaceOrderArgs.symbol := Arguments.symbol args;
         PlaceOrderArgs.side := Arguments.side args;
         PlaceOrderArgs.size := Arguments.size args;
         PlaceOrderArgs.price := Arguments.price args;
         PlaceOrderArgs.orderType := Arguments.orderType args;
         PlaceOrderArgs.reduceOnly := Arguments.reduceOnly args |}
  else if tool =? "cancel_order" then
    call_cancel_order
      {| CancelOrderArgs.symbol := Arguments.symbol args;
         CancelOrderArgs.orderId := Arguments.orderId args |}
  else if tool =? "create_strategy" then
    call_create_strategy
      {| CreateStrategy.name := Arguments.name args;
         CreateStrategy.description := Arguments.description args;
         CreateStrategy.config := Arguments.config args |}
  else if tool =? "activate_strategy" then
    call_activate_strategy
      {| ActivateStrategy.strategyId := Arguments.strategyId args;
         ActivateStrategy.active := Arguments.active args |}
  else call_other tool.

(** The call-tool handler on a request as it arrives. *)
Definition call_tool_request {host : JsHost} (env : Env) (st : State)
           (tool : string) (args : Arguments.t) : Run ToolResult :=
  call_tool env st (select tool args).

(** ** What a request does, besides the state it leaves *)

(** The client calls a request makes. *)
Definition calls_of {host : JsHost} (env : Env) (st : State) (r : Request)
  : list ClientCall :=
  match r with
  | ListResources => []
  | ReadResource u => calls (read_resource env st u)
  | CallTool c => calls (call_tool env st c)
  end.

(** The error a request ends in, if it throws. *)
Definition error_of {host : JsHost} (env : Env) (st : State) (r : Request)
  : option Thrown :=
  match r with
  | ListResources => None
  | ReadResource u =>
      match completion (read_resource env st u) with Threw e => Some e | _ => None end
  | CallTool c =>
      match completion (call_tool env st c) with Threw e => Some e | _ => None end
  end.

Definition is_authenticate (r : Request) : bool :=
  match r with
  | CallTool (call_authenticate _) => true
  | _ => false
  end.

(** Calls that place or cancel an order. *)
Definition trading (c : ClientCall) : bool :=
  match c with
  | PlaceOrder _ | CancelOrder _ _ => true
  | _ => false
  end.

(** The request is a [create_strategy] that generates the id [k]. *)
Definition regenerates {host : JsHost} (k : string) (er : Env * Request) : bool :=
  match snd er with
  | CallTool (call_create_strategy _) => generate_id (fst er) =? k
  | _ => false
  end.

(** What a record is apart from its flag. *)
Definition same_definition (s s' : Strategy) : Prop :=
  id s' = id s /\ name s' = name s /\ description s' = description s
  /\ config s' = config s.

(** The keys of [strategies] are pairwise distinct, every record carries
    its key as [id], and every key starts with [strategy-]. *)
Definition well_formed (st : State) : Prop :=
  NoDup (map fst (strategies st))
  /\ Forall (fun entry => id (snd entry) = fst entry
                          /\ startsWith (fst entry) "strategy-" = true)
            (strategies st).

(** The last context of [ctxs] for the coin [k]. *)
Fixpoint last_markPx (ctxs : list SpotAssetCtx) (k : string) : option string :=
  match ctxs with
  | [] => None
  | c :: ctxs' =>
      match last_markPx ctxs' k with
      | Some px => Some px
      | None => if ctx_coin c =? k then Some (markPx c) else None
      end
  end.

(** The credentials an [authenticate] call asks to store. *)
Definition requested (args : Authenticate.Args) : UserCredentials :=
  {| privateKey := Authenticate.privateKey args;
     walletAddress := Authenticate.walletAddress args;
     testnet := match Authenticate.testnet args with Some b => b | None => true end;
     vaultAddress := Authenticate.vaultAddress args |}.

(** The options [initializeClient] passes to [new Hyperliquid]. *)
Definition options (creds : UserCredentials) : Hyperliquid :=
  {| client_privateKey := privateKey creds;
     client_testnet := testnet creds;
     client_walletAddress := walletAddress creds;
     client_vaultAddress := vaultAddress creds;
     enableWs := true |}.

(** The key [authenticate] hands to [ethers.Wallet]. *)
Definition formattedPrivateKey (key : string) : string :=
  if startsWith key "0x" then key else "0x" ++ key.

(** More requests and exchanges to run the handlers on. *)
Module Scenario.

(** A host whose [Hyperliquid] constructor refuses the main net. *)
Definition testnet_only : JsHost := {|
  parseFloat := SampleHost.parse_decimal;
  parseInt10 := SampleHost.parse_integer;
  NumberToString := SampleHost.print_number;
  builtin_toString := @builtin_toString SampleHost.host;
  McpError_message := @McpError_message SampleHost.host;
  ethers_Wallet := @ethers_Wallet SampleHost.host;
  new_Hyperliquid := fun o => client_testnet o
|}.

Definition sign_in (key wallet : option string) (net : option bool) : Authenticate.Args := {|
  Authenticate.privateKey := key;
  Authenticate.walletAddress := wallet;
  Authenticate.testnet := net;
  Authenticate.vaultAddress := None
|}.

(** The state after [authenticate] with a wallet address only. *)
Definition read_only : State := {|
  userCredentials := {| privateKey := None; walletAddress := Some SampleHost.address;
                        testnet := true; vaultAddress := None |};
  strategies := [];
  hyperliquidClient := Some {| client_privateKey := None; client_testnet := true;
                               client_walletAddress := Some SampleHost.address;
                               client_vaultAddress := None; enableWs := true |};
  Object_prototype_active := None
|}.

(** The state after [authenticate] with a private key only. *)
Definition key_only : State := {|
  userCredentials := {| privateKey := Some SampleHost.key; walletAddress := None;
                        testnet := true; vaultAddress := None |};
  strategies := [];
  hyperliquidClient := Some {| client_privateKey := Some SampleHost.key;
                               client_testnet := true;
                               client_walletAddress := None;
                               client_vaultAddress := None; enableWs := true |};
  Object_prototype_active := None
|}.

Definition momentum_record (flag : bool) : Strategy := {|
  id := "strategy-1700000000000-301";
  name := "momentum";
  description := "buys strength";
  config := JObject [("window", JNumber (Num.of_Z 14))];
  active := flag
|}.

(** A state with one strategy and no credentials. *)
Definition one_strategy : State := {|
  userCredentials := userCredentials initial_state;
  strategies := [("strategy-1700000000000-301", momentum_record false)];
  hyperliquidClient := None;
  Object_prototype_active := None
|}.

Definition limit_order (price_ : Z) : PlaceOrderArgs.Args := {|
  PlaceOrderArgs.symbol := Some "BTC-PERP";
  PlaceOrderArgs.side := Some "buy";
  PlaceOrderArgs.size := Some (Num.of_Z 2);
  PlaceOrderArgs.price := Some (Num.of_Z price_);
  PlaceOrderArgs.orderType := Some "limit";
  PlaceOrderArgs.reduceOnly := Some true
|}.

(** An exchange that cannot be reached. *)
Definition unreachable : Exchange := {|
  connect := Threw (OtherError "connection refused");
  getClearinghouseState := fun _ => Returned (JObject []);
  getSpotClearinghouseState := fun _ => Returned None;
  getSpotMetaAndAssetCtxs := Returned (JObject [], []);
  getL2Book := fun _ => Returned (JObject []);
  placeOrder := fun _ => Returned (JObject []);
  cancelOrder := fun _ _ => Returned (JObject [])
|}.

Definition env_of (ex : Exchange) : Env :=
  SampleHost.env ex SampleHost.now SampleHost.random1.

(** A bag with a symbol, a side and an order type, but no size. *)
Definition sizeless : Arguments.t := {|
  Arguments.privateKey := None; Arguments.walletAddress := None;
  Arguments.testnet := None; Arguments.vaultAddress := None;
  Arguments.symbol := Some "BTC-PERP"; Arguments.side := Some "buy";
  Arguments.size := None; Arguments.price := None;
  Arguments.orderType := Some "market"; Arguments.reduceOnly := None;
  Arguments.orderId := None; Arguments.name := None;
  Arguments.description := None; Arguments.config := None;
  Arguments.strategyId := None; Arguments.active := None
|}.

(** The catalog's entry for [place_order]. *)
Definition place_order_tool : Tool :=
  nth 2 list_tools {| tool_name := ""; tool_description := "";
                      properties := []; required := [] |}.

(** A later millisecond. *)
Definition later : Env :=
  SampleHost.env SampleHost.up (Num.of_Z 1700000000001) SampleHost.random1.

Definition breakout : CreateStrategy.Args := {|
  CreateStrategy.name := Some "breakout";
  CreateStrategy.description := Some "buys new highs";
  CreateStrategy.config := Some (JObject [])
|}.

(** Requests of a session that never signs in again. *)
Definition busy : list (Env * Request) :=
  [ (env_of SampleHost.up, CallTool (call_create_strategy SampleHost.momentum));
    (env_of SampleHost.up, ReadResource "hyperliquid://account");
    (later, CallTool (call_create_strategy breakout));
    (later, CallTool (call_activate_strategy
                        (SampleHost.activate "strategy-1700000000000-301")));
    (later, CallTool (call_place_order (limit_order 100)));
    (later, ListResources) ].

End Scenario.

(** ** The dashboard's API endpoint

    [src/pages/api/hyperliquid.ts], which [setup.sh] writes into the
    dashboard project: a second, smaller front to the same SDK, with its
    own client variable.  The endpoint reads three things off the client
    object ([walletAddress], [wallet] and [testnet]); what they hold is up
    to the SDK, so the constructor's answer carries them.  Nothing in this
    process writes to [Object.prototype], so the price map is read with no
    inherited [active]. *)

Module Dashboard.

(** What the endpoint finds on a constructed client. *)
Record Internals : Type := {
  client_walletAddress_field : option string;    (* [client['walletAddress']] *)
  client_wallet : option (Completion string);    (* [client['wallet']], with the answer of [getAddress()] *)
  client_testnet_field : bool                    (* [client['testnet']], as a condition *)
}.

Record Client : Type := {
  client_options : Hyperliquid;
  client_internals : Internals
}.

(** One request's outside world. *)
Record World : Type := {
  new_client : Hyperliquid -> Completion Internals;   (* [new Hyperliquid(options)] *)
  sdk : Exchange;
  cannot_destructure : string   (* the engine's [TypeError] message for
                                   [const { ... } = params] without [params] *)
}.

Inductive Section_ (A : Type) : Type :=
| Fetched (a : A)
| SectionError (error : string).        (* [{ error: ... }] *)

Arguments Fetched {A} a.
Arguments SectionError {A} error.

Record FormattedBalance : Type := {
  formatted_coin : string;
  formatted_token : option JSON;
  formatted_total : string;
  formatted_hold : option JSON;
  formatted_entryNtl : option JSON;
  formatted_price : string;
  formatted_usdValue : string
}.

Inductive SpotView : Type :=
| Formatted (formattedBalances : list FormattedBalance)   (* [{...spotState, balances}] *)
| Unformatted (spotState : option SpotClearinghouseState).

Record AccountView : Type := {
  view_network : string;
  view_walletAddress : string;
  view_perpetuals : Section_ JSON;
  view_spot : Section_ SpotView
}.

Inductive Payload : Type :=
| Message (message : string)
| AccountData (accountInfo : AccountView).

(** [res.status(status).json({ success, data, error })] *)
Record Response : Type := {
  status : nat;
  success : bool;
  data : option Payload;
  error : option string
}.

(** [req.method], and [action] and [params] of the body. *)
Record Request : Type := {
  method : string;
  action : option string;
  params : option Authenticate.Args    (* [None]: the body has no [params], or a null one *)
}.

Record Result : Type := {
  response : Response;
  client_after : option Client;       (* [hyperliquidClient] after the request *)
  sdk_calls : list ClientCall
}.

Definition failure (code : nat) (message : string) : Response :=
  {| status := code; success := false; data := None; error := Some message |}.

Definition ok (payload : Payload) : Response :=
  {| status := 200; success := true; data := Some payload; error := None |}.

(** [error instanceof Error ? error.message : fallback] *)
Definition message_or {host : JsHost} (e : Thrown) (fallback : string) : string :=
  match e with
  | McpError c m => McpError_message c m
  | OtherError m => m
  | NonError _ => fallback
  end.

(** [handleAuthenticate], once [params] is there to destructure. *)
Definition authenticate_with {host : JsHost} (w : World) (client : option Client)
           (params_ : Authenticate.Args) : Result :=
  let privateKey_ := Authenticate.privateKey params_ in
  let walletAddress_ := Authenticate.walletAddress params_ in
  let testnet_ := match Authenticate.testnet params_ with Some b => b | None => true end in
  let vaultAddress_ := Authenticate.vaultAddress params_ in
  if negb (truthy_str privateKey_) && negb (truthy_str walletAddress_) then
    {| response := failure 400 "Either privateKey or walletAddress must be provided";
       client_after := client; sdk_calls := [] |}
  else
    let opts := {| client_privateKey := privateKey_;
                   client_testnet := testnet_;
                   client_walletAddress := walletAddress_;
                   client_vaultAddress := vaultAddress_;
                   enableWs := true |} in
    match new_client w opts with
    | Threw e =>
        {| response := failure 500 (message_or e "Authentication failed");
           client_after := client; sdk_calls := [] |}
    | Returned internals =>
        let fresh := Some {| client_options := opts; client_internals := internals |} in
        match connect (sdk w) with
        | Threw e =>
            {| response := failure 500 (message_or e "Authentication failed");
               client_after := fresh; sdk_calls := [Connect] |}
        | Returned _ =>
            {| response :=
                 ok (Message ("Successfully authenticated with Hyperliquid "
                              ++ (if testnet_ then "testnet" else "mainnet")));
               client_after := fresh; sdk_calls := [Connect] |}
        end
    end.

(** [handleAuthenticate]: the destructuring is the first statement of the
    [try], so a missing [params] ends in the same [catch] as a failed
    constructor or [connect]. *)
Definition handleAuthenticate {host : JsHost} (w : World) (client : option Client)
           (params_ : option Authenticate.Args) : Result :=
  match params_ with
  | Some given => authenticate_with w client given
  | None =>
      {| response := failure 500 (message_or (OtherError (cannot_destructure w))
                                             "Authentication failed");
         client_after := client; sdk_calls := [] |}
  end.

(** [balance.token], [balance.hold], [balance.entryNtl] *)
Definition other (balance : SpotBalance) (k : string) : option JSON :=
  own_get (balance_others balance) k.

(** The callback of [spotState.balances.map]. *)
Definition format {host : JsHost} (priceMap : list (string * number))
           (balance : SpotBalance) : FormattedBalance :=
  let tokenAmount := parseFloat (balance_total balance) in
  let price_ := or_zero (get None priceMap (balance_coin balance)) in
  let usdValue_ := Num.mul tokenAmount (ToNumber price_) in
  {| formatted_coin := balance_coin balance;
     formatted_token := other balance "token";
     formatted_total := balance_total balance;
     formatted_hold := other balance "hold";
     formatted_entryNtl := other balance "entryNtl";
     formatted_price := toString price_;
     formatted_usdValue := NumberToString usdValue_ |}.

(** The [try] around the perpetual fetch. *)
Definition perpetuals_section (w : World) (walletAddress_ : string)
  : list ClientCall * Section_ JSON :=
  match getClearinghouseState (sdk w) walletAddress_ with
  | Returned perpState => ([GetClearinghouseState walletAddress_], Fetched perpState)
  | Threw _ =>
      ([GetClearinghouseState walletAddress_],
       SectionError "Failed to fetch perpetuals data")
  end.

(** The [try] around the spot fetches. *)
Definition spot_section {host : JsHost} (w : World) (walletAddress_ : string)
  : list ClientCall * Section_ SpotView :=
  match getSpotClearinghouseState (sdk w) walletAddress_ with
  | Threw _ =>
      ([GetSpotClearinghouseState walletAddress_],
       SectionError "Failed to fetch spot data")
  | Returned spotState =>
      match getSpotMetaAndAssetCtxs (sdk w) with
      | Threw _ =>
          ([GetSpotClearinghouseState walletAddress_; GetSpotMetaAndAssetCtxs],
           SectionError "Failed to fetch spot data")
      | Returned (spotMeta, spotAssetCtxs) =>
          let priceMap := ensure_USDC None (build_priceMap spotAssetCtxs) in
          ([GetSpotClearinghouseState walletAddress_; GetSpotMetaAndAssetCtxs],
           Fetched
             match spotState with
             | Some {| balances := Some bs |} => Formatted (map (format priceMap) bs)
             | _ => Unformatted spotState
             end)
      end
  end.

(** [client['walletAddress'] || (client['wallet'] ? await client['wallet'].getAddress() : null)] *)
Definition resolve_address (i : Internals) : Completion (option string) :=
  if truthy_str (client_walletAddress_field i) then Returned (client_walletAddress_field i)
  else match client_wallet i with
       | Some (Returned a) => Returned (Some a)
       | Some (Threw e) => Threw e
       | None => Returned None
       end.

(** [handleGetAccountInfo] *)
Definition handleGetAccountInfo {host : JsHost} (w : World) (client : option Client)
  : Result :=
  match client with
  | None =>
      {| response := failure 401 "Not authenticated. Please authenticate first.";
         client_after := client; sdk_calls := [] |}
  | Some c =>
      match resolve_address (client_internals c) with
      | Threw e =>
          {| response := failure 500 (message_or e "Failed to fetch account information");
             client_after := client; sdk_calls := [] |}
      | Returned walletAddress_ =>
          if negb (truthy_str walletAddress_) then
            {| response := failure 400 "No wallet address available";
               client_after := client; sdk_calls := [] |}
          else
            let '(t1, perpetuals_) := perpetuals_section w (show walletAddress_) in
            let '(t2, spot_) := spot_section w (show walletAddress_) in
            {| response :=
                 ok (AccountData
                       {| view_network :=
                            if client_testnet_field (client_internals c)
                            then "testnet" else "mainnet";
                          view_walletAddress := show walletAddress_;
                          view_perpetuals := perpetuals_;
                          view_spot := spot_ |});
               client_after := client;
               sdk_calls := (t1 ++ t2)%list |}
      end
  end.

(** [handler] *)
Definition handler {host : JsHost} (w : World) (client : option Client) (req : Request)
  : Result :=
  if negb (method req =? "POST") then
    {| response := failure 405 "Method not allowed";
       client_after := client; sdk_calls := [] |}
  else if is_string (action req) "authenticate" then
    handleAuthenticate w client (params req)
  else if is_string (action req) "getAccountInfo" then
    handleGetAccountInfo w client
  else
    {| response := failure 400 "Invalid action";
       client_after := client; sdk_calls := [] |}.

(** Requests to run the endpoint on. *)
Definition post (action_ : string) (params_ : Authenticate.Args) : Request :=
  {| method := "POST"; action := Some action_; params := Some params_ |}.

(** A POST whose body has an action and nothing else. *)
Definition bare (action_ : string) : Request :=
  {| method := "POST"; action := Some action_; params := None |}.

Definition with_address : Internals :=
  {| client_walletAddress_field := Some SampleHost.address;
     client_wallet := None;
     client_testnet_field := true |}.

Definition signed_in : option Client :=
  Some {| client_options := options (userCredentials Scenario.read_only);
          client_internals := with_address |}.

Definition world (ex : Exchange) : World :=
  {| new_client := fun _ => Returned with_address;
     sdk := ex;
     cannot_destructure :=
       "Cannot destructure property 'privateKey' of 'params' as it is undefined." |}.

End Dashboard.

Unset Implicit Arguments.

(** * Properties *)

(** ** Plain objects *)

Lemma own_get_own_set_same {A} (o : list (string * A)) k v :
  own_get (own_set o k v) k = Some v.
Proof.
  induction o as [|[k' v'] o IH]; simpl.
  - now rewrite String.eqb_refl.
  - destruct (k' =? k) eqn:E; simpl.
    + now rewrite String.eqb_refl.
    + now rewrite E.
Qed.

Lemma own_get_own_set_other {A} (o : list (string * A)) k k' v :
  k <> k' -> own_get (own_set o k v) k' = own_get o k'.
Proof.
  intros Hne. induction o as [|[k0 v0] o IH]; simpl.
  - destruct (k =? k') eqn:E; [apply String.eqb_eq in E; contradiction | reflexivity].
  - destruct (k0 =? k) eqn:E; simpl.
    + apply String.eqb_eq in E; subst k0.
      destruct (k =? k') eqn:E'; [apply String.eqb_eq in E'; contradiction | reflexivity].
    + destruct (k0 =? k'); [reflexivity | exact IH].
Qed.

Lemma length_own_set {A} (o : list (string * A)) k v :
  length (own_set o k v)
  = match own_get o k with Some _ => length o | None => S (length o) end.
Proof.
  induction o as [|[k' v'] o IH]; simpl; [reflexivity|].
  destruct (k' =? k); simpl; [reflexivity|].
  rewrite IH. now destruct (own_get o k).
Qed.

Lemma own_set_fresh {A} (o : list (string * A)) k v :
  own_get o k = None -> own_set o k v = (o ++ [(k, v)])%list.
Proof.
  induction o as [|[k' v'] o IH]; simpl; [reflexivity|].
  destruct (k' =? k); [discriminate|].
  intros H. now rewrite IH.
Qed.

Lemma get_own {A} pa (o : list (string * A)) k v :
  own_get o k = Some v -> get pa o k = Own v.
Proof. unfold get. now intros ->. Qed.

Lemma get_absent {A} pa (o : list (string * A)) k :
  own_get o k = None -> inherits pa k = false -> get pa o k = Absent.
Proof.
  unfold get, inherits. intros -> H.
  apply orb_false_iff in H as [-> H].
  destruct (k =? "active"); [|reflexivity].
  destruct pa; [discriminate | reflexivity].
Qed.

(** ** Strategy URIs *)

Lemma strategy_uri_not_account k :
  ("hyperliquid://strategy/" ++ k =? "hyperliquid://account") = false.
Proof. reflexivity. Qed.

Lemma strategy_uri_startsWith k :
  startsWith ("hyperliquid://strategy/" ++ k) "hyperliquid://strategy/" = true.
Proof. destruct k; reflexivity. Qed.

Lemma strategy_uri_replace k :
  replace ("hyperliquid://strategy/" ++ k) "hyperliquid://strategy/" "" = k.
Proof. destruct k; reflexivity. Qed.

Section Properties.

Context {host : JsHost}.

(** Generated ids never name an inherited property. *)
Lemma generate_id_not_inherited env pa : inherits pa (generate_id env) = false.
Proof. reflexivity. Qed.

(** ** [authenticate] *)

(** C5. An [authenticate] call that carries neither a private key nor a
    wallet address throws [InvalidParams], leaves the whole session state
    (so the four stored credentials) as it was, and calls nothing. *)
Theorem authenticate_without_credentials (st : State) (args : Authenticate.Args) :
  Authenticate.privateKey args = None ->
  Authenticate.walletAddress args = None ->
  completion (authenticate st args)
  = Threw (McpError InvalidParams "Either privateKey or walletAddress must be provided")
  /\ final (authenticate st args) = st
  /\ userCredentials (final (authenticate st args)) = userCredentials st
  /\ calls (authenticate st args) = [].
Proof.
  intros Hk Hw. unfold authenticate. rewrite Hk, Hw. simpl. repeat split.
Qed.

(** The same holds when the two fields are present but empty. *)
Lemma authenticate_falsy_credentials (st : State) (args : Authenticate.Args) :
  truthy_str (Authenticate.privateKey args) = false ->
  truthy_str (Authenticate.walletAddress args) = false ->
  error_code (completion (authenticate st args)) = Some InvalidParams
  /\ final (authenticate st args) = st.
Proof.
  intros Hk Hw. unfold authenticate. rewrite Hk, Hw. simpl. split; reflexivity.
Qed.

(** ** [activate_strategy] *)

(** C3, as the code has it.  When the id of the request names neither a
    stored record nor an inherited property, [activate_strategy] throws
    and leaves the state untouched: [InvalidRequest] (strategy not found)
    for a non-empty id, [InvalidParams] for a missing or empty one. *)
Theorem activate_unknown_strategy (st : State) (args : ActivateStrategy.Args) :
  names_record st (ActivateStrategy.strategyId args) = false ->
  names_inherited st (ActivateStrategy.strategyId args) = false ->
  completion (activate_strategy st args)
  = Threw (if truthy_str (ActivateStrategy.strategyId args)
           then McpError InvalidRequest
                  ("Strategy " ++ show (ActivateStrategy.strategyId args) ++ " not found")
           else McpError InvalidParams "StrategyId and active status are required")
  /\ final (activate_strategy st args) = st
  /\ strategies (final (activate_strategy st args)) = strategies st
  /\ calls (activate_strategy st args) = [].
Proof.
  intros Hrec Hinh. unfold activate_strategy.
  destruct (ActivateStrategy.strategyId args) as [k|]; simpl in *.
  - destruct (k =? ""); simpl; [repeat split|].
    destruct (own_get (strategies st) k) eqn:Hown; [discriminate|].
    rewrite (get_absent _ _ _ Hown Hinh). repeat split.
  - repeat split.
Qed.

(** ** [create_strategy], then reading the strategy back *)

(** The round trip for the read that follows the create directly: after
    a [create_strategy] call that returned, reading the resource whose URI
    embeds the generated id returns the record with the name, description
    and config of the call and [active = false]. *)
Theorem create_then_read (env env' : Env) (st : State) (args : CreateStrategy.Args)
        (res : ToolResult) :
  completion (create_strategy env st args) = Returned res ->
  exists name_ description_ config_,
    CreateStrategy.name args = Some name_
    /\ CreateStrategy.description args = Some description_
    /\ CreateStrategy.config args = Some config_
    /\ res = text_result (Text ("Created strategy " ++ dquote ++ name_ ++ dquote
                                ++ " with ID: " ++ generate_id env))
    /\ completion (read_resource env' (final (create_strategy env st args))
                                 ("hyperliquid://strategy/" ++ generate_id env))
       = Returned (read_result ("hyperliquid://strategy/" ++ generate_id env)
                     (JSON_stringify_strategy
                        {| id := generate_id env; name := name_;
                           description := description_; config := config_;
                           active := false |})).
Proof.
  unfold create_strategy.
  destruct (CreateStrategy.name args) as [n|]; [|discriminate].
  destruct (CreateStrategy.description args) as [d|]; [|discriminate].
  destruct (CreateStrategy.config args) as [c|]; [|discriminate].
  destruct (negb (truthy_str (Some n)) || negb (truthy_str (Some d))
            || negb (truthy_json (Some c))); [discriminate|].
  intros H. injection H as <-.
  exists n, d, c. repeat split.
  unfold read_resource.
  rewrite strategy_uri_not_account, strategy_uri_startsWith.
  unfold read_strategy. rewrite strategy_uri_replace.
  cbn [final returned with_strategies strategies Object_prototype_active].
  now rewrite (get_own _ _ _ _ (own_get_own_set_same _ _ _)).
Qed.

(** ** [place_order] *)

Lemma falsy_number (o : option number) :
  Num.truthy (Number o) = false <->
  o = None \/ exists x, o = Some x /\ (Num.is_zero x = true \/ Num.is_nan x = true).
Proof.
  unfold Num.truthy. split.
  - destruct o as [x|]; [|now left].
    intros H. right. exists x. split; [reflexivity|].
    apply negb_false_iff, orb_true_iff in H. exact H.
  - intros [->|[x [-> H]]]; [reflexivity|].
    apply negb_false_iff, orb_true_iff. exact H.
Qed.

(** A request that passes the first check and finds a client and a key
    enters the [try] block. *)
Lemma place_order_enters_try env st args client :
  truthy_str (PlaceOrderArgs.symbol args) = true ->
  truthy_str (PlaceOrderArgs.side args) = true ->
  Num.truthy (Number (PlaceOrderArgs.size args)) = true ->
  truthy_str (PlaceOrderArgs.orderType args) = true ->
  hyperliquidClient (ensure_client st) = Some client ->
  truthy_str (privateKey (userCredentials (ensure_client st))) = true ->
  place_order env st args
  = let '(t, r) :=
      catch_rethrow
        (place_order_body env (PlaceOrderArgs.symbol args) (PlaceOrderArgs.side args)
           (Number (PlaceOrderArgs.size args)) (PlaceOrderArgs.price args)
           (PlaceOrderArgs.orderType args)
           (match PlaceOrderArgs.reduceOnly args with Some b => b | None => false end))
        (fun error => McpError InternalError
                        ("Failed to place order: " ++ errorMessage error)) in
    {| completion := r; final := ensure_client st; calls := t |}.
Proof.
  intros Hsym Hside Hsize Htype Hclient Hkey.
  unfold place_order. rewrite Hsym, Hside, Hsize, Htype, Hclient, Hkey. reflexivity.
Qed.

Lemma ensure_client_credentials st :
  userCredentials (ensure_client st) = userCredentials st.
Proof. unfold ensure_client. now destruct (hyperliquidClient st). Qed.

Lemma ensure_client_strategies st :
  strategies (ensure_client st) = strategies st.
Proof. unfold ensure_client. now destruct (hyperliquidClient st). Qed.

(** C1, on the code.  A limit order without a price, sent with a client
    at hand and a private key stored, first calls [connect] on the client
    and then ends in [InternalError]: the [InvalidParams] error thrown for
    the missing price is caught by the [catch] of the same [try] block and
    wrapped. *)
Theorem place_order_limit_without_price env st args client :
  truthy_str (PlaceOrderArgs.symbol args) = true ->
  truthy_str (PlaceOrderArgs.side args) = true ->
  Num.truthy (Number (PlaceOrderArgs.size args)) = true ->
  PlaceOrderArgs.orderType args = Some "limit" ->
  PlaceOrderArgs.price args = None ->
  hyperliquidClient (ensure_client st) = Some client ->
  truthy_str (privateKey (userCredentials st)) = true ->
  completion (place_order env st args)
  = Threw (McpError InternalError
             ("Failed to place order: "
              ++ match connect (exchange env) with
                 | Returned _ =>
                     McpError_message InvalidParams "Price is required for limit orders"
                 | Threw e => errorMessage e
                 end))
  /\ calls (place_order env st args) = [Connect]
  /\ error_code (completion (place_order env st args)) <> Some InvalidParams.
Proof.
  intros Hsym Hside Hsize Htype Hprice Hclient Hkey.
  assert (Htype' : truthy_str (PlaceOrderArgs.orderType args) = true)
    by now rewrite Htype.
  rewrite <- (ensure_client_credentials st) in Hkey.
  rewrite (place_order_enters_try env st args client Hsym Hside Hsize Htype' Hclient Hkey).
  unfold place_order_body. rewrite Htype, Hprice. simpl.
  destruct (connect (exchange env)); simpl; repeat split; discriminate.
Qed.

(** C9, as the code has it.  A size that is missing, zero or [NaN] makes
    [place_order] throw [InvalidParams] before anything else happens: the
    state is untouched and the client is not called. *)
Theorem place_order_falsy_size env st args :
  Num.truthy (Number (PlaceOrderArgs.size args)) = false ->
  completion (place_order env st args)
  = Threw (McpError InvalidParams "Symbol, side, size, and orderType are required")
  /\ final (place_order env st args) = st
  /\ calls (place_order env st args) = []
  /\ submitted (calls (place_order env st args)) = [].
Proof.
  intros H. unfold place_order. rewrite H. simpl negb.
  rewrite orb_true_r. simpl. repeat split.
Qed.

(** A negative size passes the check, like any other non-zero number. *)
Lemma negative_size_is_truthy s m e :
  Num.truthy (Number (Some (S754_finite s m e))) = true.
Proof. reflexivity. Qed.

(** ** The account resource *)

(** C2, as the code has it.  With a client at hand, [connect] answered
    and a wallet address stored: a failed perpetual fetch fails the whole
    read with [InternalError] and the spot section is never fetched; once
    the perpetual fetch has answered, the read succeeds whatever the spot
    fetches do, with [spot] left [null] when the balance fetch failed and
    left as fetched, without prices, when the market-context fetch
    failed.  Nothing in the response marks the failure. *)
Theorem read_account_sections env st client :
  hyperliquidClient (ensure_client st) = Some client ->
  connect (exchange env) = Returned tt ->
  truthy_str (walletAddress (userCredentials st)) = true ->
  let ex := exchange env in
  let user := show (walletAddress (userCredentials st)) in
  let r := read_resource env st "hyperliquid://account" in
  match getClearinghouseState ex user with
  | Threw e =>
      completion r
      = Threw (McpError InternalError
                 ("Failed to fetch account information: " ++ errorMessage e))
      /\ calls r = [Connect; GetClearinghouseState user]
  | Returned perpState =>
      exists spot,
        completion r
        = Returned (read_result "hyperliquid://account"
                      (JSON_stringify_account (Account perpState spot (network st))))
        /\ (forall e, getSpotClearinghouseState ex user = Threw e -> spot = None)
        /\ (forall spotState e,
               getSpotClearinghouseState ex user = Returned spotState ->
               getSpotMetaAndAssetCtxs ex = Threw e ->
               spot = spotState)
  end.
Proof.
  intros Hclient Hconnect Hwallet ex user r.
  subst r. unfold read_resource. simpl String.eqb. cbv iota.
  unfold read_account. rewrite Hclient.
  unfold account_body. rewrite Hconnect.
  rewrite ensure_client_credentials, Hwallet.
  fold ex. fold user.
  destruct (getClearinghouseState ex user) as [perpState|e]; simpl.
  - unfold spot_section.
    destruct (getSpotClearinghouseState ex user) as [spotState|e1] eqn:Hspot; simpl.
    + destruct (has_balances spotState) as [bs|]; simpl.
      * destruct (getSpotMetaAndAssetCtxs ex) as [[spotMeta ctxs]|e2] eqn:Hctx; simpl.
        -- eexists. split; [reflexivity|]. split; intros; discriminate.
        -- exists spotState. split; [reflexivity|].
           split; [intros; discriminate|].
           intros s e H _. now injection H.
      * exists spotState. split; [reflexivity|].
        split; [intros; discriminate|].
        intros s e H _. now injection H.
    + exists None. split; [reflexivity|].
      split; [reflexivity | intros; discriminate].
  - split; reflexivity.
Qed.

(** *** Later requests *)

Lemma read_resource_strategies env st u :
  strategies (final (read_resource env st u)) = strategies st.
Proof.
  unfold read_resource.
  destruct (u =? "hyperliquid://account").
  - unfold read_account.
    destruct (hyperliquidClient (ensure_client st));
      [destruct (catch_rethrow _ _)|]; apply ensure_client_strategies.
  - destruct (startsWith u "hyperliquid://strategy/"); [|reflexivity].
    unfold read_strategy.
    destruct (get _ _ _) as [s|[k|[|]]|]; try reflexivity.
Qed.

(** A request that does not touch the strategy [k] leaves its record alone. *)
Lemma handle_keeps_record k er st s :
  touches k er = false ->
  own_get (strategies st) k = Some s ->
  own_get (strategies (handle (fst er) st (snd er))) k = Some s.
Proof.
  destruct er as [env r]. unfold touches. simpl fst. simpl snd.
  intros Ht Hown. destruct r as [|u|c]; simpl.
  - exact Hown.
  - now rewrite read_resource_strategies.
  - destruct c as [args|args|args|args|args|args|tool]; simpl.
    + unfold authenticate.
      destruct (negb (truthy_str _) && negb (truthy_str _)); [exact Hown|].
      destruct (truthy_str _ && negb (ethers_Wallet _)); [exact Hown|].
      simpl. destruct (initializeClient _); exact Hown.
    + unfold get_market_data.
      destruct (negb (truthy_str _)); [exact Hown|].
      destruct (hyperliquidClient (ensure_client st));
        [destruct (catch_rethrow _ _)|]; simpl; now rewrite ensure_client_strategies.
    + unfold place_order.
      destruct (negb (truthy_str _) || negb (truthy_str _) || negb (Num.truthy _)
                || negb (truthy_str _)); [exact Hown|].
      destruct (hyperliquidClient (ensure_client st));
        [destruct (negb (truthy_str _)); [|destruct (catch_rethrow _ _)]|];
        simpl; now rewrite ensure_client_strategies.
    + unfold cancel_order.
      destruct (negb (truthy_str _) || negb (truthy_str _)); [exact Hown|].
      destruct (hyperliquidClient (ensure_client st));
        [destruct (negb (truthy_str _)); [|destruct (catch_rethrow _ _)]|];
        simpl; now rewrite ensure_client_strategies.
    + unfold create_strategy.
      destruct (CreateStrategy.name args) as [n|]; [|exact Hown].
      destruct (CreateStrategy.description args) as [d|]; [|exact Hown].
      destruct (CreateStrategy.config args) as [c|]; [|exact Hown].
      destruct (negb (truthy_str (Some n)) || negb (truthy_str (Some d))
                || negb (truthy_json (Some c))); [exact Hown|].
      simpl. rewrite own_get_own_set_other; [exact Hown|].
      intros E. rewrite E, String.eqb_refl in Ht. discriminate.
    + unfold activate_strategy.
      destruct (ActivateStrategy.strategyId args) as [k'|]; [|exact Hown].
      simpl in Ht. simpl.
      destruct (negb (negb (k' =? ""))); [exact Hown|].
      destruct (get _ _ k') as [s'|[b|[|]]|]; simpl; try exact Hown.
      * rewrite own_get_own_set_other; [exact Hown|].
        intros E. rewrite E, String.eqb_refl in Ht. discriminate.
      * destruct (b =? "__proto__"); exact Hown.
    + exact Hown.
Qed.

Lemma serve_keeps_record k requests : forall st s,
  forallb (fun er => negb (touches k er)) requests = true ->
  own_get (strategies st) k = Some s ->
  own_get (strategies (serve st requests)) k = Some s.
Proof.
  induction requests as [|er requests IH]; intros st s Hall Hown; [exact Hown|].
  simpl in Hall. apply andb_true_iff in Hall as [Her Hall].
  apply negb_true_iff in Her.
  unfold serve. simpl. apply IH; [exact Hall|].
  now apply handle_keeps_record.
Qed.

Lemma read_stored_strategy env st k s :
  own_get (strategies st) k = Some s ->
  completion (read_resource env st ("hyperliquid://strategy/" ++ k))
  = Returned (read_result ("hyperliquid://strategy/" ++ k) (JSON_stringify_strategy s)).
Proof.
  intros Hown. unfold read_resource.
  rewrite strategy_uri_not_account, strategy_uri_startsWith.
  unfold read_strategy. rewrite strategy_uri_replace.
  now rewrite (get_own _ _ _ _ Hown).
Qed.

Lemma create_strategy_stores env st args res :
  completion (create_strategy env st args) = Returned res ->
  exists name_ description_ config_,
    CreateStrategy.name args = Some name_
    /\ CreateStrategy.description args = Some description_
    /\ CreateStrategy.config args = Some config_
    /\ own_get (strategies (final (create_strategy env st args))) (generate_id env)
       = Some {| id := generate_id env; name := name_; description := description_;
                 config := config_; active := false |}.
Proof.
  unfold create_strategy.
  destruct (CreateStrategy.name args) as [n|]; [|discriminate].
  destruct (CreateStrategy.description args) as [d|]; [|discriminate].
  destruct (CreateStrategy.config args) as [c|]; [|discriminate].
  destruct (negb (truthy_str (Some n)) || negb (truthy_str (Some d))
            || negb (truthy_json (Some c))); [discriminate|].
  intros _. exists n, d, c. repeat split. apply own_get_own_set_same.
Qed.

(** The round trip also holds later: after any requests that neither
    activate or deactivate the new strategy nor generate its id again, the
    read returns the record as it was created. *)
Lemma create_then_read_later env env' st args res requests :
  completion (create_strategy env st args) = Returned res ->
  forallb (fun er => negb (touches (generate_id env) er)) requests = true ->
  exists name_ description_ config_,
    CreateStrategy.name args = Some name_
    /\ CreateStrategy.description args = Some description_
    /\ CreateStrategy.config args = Some config_
    /\ completion (read_resource env' (serve (final (create_strategy env st args)) requests)
                                 ("hyperliquid://strategy/" ++ generate_id env))
       = Returned (read_result ("hyperliquid://strategy/" ++ generate_id env)
                     (JSON_stringify_strategy
                        {| id := generate_id env; name := name_;
                           description := description_; config := config_;
                           active := false |})).
Proof.
  intros Hres Hall.
  destruct (create_strategy_stores env st args res Hres) as [n [d [c [Hn [Hd [Hc Hown]]]]]].
  exists n, d, c. repeat split; try assumption.
  apply read_stored_strategy.
  now apply serve_keeps_record.
Qed.

(** It does not survive a later [create_strategy] that generates the same
    id: from then on the read returns the later call's record. *)
Lemma create_again_then_read env1 env2 env' st args1 args2 res1 res2 :
  let r1 := create_strategy env1 st args1 in
  let r2 := create_strategy env2 (final r1) args2 in
  completion r1 = Returned res1 ->
  completion r2 = Returned res2 ->
  generate_id env2 = generate_id env1 ->
  exists name_ description_ config_,
    CreateStrategy.name args2 = Some name_
    /\ CreateStrategy.description args2 = Some description_
    /\ CreateStrategy.config args2 = Some config_
    /\ completion (read_resource env' (final r2)
                                 ("hyperliquid://strategy/" ++ generate_id env1))
       = Returned (read_result ("hyperliquid://strategy/" ++ generate_id env1)
                     (JSON_stringify_strategy
                        {| id := generate_id env1; name := name_;
                           description := description_; config := config_;
                           active := false |})).
Proof.
  intros r1 r2 _ H2 Hid. subst r2.
  destruct (create_strategy_stores env2 (final r1) args2 res2 H2)
    as [n [d [c [Hn [Hd [Hc Hown]]]]]].
  rewrite Hid in Hown.
  exists n, d, c. repeat split; try assumption.
  now apply read_stored_strategy.
Qed.

(** ** Generated ids *)

Lemma create_strategy_returned env st args res :
  completion (create_strategy env st args) = Returned res ->
  exists strategy,
    id strategy = generate_id env
    /\ active strategy = false
    /\ final (create_strategy env st args)
       = with_strategies st (own_set (strategies st) (generate_id env) strategy).
Proof.
  unfold create_strategy.
  destruct (CreateStrategy.name args) as [n|]; [|discriminate].
  destruct (CreateStrategy.description args) as [d|]; [|discriminate].
  destruct (CreateStrategy.config args) as [c|]; [|discriminate].
  destruct (negb (truthy_str (Some n)) || negb (truthy_str (Some d))
            || negb (truthy_json (Some c))); [discriminate|].
  intros _.
  exists {| id := generate_id env; name := n; description := d; config := c;
            active := false |}.
  repeat split.
Qed.

(** A second [create_strategy] that generates the id of a stored record
    replaces that record: the map does not grow. *)
Lemma create_strategy_overwrites env st args res strategy :
  completion (create_strategy env st args) = Returned res ->
  own_get (strategies st) (generate_id env) = Some strategy ->
  length (strategies (final (create_strategy env st args))) = length (strategies st).
Proof.
  intros H Hown. destruct (create_strategy_returned env st args res H) as [s [_ [_ ->]]].
  simpl. now rewrite length_own_set, Hown.
Qed.

Lemma create_strategy_fresh env st args res :
  completion (create_strategy env st args) = Returned res ->
  own_get (strategies st) (generate_id env) = None ->
  length (strategies (final (create_strategy env st args))) = S (length (strategies st)).
Proof.
  intros H Hown. destruct (create_strategy_returned env st args res H) as [s [_ [_ ->]]].
  simpl. now rewrite length_own_set, Hown.
Qed.

(** C4, on the code.  Two [create_strategy] calls with the same
    arguments, made in the same millisecond, whose [Math.random()]
    results 1234/4096 and 1235/4096 fall in the same thousandth: both
    return, both generate the same id, and the map ends with one record. *)
Theorem create_strategy_twice_same_id :
  let env1 := SampleHost.env SampleHost.up SampleHost.now SampleHost.random1 in
  let env2 := SampleHost.env SampleHost.up SampleHost.now SampleHost.random2 in
  let r1 := create_strategy env1 initial_state SampleHost.momentum in
  let r2 := create_strategy env2 (final r1) SampleHost.momentum in
  Math_random env1 <> Math_random env2
  /\ generate_id env1 = generate_id env2
  /\ error_code (completion r1) = None
  /\ error_code (completion r2) = None
  /\ map fst (strategies (final r1)) = [generate_id env1]
  /\ map fst (strategies (final r2)) = [generate_id env1].
Proof.
  assert (Hid : generate_id (SampleHost.env SampleHost.up SampleHost.now SampleHost.random1)
                = generate_id (SampleHost.env SampleHost.up SampleHost.now SampleHost.random2))
    by reflexivity.
  cbv zeta. split; [discriminate|]. split; [exact Hid|].
  split; [reflexivity|]. split; [reflexivity|]. split; [reflexivity|].
  unfold create_strategy at 1. simpl negb. cbv iota.
  cbn [final returned with_strategies strategies create_strategy
       CreateStrategy.name CreateStrategy.description CreateStrategy.config
       SampleHost.momentum truthy_str truthy_json String.eqb Ascii.eqb Bool.eqb
       negb orb initial_state own_set].
  rewrite <- Hid. cbn [own_set]. rewrite String.eqb_refl. reflexivity.
Qed.

(** ** List resources *)

Lemma strategy_resource_uri entry :
  (uri (strategy_resource entry) =? "hyperliquid://account") = false.
Proof. destruct entry as [k s]. apply strategy_uri_not_account. Qed.

(** Without credentials the list is the strategies' list: one resource
    per record, in order, and none of them is the account resource. *)
Lemma list_resources_no_credentials st :
  truthy_str (privateKey (userCredentials st)) = false ->
  truthy_str (walletAddress (userCredentials st)) = false ->
  list_resources st = map strategy_resource (strategies st)
  /\ length (list_resources st) = length (strategies st)
  /\ existsb (fun r => uri r =? "hyperliquid://account") (list_resources st) = false.
Proof.
  intros Hk Hw. unfold list_resources. rewrite Hk, Hw. simpl.
  split; [reflexivity|]. split; [apply length_map|].
  induction (strategies st) as [|entry l IH]; simpl; [reflexivity|].
  now rewrite strategy_resource_uri.
Qed.

(** A [create_strategy] that returns with a fresh id adds one resource. *)
Lemma list_resources_grows env st args res :
  completion (create_strategy env st args) = Returned res ->
  own_get (strategies st) (generate_id env) = None ->
  length (list_resources (final (create_strategy env st args)))
  = S (length (list_resources st)).
Proof.
  intros H Hown. destruct (create_strategy_returned env st args res H) as [s [_ [_ ->]]].
  unfold list_resources. simpl.
  rewrite !length_app, !length_map, length_own_set, Hown. lia.
Qed.

(** C8, on the code.  No credentials are stored; two [create_strategy]
    calls in the same millisecond, with [Math.random()] results in the
    same thousandth, both return, yet the list of resources has one entry
    after the first call and still one after the second. *)
Theorem list_resources_after_same_id :
  let env1 := SampleHost.env SampleHost.up SampleHost.now SampleHost.random1 in
  let env2 := SampleHost.env SampleHost.up SampleHost.now SampleHost.random2 in
  let r1 := create_strategy env1 initial_state SampleHost.momentum in
  let r2 := create_strategy env2 (final r1) SampleHost.momentum in
  list_resources initial_state = []
  /\ error_code (completion r1) = None
  /\ error_code (completion r2) = None
  /\ length (list_resources (final r1)) = 1
  /\ length (list_resources (final r2)) = 1.
Proof.
  cbv zeta. split; [reflexivity|]. split; [reflexivity|]. split; [reflexivity|].
  split; [reflexivity|].
  assert (Hid : generate_id (SampleHost.env SampleHost.up SampleHost.now SampleHost.random2)
                = generate_id (SampleHost.env SampleHost.up SampleHost.now SampleHost.random1))
    by reflexivity.
  set (r1 := create_strategy _ initial_state _).
  assert (H1 : exists res, completion r1 = Returned res) by (eexists; reflexivity).
  destruct H1 as [res1 H1].
  destruct (create_strategy_returned _ _ _ _ H1) as [s1 [_ [_ Hf1]]].
  fold r1 in Hf1.
  set (r2 := create_strategy _ (final r1) _).
  assert (H2 : exists res, completion r2 = Returned res) by (eexists; reflexivity).
  destruct H2 as [res2 H2].
  destruct (create_strategy_returned _ _ _ _ H2) as [s2 [_ [_ Hf2]]].
  fold r2 in Hf2. rewrite Hf2, Hf1, Hid.
  unfold list_resources. simpl.
  now rewrite String.eqb_refl.
Qed.

(** ** Spot balances: price and USD value *)

Lemma ensure_USDC_sets pa pm :
  own_get pm "USDC-SPOT" = None
  \/ (exists z, own_get pm "USDC-SPOT" = Some z /\ Num.is_zero z = true) ->
  own_get (ensure_USDC pa pm) "USDC-SPOT" = Some (Num.of_Z 1).
Proof.
  intros H. unfold ensure_USDC.
  assert (Hf : slot_falsy (get pa pm "USDC-SPOT") = true).
  { unfold get. destruct H as [-> | [z [-> Hz]]]; simpl; [reflexivity|].
    unfold Num.truthy. now rewrite Hz. }
  rewrite Hf. simpl. unfold set_number. simpl.
  apply own_get_own_set_same.
Qed.

(** Whatever the map holds, [ensure_USDC] leaves a price for the stable coin. *)
Lemma ensure_USDC_has_price pa pm :
  exists p, own_get (ensure_USDC pa pm) "USDC-SPOT" = Some p.
Proof.
  unfold ensure_USDC.
  destruct (slot_falsy (get pa pm "USDC-SPOT") || slot_is_zero (get pa pm "USDC-SPOT"))
    eqn:E.
  - exists (Num.of_Z 1). unfold set_number. simpl. apply own_get_own_set_same.
  - unfold get in E. destruct (own_get pm "USDC-SPOT") as [p|]; [now exists p|].
    simpl in E. discriminate.
Qed.

Lemma ten_times_two_and_a_half :
  Num.mul (Num.of_Z 10) (Num.make 5 (-1)) = Num.of_Z 25.
Proof. reflexivity. Qed.

(** C6. For a balance with quantity 10 whose coin has the price 2.5 in
    the price map, the [usdValue] written is exactly 25; a stable coin
    without an entry, or with a zero entry, gets the price 1 in the map; and
    for every balance [usdValue] is the quantity times the price taken from
    the map for it, which is the entry itself whenever the map has a usable
    (non-zero, non-[NaN]) entry for the coin. *)
Theorem spot_balance_usd_value :
  (forall pa pm b,
      own_get pm (balance_coin b) = Some (Num.make 5 (-1)) ->
      parseFloat (balance_total b) = Num.of_Z 10 ->
      price (enrich pa pm b) = Some (NumberToString (Num.make 5 (-1)))
      /\ usdValue (enrich pa pm b) = Some (NumberToString (Num.of_Z 25)))
  /\ (forall pa pm,
        own_get pm "USDC-SPOT" = None
        \/ (exists z, own_get pm "USDC-SPOT" = Some z /\ Num.is_zero z = true) ->
        own_get (ensure_USDC pa pm) "USDC-SPOT" = Some (Num.of_Z 1))
  /\ (forall pa pm b,
        let q := or_zero (get pa pm (balance_coin b)) in
        price (enrich pa pm b) = Some (toString q)
        /\ usdValue (enrich pa pm b)
           = Some (NumberToString (Num.mul (parseFloat (balance_total b)) (ToNumber q)))
        /\ (forall p,
              own_get pm (balance_coin b) = Some p -> Num.truthy p = true ->
              q = OpNumber p
              /\ usdValue (enrich pa pm b)
                 = Some (NumberToString (Num.mul (parseFloat (balance_total b)) p)))).
Proof.
  assert (E : forall pa pm b p,
             own_get pm (balance_coin b) = Some p -> Num.truthy p = true ->
             or_zero (get pa pm (balance_coin b)) = OpNumber p).
  { intros pa pm b p Hown Hp. rewrite (get_own pa pm _ p Hown). simpl. now rewrite Hp. }
  split; [|split].
  - intros pa pm b Hown Hq.
    unfold enrich. cbn [price usdValue].
    rewrite (E pa pm b _ Hown eq_refl), Hq. cbn [ToNumber toString].
    now rewrite ten_times_two_and_a_half.
  - intros pa pm. apply ensure_USDC_sets.
  - intros pa pm b q. split; [reflexivity|]. split; [reflexivity|].
    intros p Hown Hp. split; [exact (E pa pm b p Hown Hp)|].
    unfold enrich. cbn [usdValue]. now rewrite (E pa pm b p Hown Hp).
Qed.

Lemma mul_zero x :
  if Num.is_finite x
  then Num.is_zero (Num.mul x Num.zero) = true
  else Num.is_nan (Num.mul x Num.zero) = true.
Proof. destruct x as [s|s| |s m e]; try destruct s; reflexivity. Qed.

Lemma enrich_unpriced pa pm b :
  own_get pm (balance_coin b) = None ->
  inherits pa (balance_coin b) = false ->
  enrich pa pm b
  = {| balance_coin := balance_coin b;
       balance_total := balance_total b;
       balance_others := balance_others b;
       price := Some (NumberToString Num.zero);
       usdValue := Some (NumberToString
                           (Num.mul (parseFloat (balance_total b)) Num.zero)) |}.
Proof.
  intros Hown Hinh. unfold enrich. now rewrite (get_absent pa pm _ Hown Hinh).
Qed.

Lemma ensure_client_prototype st :
  Object_prototype_active (ensure_client st) = Object_prototype_active st.
Proof. unfold ensure_client. now destruct (hyperliquidClient st). Qed.

(** The account read when every fetch answers and there are balances. *)
Lemma read_account_enriched env st client perpState spotState bs spotMeta ctxs :
  hyperliquidClient (ensure_client st) = Some client ->
  connect (exchange env) = Returned tt ->
  truthy_str (walletAddress (userCredentials st)) = true ->
  getClearinghouseState (exchange env) (show (walletAddress (userCredentials st)))
  = Returned perpState ->
  getSpotClearinghouseState (exchange env) (show (walletAddress (userCredentials st)))
  = Returned spotState ->
  has_balances spotState = Some bs ->
  getSpotMetaAndAssetCtxs (exchange env) = Returned (spotMeta, ctxs) ->
  completion (read_resource env st "hyperliquid://account")
  = Returned
      (read_result "hyperliquid://account"
         (JSON_stringify_account
            (Account perpState
               (Some {| balances :=
                          Some (map (enrich (Object_prototype_active st)
                                       (ensure_USDC (Object_prototype_active st)
                                                    (build_priceMap ctxs)))
                                    bs) |})
               (network st)))).
Proof.
  intros Hclient Hconnect Hwallet Hperp Hspot Hbs Hctx.
  unfold read_resource. simpl String.eqb. cbv iota.
  unfold read_account. rewrite Hclient.
  unfold account_body. rewrite Hconnect.
  rewrite ensure_client_credentials, Hwallet, Hperp. simpl.
  unfold spot_section. rewrite Hspot, Hbs, Hctx. simpl.
  now rewrite ensure_client_prototype.
Qed.

(** C10, as the code has it.  In a read where every fetch answers, a
    balance whose coin has no entry in the price map, and names no
    inherited property, is still in the response, at its place, with
    [price] zero and [usdValue] the quantity times zero: zero when the
    quantity is finite, [NaN] when [total] does not parse to a finite
    number.  The read itself returns; nothing marks the missing price. *)
Theorem unpriced_balance_in_response
        env st client perpState spotState bs spotMeta ctxs i b :
  hyperliquidClient (ensure_client st) = Some client ->
  connect (exchange env) = Returned tt ->
  truthy_str (walletAddress (userCredentials st)) = true ->
  getClearinghouseState (exchange env) (show (walletAddress (userCredentials st)))
  = Returned perpState ->
  getSpotClearinghouseState (exchange env) (show (walletAddress (userCredentials st)))
  = Returned spotState ->
  has_balances spotState = Some bs ->
  getSpotMetaAndAssetCtxs (exchange env) = Returned (spotMeta, ctxs) ->
  nth_error bs i = Some b ->
  own_get (ensure_USDC (Object_prototype_active st) (build_priceMap ctxs))
          (balance_coin b) = None ->
  inherits (Object_prototype_active st) (balance_coin b) = false ->
  exists bs',
    completion (read_resource env st "hyperliquid://account")
    = Returned
        (read_result "hyperliquid://account"
           (JSON_stringify_account
              (Account perpState (Some {| balances := Some bs' |}) (network st))))
    /\ length bs' = length bs
    /\ nth_error bs' i
       = Some {| balance_coin := balance_coin b;
                 balance_total := balance_total b;
                 balance_others := balance_others b;
                 price := Some (NumberToString Num.zero);
                 usdValue := Some (NumberToString
                                     (Num.mul (parseFloat (balance_total b))
                                              Num.zero)) |}
    /\ (if Num.is_finite (parseFloat (balance_total b))
        then Num.is_zero (Num.mul (parseFloat (balance_total b)) Num.zero) = true
        else Num.is_nan (Num.mul (parseFloat (balance_total b)) Num.zero) = true).
Proof.
  intros Hclient Hconnect Hwallet Hperp Hspot Hbs Hctx Hnth Hown Hinh.
  eexists. split.
  - exact (read_account_enriched env st client perpState spotState bs spotMeta ctxs
             Hclient Hconnect Hwallet Hperp Hspot Hbs Hctx).
  - split; [apply length_map|]. split; [|apply mul_zero].
    rewrite (map_nth_error _ _ _ Hnth).
    now rewrite (enrich_unpriced _ _ _ Hown Hinh).
Qed.

End Properties.

(** * The theorems at concrete requests *)

Lemma authenticate_without_credentials_witness :
  Authenticate.privateKey SampleHost.anonymous = None
  /\ Authenticate.walletAddress SampleHost.anonymous = None
  /\ completion (authenticate (host := SampleHost.host)
                              SampleHost.authenticated SampleHost.anonymous)
     = Threw (McpError InvalidParams "Either privateKey or walletAddress must be provided")
  /\ final (authenticate (host := SampleHost.host)
                         SampleHost.authenticated SampleHost.anonymous)
     = SampleHost.authenticated.
Proof.
  split; [reflexivity|]. split; [reflexivity|].
  destruct (@authenticate_without_credentials SampleHost.host
              SampleHost.authenticated SampleHost.anonymous eq_refl eq_refl)
    as [H1 [H2 _]].
  split; [exact H1 | exact H2].
Defined.

(** An empty strategy id names no record, and [activate_strategy] answers
    it with [InvalidParams], not with a not-found error. *)
Lemma activate_strategy_empty_id :
  names_record initial_state (ActivateStrategy.strategyId (SampleHost.activate "")) = false
  /\ completion (activate_strategy initial_state (SampleHost.activate ""))
     = Threw (McpError InvalidParams "StrategyId and active status are required")
  /\ error_code (completion (activate_strategy initial_state (SampleHost.activate "")))
     <> Some InvalidRequest.
Proof. split; [reflexivity|]. split; [reflexivity | discriminate]. Defined.

Lemma activate_unknown_strategy_witness :
  names_record SampleHost.authenticated
               (ActivateStrategy.strategyId (SampleHost.activate "strategy-1-1")) = false
  /\ names_inherited SampleHost.authenticated
                     (ActivateStrategy.strategyId (SampleHost.activate "strategy-1-1")) = false
  /\ completion (activate_strategy SampleHost.authenticated
                                   (SampleHost.activate "strategy-1-1"))
     = Threw (McpError InvalidRequest "Strategy strategy-1-1 not found")
  /\ final (activate_strategy SampleHost.authenticated (SampleHost.activate "strategy-1-1"))
     = SampleHost.authenticated.
Proof.
  split; [reflexivity|]. split; [reflexivity|].
  destruct (activate_unknown_strategy SampleHost.authenticated
              (SampleHost.activate "strategy-1-1") eq_refl eq_refl)
    as [H1 [H2 _]].
  split; [exact H1 | exact H2].
Defined.

(** C7, on the code.  [create_strategy] for "momentum", then, in the same
    millisecond and with [Math.random()] results 1234/4096 and 1235/4096,
    [create_strategy] for "breakout", and no [activate_strategy] at all:
    both calls return and report the same id.  Read right after the first
    call, the resource of that id holds the momentum record; read after the
    second, it holds the breakout record, so the name, description and
    config of the first call are gone. *)
Theorem create_then_read_after_same_id :
  let env1 := SampleHost.env SampleHost.up SampleHost.now SampleHost.random1 in
  let env2 := SampleHost.env SampleHost.up SampleHost.now SampleHost.random2 in
  let r1 := create_strategy (host := SampleHost.host) env1 initial_state
                            SampleHost.momentum in
  let r2 := create_strategy (host := SampleHost.host) env2 (final r1)
                            Scenario.breakout in
  let u := "hyperliquid://strategy/strategy-1700000000000-301" in
  let created (name_ : string) :=
    Returned (text_result (Text ("Created strategy " ++ dquote ++ name_ ++ dquote
                                 ++ " with ID: strategy-1700000000000-301"))) in
  Math_random env1 <> Math_random env2
  /\ completion r1 = created "momentum"
  /\ completion r2 = created "breakout"
  /\ completion (read_resource (host := SampleHost.host) env2 (final r1) u)
     = Returned (read_result u
                   (JSON_stringify_strategy
                      {| id := "strategy-1700000000000-301";
                         name := "momentum";
                         description := "buys strength";
                         config := JObject [("window", JNumber (Num.of_Z 14))];
                         active := false |}))
  /\ completion (read_resource (host := SampleHost.host) env2 (final r2) u)
     = Returned (read_result u
                   (JSON_stringify_strategy
                      {| id := "strategy-1700000000000-301";
                         name := "breakout";
                         description := "buys new highs";
                         config := JObject [];
                         active := false |})).
Proof.
  cbv zeta. split; [discriminate|]. do 2 (split; [reflexivity|]).
  assert (Hid : generate_id (host := SampleHost.host)
                  (SampleHost.env SampleHost.up SampleHost.now SampleHost.random2)
                = generate_id (host := SampleHost.host)
                    (SampleHost.env SampleHost.up SampleHost.now SampleHost.random1))
    by reflexivity.
  split.
  - destruct (@create_then_read SampleHost.host
                (SampleHost.env SampleHost.up SampleHost.now SampleHost.random1)
                (SampleHost.env SampleHost.up SampleHost.now SampleHost.random2)
                initial_state SampleHost.momentum _ eq_refl)
      as [n [d [c [Hn [Hd [Hc [_ H]]]]]]].
    injection Hn as <-. injection Hd as <-. injection Hc as <-.
    exact H.
  - destruct (@create_again_then_read SampleHost.host
                (SampleHost.env SampleHost.up SampleHost.now SampleHost.random1)
                (SampleHost.env SampleHost.up SampleHost.now SampleHost.random2)
                (SampleHost.env SampleHost.up SampleHost.now SampleHost.random2)
                initial_state SampleHost.momentum Scenario.breakout _ _
                eq_refl eq_refl Hid)
      as [n [d [c [Hn [Hd [Hc H]]]]]].
    injection Hn as <-. injection Hd as <-. injection Hc as <-.
    exact H.
Qed.

Lemma create_then_read_witness :
  let env1 := SampleHost.env SampleHost.up SampleHost.now SampleHost.random1 in
  let res := text_result (Text ("Created strategy " ++ dquote ++ "momentum" ++ dquote
                                ++ " with ID: strategy-1700000000000-301")) in
  let r := create_strategy (host := SampleHost.host) env1 initial_state SampleHost.momentum in
  completion r = Returned res
  /\ completion (read_resource (host := SampleHost.host) env1 (final r)
                               "hyperliquid://strategy/strategy-1700000000000-301")
     = Returned (read_result "hyperliquid://strategy/strategy-1700000000000-301"
                   (JSON_stringify_strategy
                      {| id := "strategy-1700000000000-301";
                         name := "momentum";
                         description := "buys strength";
                         config := JObject [("window", JNumber (Num.of_Z 14))];
                         active := false |})).
Proof.
  cbv zeta. split; [reflexivity|].
  destruct (@create_then_read SampleHost.host
              (SampleHost.env SampleHost.up SampleHost.now SampleHost.random1)
              (SampleHost.env SampleHost.up SampleHost.now SampleHost.random1)
              initial_state SampleHost.momentum _ eq_refl)
    as [n [d [c [Hn [Hd [Hc [_ H]]]]]]].
  injection Hn as <-. injection Hd as <-. injection Hc as <-.
  exact H.
Defined.

Lemma place_order_limit_without_price_witness :
  let env1 := SampleHost.env SampleHost.up SampleHost.now SampleHost.random1 in
  let args := SampleHost.order "buy" 1 "limit" in
  let r := place_order (host := SampleHost.host) env1 SampleHost.authenticated args in
  truthy_str (PlaceOrderArgs.symbol args) = true
  /\ truthy_str (PlaceOrderArgs.side args) = true
  /\ Num.truthy (Number (PlaceOrderArgs.size args)) = true
  /\ PlaceOrderArgs.orderType args = Some "limit"
  /\ PlaceOrderArgs.price args = None
  /\ hyperliquidClient (ensure_client (host := SampleHost.host) SampleHost.authenticated)
     = hyperliquidClient SampleHost.authenticated
  /\ truthy_str (privateKey (userCredentials SampleHost.authenticated)) = true
  /\ completion r
     = Threw (McpError InternalError
                "Failed to place order: MCP error -32602: Price is required for limit orders")
  /\ calls r = [Connect].
Proof.
  cbv zeta. do 7 (split; [reflexivity|]).
  destruct (@place_order_limit_without_price SampleHost.host
              (SampleHost.env SampleHost.up SampleHost.now SampleHost.random1)
              SampleHost.authenticated (SampleHost.order "buy" 1 "limit") _
              eq_refl eq_refl eq_refl eq_refl eq_refl eq_refl eq_refl)
    as [H1 [H2 _]].
  split; [exact H1 | exact H2].
Defined.

(** A market order to sell with size -1 is submitted as it is. *)
Lemma place_order_negative_size :
  let env1 := SampleHost.env SampleHost.up SampleHost.now SampleHost.random1 in
  let r := place_order (host := SampleHost.host) env1 SampleHost.authenticated
                       (SampleHost.order "sell" (-1) "market") in
  completion r = Returned (text_result (JSON_stringify (JObject [("status", JString "ok")])))
  /\ submitted (calls r)
     = [ {| coin := "BTC-PERP"; is_buy := false; sz := Num.of_Z (-1);
            reduce_only := false; limit_px := None; order_type := Market |} ]
  /\ error_code (completion r) <> Some InvalidParams.
Proof. cbv zeta. split; [reflexivity|]. split; [reflexivity | discriminate]. Defined.

Lemma place_order_falsy_size_witness :
  let env1 := SampleHost.env SampleHost.up SampleHost.now SampleHost.random1 in
  let args := SampleHost.order "buy" 0 "market" in
  let r := place_order (host := SampleHost.host) env1 SampleHost.authenticated args in
  Num.truthy (Number (PlaceOrderArgs.size args)) = false
  /\ completion r
     = Threw (McpError InvalidParams "Symbol, side, size, and orderType are required")
  /\ final r = SampleHost.authenticated
  /\ calls r = [].
Proof.
  cbv zeta. split; [reflexivity|].
  destruct (@place_order_falsy_size SampleHost.host
              (SampleHost.env SampleHost.up SampleHost.now SampleHost.random1)
              SampleHost.authenticated (SampleHost.order "buy" 0 "market") eq_refl)
    as [H1 [H2 [H3 _]]].
  split; [exact H1|]. split; [exact H2 | exact H3].
Defined.

(** When the perpetual fetch fails the read fails as a whole, and the spot
    section is not fetched. *)
Lemma read_account_perp_down :
  let env1 := SampleHost.env SampleHost.perp_down SampleHost.now SampleHost.random1 in
  let r := read_resource (host := SampleHost.host) env1 SampleHost.authenticated
                         "hyperliquid://account" in
  completion r
  = Threw (McpError InternalError
             "Failed to fetch account information: perpetuals unavailable")
  /\ calls r = [Connect; GetClearinghouseState SampleHost.address].
Proof. cbv zeta. split; reflexivity. Defined.

Lemma read_account_sections_witness :
  let env1 := SampleHost.env SampleHost.spot_down SampleHost.now SampleHost.random1 in
  let r := read_resource (host := SampleHost.host) env1 SampleHost.authenticated
                         "hyperliquid://account" in
  hyperliquidClient (ensure_client (host := SampleHost.host) SampleHost.authenticated)
  = hyperliquidClient SampleHost.authenticated
  /\ connect (exchange env1) = Returned tt
  /\ truthy_str (walletAddress (userCredentials SampleHost.authenticated)) = true
  /\ completion r
     = Returned (read_result "hyperliquid://account"
                   (JSON_stringify_account
                      (Account (JObject [("marginSummary", JObject [])]) None "testnet"))).
Proof.
  cbv zeta. do 3 (split; [reflexivity|]).
  destruct (@read_account_sections SampleHost.host
              (SampleHost.env SampleHost.spot_down SampleHost.now SampleHost.random1)
              SampleHost.authenticated _ eq_refl eq_refl eq_refl)
    as [spot [H [Hnone _]]].
  rewrite (Hnone _ eq_refl) in H. exact H.
Defined.

Lemma spot_balance_usd_value_witness :
  let pm := ensure_USDC None
              (build_priceMap (host := SampleHost.host)
                 [ {| ctx_coin := "PURR-SPOT"; markPx := "2.5" |} ]) in
  let b := SampleHost.balance "PURR-SPOT" "10" in
  own_get pm (balance_coin b) = Some (Num.make 5 (-1))
  /\ parseFloat (JsHost := SampleHost.host) (balance_total b) = Num.of_Z 10
  /\ price (enrich (host := SampleHost.host) None pm b) = Some "2.5"
  /\ usdValue (enrich (host := SampleHost.host) None pm b) = Some "25"
  /\ own_get (build_priceMap (host := SampleHost.host)
                [ {| ctx_coin := "PURR-SPOT"; markPx := "2.5" |} ]) "USDC-SPOT" = None
  /\ own_get pm "USDC-SPOT" = Some (Num.of_Z 1).
Proof.
  cbv zeta. do 2 (split; [reflexivity|]).
  destruct (@spot_balance_usd_value SampleHost.host) as [Hten [Husdc _]].
  destruct (Hten None
              (ensure_USDC None
                 (build_priceMap (host := SampleHost.host)
                    [ {| ctx_coin := "PURR-SPOT"; markPx := "2.5" |} ]))
              (SampleHost.balance "PURR-SPOT" "10") eq_refl eq_refl)
    as [Hprice Husd].
  split; [exact Hprice|]. split; [exact Husd|]. split; [reflexivity|].
  exact (Husdc None
           (build_priceMap (host := SampleHost.host)
              [ {| ctx_coin := "PURR-SPOT"; markPx := "2.5" |} ])
           (or_introl eq_refl)).
Defined.

(** A balance whose [total] does not parse has no price and the
    [usdValue] [NaN], not zero. *)
Lemma unpriced_balance_not_a_number :
  let env1 := SampleHost.env SampleHost.spot_up SampleHost.now SampleHost.random1 in
  let r := read_resource (host := SampleHost.host) env1 SampleHost.authenticated
                         "hyperliquid://account" in
  completion r
  = Returned
      (read_result "hyperliquid://account"
         (JSON_stringify_account
            (Account (JObject [("marginSummary", JObject [])])
               (Some {| balances :=
                          Some [ {| balance_coin := "PURR-SPOT"; balance_total := "10";
                                    balance_others := [("hold", JString "0.0")];
                                    price := Some "2.5"; usdValue := Some "25" |};
                                 {| balance_coin := "HFUN-SPOT"; balance_total := "4";
                                    balance_others := [("hold", JString "0.0")];
                                    price := Some "0"; usdValue := Some "0" |};
                                 {| balance_coin := "JEFF-SPOT"; balance_total := "abc";
                                    balance_others := [("hold", JString "0.0")];
                                    price := Some "0"; usdValue := Some "NaN" |} ] |})
               "testnet"))).
Proof. reflexivity. Defined.

Lemma unpriced_balance_in_response_witness :
  let env1 := SampleHost.env SampleHost.spot_up SampleHost.now SampleHost.random1 in
  let st := SampleHost.authenticated in
  let bs := [ SampleHost.balance "PURR-SPOT" "10"; SampleHost.balance "HFUN-SPOT" "4";
              SampleHost.balance "JEFF-SPOT" "abc" ] in
  let ctxs := [ {| ctx_coin := "PURR-SPOT"; markPx := "2.5" |} ] in
  hyperliquidClient (ensure_client (host := SampleHost.host) st) = hyperliquidClient st
  /\ connect (exchange env1) = Returned tt
  /\ truthy_str (walletAddress (userCredentials st)) = true
  /\ getClearinghouseState (exchange env1) SampleHost.address
     = Returned (JObject [("marginSummary", JObject [])])
  /\ getSpotClearinghouseState (exchange env1) SampleHost.address
     = Returned (Some {| balances := Some bs |})
  /\ has_balances (Some {| balances := Some bs |}) = Some bs
  /\ getSpotMetaAndAssetCtxs (exchange env1) = Returned (JObject [], ctxs)
  /\ nth_error bs 1 = Some (SampleHost.balance "HFUN-SPOT" "4")
  /\ own_get (ensure_USDC None (build_priceMap (host := SampleHost.host) ctxs)) "HFUN-SPOT"
     = None
  /\ inherits None "HFUN-SPOT" = false
  /\ exists bs',
      completion (read_resource (host := SampleHost.host) env1 st "hyperliquid://account")
      = Returned (read_result "hyperliquid://account"
                    (JSON_stringify_account
                       (Account (JObject [("marginSummary", JObject [])])
                                (Some {| balances := Some bs' |}) "testnet")))
      /\ nth_error bs' 1
         = Some {| balance_coin := "HFUN-SPOT"; balance_total := "4";
                   balance_others := [("hold", JString "0.0")];
                   price := Some "0"; usdValue := Some "0" |}.
Proof.
  cbv zeta. do 10 (split; [reflexivity|]).
  destruct (@unpriced_balance_in_response SampleHost.host
              (SampleHost.env SampleHost.spot_up SampleHost.now SampleHost.random1)
              SampleHost.authenticated _ _ _ _ _ _ 1%nat _
              eq_refl eq_refl eq_refl eq_refl eq_refl eq_refl eq_refl eq_refl
              eq_refl eq_refl)
    as [bs' [H [_ [Hnth _]]]].
  exists bs'. split; [exact H | exact Hnth].
Defined.

(** ** Ids that name inherited properties

    What the hypothesis on inherited names in [activate_unknown_strategy]
    and [unpriced_balance_in_response] keeps out. *)

Example activate_strategy_constructor :
  completion (activate_strategy initial_state (SampleHost.activate "constructor"))
  = Returned (text_result (Text "Strategy constructor activated"))
  /\ final (activate_strategy initial_state (SampleHost.activate "constructor"))
     = initial_state.
Proof. split; reflexivity. Qed.

Example activate_strategy_proto :
  let r := activate_strategy initial_state (SampleHost.activate "__proto__") in
  completion r = Returned (text_result (Text "Strategy __proto__ activated"))
  /\ strategies (final r) = []
  /\ Object_prototype_active (final r) = Some true
  /\ error_code (completion (activate_strategy (final r) (SampleHost.activate "active")))
     = None
  /\ completion (activate_strategy (final r) (SampleHost.activate "active"))
     = Threw (OtherError "Cannot create property 'active' on boolean 'true'").
Proof. cbv zeta. repeat split. Qed.

(** * Further properties of the handlers *)

Section Server.

Context {host : JsHost}.

(** ** The catalog and the dispatcher *)

Lemma catch_rethrow_internal {A} (body : Attempt A) (f : Thrown -> string) :
  error_code (snd (catch_rethrow body (fun e => McpError InternalError (f e))))
  = None
  \/ error_code (snd (catch_rethrow body (fun e => McpError InternalError (f e))))
     = Some InternalError.
Proof. destruct body as [t [a|e]]; simpl; auto. Qed.

(** A handler of the catalog never answers [MethodNotFound]. *)
Lemma known_tool_error env st c :
  (forall tool, c <> call_other tool) ->
  error_code (completion (call_tool env st c)) <> Some MethodNotFound.
Proof.
  intros Hc. destruct c as [args|args|args|args|args|args|tool]; simpl.
  - unfold authenticate.
    destruct (negb (truthy_str _) && negb (truthy_str _)); [discriminate|].
    destruct (truthy_str _ && negb (ethers_Wallet _)); [discriminate|].
    simpl. destruct (initializeClient _); discriminate.
  - unfold get_market_data.
    destruct (negb (truthy_str _)); [discriminate|].
    destruct (hyperliquidClient (ensure_client st)); [|discriminate].
    match goal with |- context [catch_rethrow ?b ?h] =>
      destruct b as [t [a|e]]; simpl; discriminate end.
  - unfold place_order.
    destruct (negb (truthy_str _) || negb (truthy_str _) || negb (Num.truthy _)
              || negb (truthy_str _)); [discriminate|].
    destruct (hyperliquidClient (ensure_client st)); [|discriminate].
    destruct (negb (truthy_str _)); [discriminate|].
    match goal with |- context [catch_rethrow ?b ?h] =>
      destruct b as [t [a|e]]; simpl; discriminate end.
  - unfold cancel_order.
    destruct (negb (truthy_str _) || negb (truthy_str _)); [discriminate|].
    destruct (hyperliquidClient (ensure_client st)); [|discriminate].
    destruct (negb (truthy_str _)); [discriminate|].
    match goal with |- context [catch_rethrow ?b ?h] =>
      destruct b as [t [a|e]]; simpl; discriminate end.
  - unfold create_strategy.
    destruct (CreateStrategy.name args); [|discriminate].
    destruct (CreateStrategy.description args); [|discriminate].
    destruct (CreateStrategy.config args); [|discriminate].
    destruct (negb (truthy_str _) || negb (truthy_str _) || negb (truthy_json _));
      discriminate.
  - unfold activate_strategy.
    destruct (negb (truthy_str _)); [discriminate|].
    destruct (get _ _ _) as [s|[b|[|]]|]; try discriminate.
    destruct (b =? "__proto__"); discriminate.
  - exfalso. now apply (Hc tool).
Qed.

(** X1. The call-tool handler answers [MethodNotFound] exactly for the
    names that the list-tools handler does not list. *)
Theorem method_not_found_iff_unlisted env st tool args :
  error_code (completion (call_tool_request env st tool args)) = Some MethodNotFound
  <-> ~ In tool (map tool_name list_tools).
Proof.
  unfold call_tool_request, select. simpl map. split.
  - intros H Hin.
    repeat match goal with
           | _ : context [if ?x =? ?y then _ else _] |- _ => destruct (x =? y) eqn:?
           end;
      try (revert H; apply known_tool_error; intros t; discriminate).
    simpl in Hin.
    repeat match goal with
           | E : (tool =? _) = false |- _ => apply String.eqb_neq in E
           end.
    intuition congruence.
  - intros Hn.
    repeat match goal with
           | |- context [if ?x =? ?y then _ else _] =>
               destruct (String.eqb_spec x y);
               [exfalso; apply Hn; simpl; subst; tauto|]
           end.
    reflexivity.
Qed.

(** X2. A call that leaves out a property its tool's schema lists as
    required is refused with [InvalidParams] before the state is touched or
    the client called; the one exception is [active] of
    [activate_strategy], which the handler does not require. *)
Theorem missing_required_property env st t field args :
  In t list_tools ->
  In field (required t) ->
  (tool_name t, field) <> ("activate_strategy", "active") ->
  has args field = false ->
  error_code (completion (call_tool_request env st (tool_name t) args))
  = Some InvalidParams
  /\ final (call_tool_request env st (tool_name t) args) = st
  /\ calls (call_tool_request env st (tool_name t) args) = [].
Proof.
  intros Ht Hf Hex Hhas. unfold list_tools in Ht. simpl in Ht.
  repeat (destruct Ht as [<-|Ht]; [simpl in Hf|]); try contradiction;
    repeat (destruct Hf as [<-|Hf]); try contradiction;
    try (exfalso; now apply Hex);
    unfold has in Hhas; simpl in Hhas;
    unfold call_tool_request, select; simpl;
    unfold get_market_data, place_order, cancel_order, create_strategy,
      activate_strategy; simpl.
  - destruct (Arguments.symbol args); [discriminate|]. simpl. repeat split.
  - destruct (Arguments.symbol args); [discriminate|]. simpl. repeat split.
  - destruct (Arguments.side args); [discriminate|]. simpl.
    rewrite orb_true_r. simpl. repeat split.
  - destruct (Arguments.size args); [discriminate|]. simpl.
    rewrite orb_true_r. simpl. repeat split.
  - destruct (Arguments.orderType args); [discriminate|]. simpl.
    rewrite orb_true_r. repeat split.
  - destruct (Arguments.symbol args); [discriminate|]. simpl. repeat split.
  - destruct (Arguments.orderId args); [discriminate|]. simpl.
    rewrite orb_true_r. repeat split.
  - destruct (Arguments.name args); [discriminate|]. repeat split.
  - destruct (Arguments.description args); [discriminate|].
    destruct (Arguments.name args); repeat split.
  - destruct (Arguments.config args); [discriminate|].
    destruct (Arguments.name args); [destruct (Arguments.description args)|];
      repeat split.
  - destruct (Arguments.strategyId args); [discriminate|]. simpl. repeat split.
Qed.

(** ** [authenticate] *)

(** X3. An [authenticate] call with a key or an address, whose key (if
    any) [ethers] accepts and whose client can be constructed, returns and
    replaces the stored credentials as a whole by those of the call (test
    net unless the call says otherwise, no vault address unless the call
    has one) and the client by one built from them with the web socket
    enabled; the strategies stay and the exchange is not called. *)
Theorem authenticate_replaces_session st args :
  truthy_str (Authenticate.privateKey args) || truthy_str (Authenticate.walletAddress args)
  = true ->
  (forall key, Authenticate.privateKey args = Some key -> key <> "" ->
               ethers_Wallet (formattedPrivateKey key) = true) ->
  new_Hyperliquid (options (requested args)) = true ->
  completion (authenticate st args)
  = Returned (text_result
                (Text ("Successfully authenticated with Hyperliquid "
                       ++ (if testnet (requested args) then "testnet" else "mainnet"))))
  /\ final (authenticate st args)
     = {| userCredentials := requested args;
          strategies := strategies st;
          hyperliquidClient := Some (options (requested args));
          Object_prototype_active := Object_prototype_active st |}
  /\ calls (authenticate st args) = [].
Proof.
  intros Hany Hkey Hnew. unfold authenticate.
  apply orb_true_iff in Hany.
  assert (H1 : negb (truthy_str (Authenticate.privateKey args))
               && negb (truthy_str (Authenticate.walletAddress args)) = false).
  { destruct Hany as [-> | ->]; simpl; [reflexivity | apply andb_false_r]. }
  rewrite H1.
  assert (H2 : truthy_str (Authenticate.privateKey args)
               && negb (ethers_Wallet
                          (if startsWith (show (Authenticate.privateKey args)) "0x"
                           then show (Authenticate.privateKey args)
                           else "0x" ++ show (Authenticate.privateKey args))) = false).
  { destruct (Authenticate.privateKey args) as [key|] eqn:Ek; [|reflexivity].
    cbn [truthy_str show]. destruct (key =? "") eqn:E; [reflexivity|].
    apply String.eqb_neq in E. unfold formattedPrivateKey in Hkey.
    now rewrite (Hkey key eq_refl E). }
  rewrite H2. unfold initializeClient. cbn [userCredentials with_client].
  fold (requested args). fold (options (requested args)).
  cbn [privateKey walletAddress requested]. rewrite H1, Hnew.
  cbn [hyperliquidClient]. repeat split.
Qed.

(** X4. A key that [ethers] rejects, with or without the [0x] prefix the
    handler adds for the check, makes [authenticate] throw [InvalidParams]
    and leaves credentials, client and strategies as they were. *)
Theorem authenticate_rejects_malformed_key st args key :
  Authenticate.privateKey args = Some key ->
  key <> "" ->
  ethers_Wallet (formattedPrivateKey key) = false ->
  completion (authenticate st args)
  = Threw (McpError InvalidParams "Invalid private key format")
  /\ final (authenticate st args) = st
  /\ calls (authenticate st args) = [].
Proof.
  intros Hk Hne Hbad. unfold authenticate. rewrite Hk.
  apply String.eqb_neq in Hne. unfold formattedPrivateKey in Hbad.
  cbn [truthy_str show]. rewrite Hne. cbn [negb andb]. rewrite Hbad. repeat split.
Qed.

(** X5. When the call is well formed but the client cannot be
    constructed, [authenticate] throws [InternalError] after the state has
    changed: the credentials of the call are stored and the client the
    session had is gone. *)
Theorem authenticate_failed_construction st args :
  truthy_str (Authenticate.privateKey args) || truthy_str (Authenticate.walletAddress args)
  = true ->
  (forall key, Authenticate.privateKey args = Some key -> key <> "" ->
               ethers_Wallet (formattedPrivateKey key) = true) ->
  new_Hyperliquid (options (requested args)) = false ->
  completion (authenticate st args)
  = Threw (McpError InternalError "Failed to initialize Hyperliquid client")
  /\ userCredentials (final (authenticate st args)) = requested args
  /\ hyperliquidClient (final (authenticate st args)) = None
  /\ strategies (final (authenticate st args)) = strategies st.
Proof.
  intros Hany Hkey Hnew. unfold authenticate.
  apply orb_true_iff in Hany.
  assert (H1 : negb (truthy_str (Authenticate.privateKey args))
               && negb (truthy_str (Authenticate.walletAddress args)) = false).
  { destruct Hany as [-> | ->]; simpl; [reflexivity | apply andb_false_r]. }
  rewrite H1.
  assert (H2 : truthy_str (Authenticate.privateKey args)
               && negb (ethers_Wallet
                          (if startsWith (show (Authenticate.privateKey args)) "0x"
                           then show (Authenticate.privateKey args)
                           else "0x" ++ show (Authenticate.privateKey args))) = false).
  { destruct (Authenticate.privateKey args) as [key|] eqn:Ek; [|reflexivity].
    cbn [truthy_str show]. destruct (key =? "") eqn:E; [reflexivity|].
    apply String.eqb_neq in E. unfold formattedPrivateKey in Hkey.
    now rewrite (Hkey key eq_refl E). }
  rewrite H2. unfold initializeClient. cbn [userCredentials with_client].
  fold (requested args). fold (options (requested args)).
  cbn [privateKey walletAddress requested]. rewrite H1, Hnew.
  cbn [hyperliquidClient]. repeat split.
Qed.

(** ** What requests keep *)

Lemma ensure_client_keeps_client st c :
  hyperliquidClient st = Some c -> ensure_client st = st.
Proof. unfold ensure_client. now intros ->. Qed.

Lemma read_resource_session env st u :
  userCredentials (final (read_resource env st u)) = userCredentials st
  /\ (forall c, hyperliquidClient st = Some c ->
                hyperliquidClient (final (read_resource env st u)) = Some c).
Proof.
  unfold read_resource.
  destruct (u =? "hyperliquid://account").
  - unfold read_account.
    destruct (hyperliquidClient (ensure_client st)) eqn:E;
      [destruct (catch_rethrow _ _)|]; simpl;
      (split; [apply ensure_client_credentials|]);
      intros c0 Hc; now rewrite (ensure_client_keeps_client _ _ Hc).
  - destruct (startsWith u "hyperliquid://strategy/"); [|now split].
    unfold read_strategy.
    destruct (get _ _ _) as [s|[k|[|]]|]; now split.
Qed.

Lemma handle_session env st r :
  is_authenticate r = false ->
  userCredentials (handle env st r) = userCredentials st
  /\ (forall c, hyperliquidClient st = Some c ->
                hyperliquidClient (handle env st r) = Some c).
Proof.
  intros Hr. destruct r as [|u|c]; simpl.
  - now split.
  - apply read_resource_session.
  - destruct c as [args|args|args|args|args|args|tool]; simpl; try discriminate.
    + unfold get_market_data.
      destruct (negb (truthy_str _)); [now split|].
      destruct (hyperliquidClient (ensure_client st)) eqn:E;
        [destruct (catch_rethrow _ _)|]; simpl;
        (split; [apply ensure_client_credentials|]);
        intros c0 Hc; now rewrite (ensure_client_keeps_client _ _ Hc).
    + unfold place_order.
      destruct (negb (truthy_str _) || negb (truthy_str _) || negb (Num.truthy _)
                || negb (truthy_str _)); [now split|].
      destruct (hyperliquidClient (ensure_client st)) eqn:E;
        [destruct (negb (truthy_str _)); [|destruct (catch_rethrow _ _)]|]; simpl;
        (split; [apply ensure_client_credentials|]);
        intros c0 Hc; now rewrite (ensure_client_keeps_client _ _ Hc).
    + unfold cancel_order.
      destruct (negb (truthy_str _) || negb (truthy_str _)); [now split|].
      destruct (hyperliquidClient (ensure_client st)) eqn:E;
        [destruct (negb (truthy_str _)); [|destruct (catch_rethrow _ _)]|]; simpl;
        (split; [apply ensure_client_credentials|]);
        intros c0 Hc; now rewrite (ensure_client_keeps_client _ _ Hc).
    + unfold create_strategy.
      destruct (CreateStrategy.name args); [|now split].
      destruct (CreateStrategy.description args); [|now split].
      destruct (CreateStrategy.config args); [|now split].
      destruct (negb (truthy_str _) || negb (truthy_str _) || negb (truthy_json _));
        now split.
    + unfold activate_strategy.
      destruct (negb (truthy_str _)); [now split|].
      destruct (get _ _ _) as [s|[b|[|]]|]; try now split.
      destruct (b =? "__proto__"); now split.
    + now split.
Qed.

(** X6. Only [authenticate] changes the stored credentials, and only
    [authenticate] replaces a client the session already has: after any
    sequence of other requests the credentials are the same and the client
    is the same object. *)
Theorem session_kept_without_authenticate requests : forall st c,
  forallb (fun er => negb (is_authenticate (snd er))) requests = true ->
  hyperliquidClient st = Some c ->
  userCredentials (serve st requests) = userCredentials st
  /\ hyperliquidClient (serve st requests) = Some c.
Proof.
  induction requests as [|er requests IH]; intros st c Hall Hc; [now split|].
  simpl in Hall. apply andb_true_iff in Hall as [Her Hall].
  apply negb_true_iff in Her.
  destruct (handle_session (fst er) st (snd er) Her) as [Hcreds Hclient].
  unfold serve. simpl.
  destruct (IH (handle (fst er) st (snd er)) c Hall (Hclient c Hc)) as [IH1 IH2].
  split; [now rewrite <- Hcreds | exact IH2].
Qed.

(** *** Strategies *)

Lemma handle_record_persists er st k s :
  own_get (strategies st) k = Some s ->
  exists s',
    own_get (strategies (handle (fst er) st (snd er))) k = Some s'
    /\ (regenerates k er = false -> same_definition s s').
Proof.
  intros Hown.
  assert (Hsame : same_definition s s) by (repeat split).
  destruct (touches k er) eqn:Ht.
  - destruct er as [env r]. unfold touches in Ht. unfold regenerates.
    simpl fst in *. simpl snd in *.
    destruct r as [|u|c]; try discriminate.
    destruct c as [args|args|args|args|args|args|tool]; try discriminate; simpl.
    + unfold create_strategy.
      destruct (CreateStrategy.name args) as [n|]; [|now exists s].
      destruct (CreateStrategy.description args) as [d|]; [|now exists s].
      destruct (CreateStrategy.config args) as [c|]; [|now exists s].
      destruct (negb (truthy_str (Some n)) || negb (truthy_str (Some d))
                || negb (truthy_json (Some c))); [now exists s|].
      cbn [final returned with_strategies strategies].
      eexists. split; [apply String.eqb_eq in Ht; rewrite Ht; apply own_get_own_set_same|].
      intros Hre. change ((generate_id env =? k) = false) in Hre. congruence.
    + unfold activate_strategy.
      destruct (ActivateStrategy.strategyId args) as [k'|]; [|discriminate].
      simpl in Ht. apply String.eqb_eq in Ht. subst k'. simpl.
      destruct (negb (negb (k =? ""))); [now exists s|].
      rewrite (get_own _ _ _ _ Hown). simpl.
      eexists. split; [apply own_get_own_set_same|].
      intros _. repeat split.
  - exists s. split; [|now intros _].
    now apply handle_keeps_record.
Qed.

(** X7. No request removes a strategy: a record stored under an id is
    still stored under it after any sequence of requests, and its id, name,
    description and config are the same unless some [create_strategy] in
    between generated that id again. *)
Theorem strategy_never_removed requests : forall st k s,
  own_get (strategies st) k = Some s ->
  exists s',
    own_get (strategies (serve st requests)) k = Some s'
    /\ (forallb (fun er => negb (regenerates k er)) requests = true ->
        same_definition s s').
Proof.
  induction requests as [|er requests IH]; intros st k s Hown.
  - exists s. split; [exact Hown | intros _; repeat split].
  - destruct (handle_record_persists er st k s Hown) as [s1 [H1 Hs1]].
    destruct (IH (handle (fst er) st (snd er)) k s1 H1) as [s2 [H2 Hs2]].
    exists s2. split; [exact H2|].
    simpl. intros Hall. apply andb_true_iff in Hall as [Her Hall].
    apply negb_true_iff in Her.
    destruct (Hs1 Her) as [A1 [A2 [A3 A4]]].
    destruct (Hs2 Hall) as [B1 [B2 [B3 B4]]].
    repeat split; congruence.
Qed.

(** *** The shape of the strategy map *)

Lemma own_get_none {A} (o : list (string * A)) k :
  own_get o k = None <-> ~ In k (map fst o).
Proof.
  induction o as [|[k' v'] o IH]; simpl; [tauto|].
  destruct (String.eqb_spec k' k) as [->|Hne].
  - split; [discriminate | intros H; exfalso; apply H; now left].
  - rewrite IH. split; [intros H [E|E]; [contradiction | now apply H] | tauto].
Qed.

Lemma own_get_in {A} (o : list (string * A)) k v :
  own_get o k = Some v -> In (k, v) o.
Proof.
  induction o as [|[k' v'] o IH]; simpl; [discriminate|].
  destruct (String.eqb_spec k' k) as [->|Hne].
  - intros H. injection H as <-. now left.
  - intros H. right. now apply IH.
Qed.

Lemma in_own_get {A} (o : list (string * A)) k v :
  NoDup (map fst o) -> In (k, v) o -> own_get o k = Some v.
Proof.
  induction o as [|[k' v'] o IH]; simpl; [contradiction|].
  intros Hnd [E|Hin].
  - injection E as -> ->. now rewrite String.eqb_refl.
  - inversion Hnd as [|? ? Hnotin Hnd']; subst.
    destruct (String.eqb_spec k' k) as [->|Hne].
    + exfalso. apply Hnotin. now apply (in_map fst) in Hin.
    + now apply IH.
Qed.

Lemma own_set_keys {A} (o : list (string * A)) k v :
  map fst (own_set o k v)
  = match own_get o k with
    | Some _ => map fst o
    | None => (map fst o ++ [k])%list
    end.
Proof.
  induction o as [|[k' v'] o IH]; simpl; [reflexivity|].
  destruct (String.eqb_spec k' k) as [->|Hne]; simpl; [reflexivity|].
  rewrite IH. now destruct (own_get o k).
Qed.

Lemma own_set_in {A} (o : list (string * A)) k v entry :
  In entry (own_set o k v) -> entry = (k, v) \/ In entry o.
Proof.
  induction o as [|[k' v'] o IH]; simpl.
  - intros [<-|[]]. now left.
  - destruct (k' =? k); simpl.
    + intros [<-|H]; [now left | now right; right].
    + intros [<-|H]; [now right; left|].
      destruct (IH H) as [->|H']; [now left | now right; right].
Qed.

Lemma own_set_well_formed (o : list (string * Strategy)) k s :
  NoDup (map fst o) ->
  Forall (fun entry => id (snd entry) = fst entry
                       /\ startsWith (fst entry) "strategy-" = true) o ->
  id s = k -> startsWith k "strategy-" = true ->
  NoDup (map fst (own_set o k s))
  /\ Forall (fun entry => id (snd entry) = fst entry
                          /\ startsWith (fst entry) "strategy-" = true)
            (own_set o k s).
Proof.
  intros Hnd Hall Hid Hpre. split.
  - rewrite own_set_keys. destruct (own_get o k) eqn:E; [exact Hnd|].
    apply own_get_none in E.
    apply NoDup_app; [exact Hnd | repeat constructor; intros [] |].
    intros x Hx [<-|[]]. contradiction.
  - apply Forall_forall. intros entry Hin.
    destruct (own_set_in _ _ _ _ Hin) as [->|Hin']; [now split|].
    exact (proj1 (Forall_forall _ _) Hall entry Hin').
Qed.

Lemma generate_id_prefix env : startsWith (generate_id env) "strategy-" = true.
Proof.
  unfold generate_id, startsWith. simpl.
  now destruct (NumberToString (Date_now env) ++ _).
Qed.

Lemma handle_well_formed env st r :
  well_formed st -> well_formed (handle env st r).
Proof.
  intros [Hnd Hall]. unfold well_formed.
  destruct r as [|u|c]; simpl.
  - now split.
  - now rewrite read_resource_strategies.
  - destruct c as [args|args|args|args|args|args|tool]; simpl.
    + unfold authenticate.
      destruct (negb (truthy_str _) && negb (truthy_str _)); [now split|].
      destruct (truthy_str _ && negb (ethers_Wallet _)); [now split|].
      simpl. destruct (initializeClient _); now split.
    + unfold get_market_data.
      destruct (negb (truthy_str _)); [now split|].
      destruct (hyperliquidClient (ensure_client st));
        [destruct (catch_rethrow _ _)|]; simpl;
        rewrite ensure_client_strategies; now split.
    + unfold place_order.
      destruct (negb (truthy_str _) || negb (truthy_str _) || negb (Num.truthy _)
                || negb (truthy_str _)); [now split|].
      destruct (hyperliquidClient (ensure_client st));
        [destruct (negb (truthy_str _)); [|destruct (catch_rethrow _ _)]|]; simpl;
        rewrite ensure_client_strategies; now split.
    + unfold cancel_order.
      destruct (negb (truthy_str _) || negb (truthy_str _)); [now split|].
      destruct (hyperliquidClient (ensure_client st));
        [destruct (negb (truthy_str _)); [|destruct (catch_rethrow _ _)]|]; simpl;
        rewrite ensure_client_strategies; now split.
    + unfold create_strategy.
      destruct (CreateStrategy.name args) as [n|]; [|now split].
      destruct (CreateStrategy.description args) as [d|]; [|now split].
      destruct (CreateStrategy.config args) as [c|]; [|now split].
      destruct (negb (truthy_str (Some n)) || negb (truthy_str (Some d))
                || negb (truthy_json (Some c))); [now split|].
      cbn [final returned with_strategies strategies].
      apply own_set_well_formed; auto using generate_id_prefix.
    + unfold activate_strategy.
      destruct (ActivateStrategy.strategyId args) as [k|]; [|now split].
      simpl. destruct (negb (negb (k =? ""))); [now split|].
      destruct (get _ _ k) as [s|[b|[|]]|] eqn:E; simpl; try now split.
      * unfold get in E. destruct (own_get (strategies st) k) as [s0|] eqn:Hown.
        -- injection E as <-. apply own_get_in in Hown.
           pose proof (proj1 (Forall_forall _ _) Hall _ Hown) as [Hid Hpre].
           apply own_set_well_formed; auto.
        -- destruct (is_builtin k); [discriminate|].
           destruct (k =? "active"); [|discriminate].
           destruct (Object_prototype_active st); discriminate.
      * destruct (b =? "__proto__"); now split.
    + now split.
Qed.

(** X8. In every state the server can reach from its start, the ids of
    the stored strategies are pairwise distinct, every record is stored
    under its own id, and every id starts with [strategy-] (so none is the
    name of an inherited property). *)
Theorem reachable_well_formed requests :
  well_formed (serve initial_state requests).
Proof.
  assert (H : forall st, well_formed st -> well_formed (serve st requests)).
  { induction requests as [|er requests IH]; intros st Hst; [exact Hst|].
    unfold serve. simpl. apply IH. now apply handle_well_formed. }
  apply H. split; constructor.
Qed.

(** *** Listing and reading *)

Lemma read_strategy_quiet env st u :
  (u =? "hyperliquid://account") = false ->
  final (read_resource env st u) = st /\ calls (read_resource env st u) = [].
Proof.
  intros Hu. unfold read_resource. rewrite Hu.
  destruct (startsWith u "hyperliquid://strategy/"); [|now split].
  unfold read_strategy.
  destruct (get _ _ _) as [s|[k|[|]]|]; now split.
Qed.

(** X9. In a state with well-formed strategies, every resource the list
    shows besides the account resource can be read: the read returns,
    without calling the exchange, the record whose id is in the URI and
    whose name and description the list entry shows; and every stored
    record is shown in the list. *)
Theorem listed_strategies_are_readable env st :
  well_formed st ->
  (forall res,
      In res (list_resources st) ->
      (uri res =? "hyperliquid://account") = false ->
      exists s,
        own_get (strategies st) (id s) = Some s
        /\ uri res = "hyperliquid://strategy/" ++ id s
        /\ resource_name res = name s
        /\ resource_description res = "Trading strategy: " ++ description s
        /\ completion (read_resource env st (uri res))
           = Returned (read_result (uri res) (JSON_stringify_strategy s))
        /\ calls (read_resource env st (uri res)) = [])
  /\ (forall k s,
        own_get (strategies st) k = Some s ->
        In (strategy_resource (k, s)) (list_resources st)).
Proof.
  intros [Hnd Hall]. split.
  - intros res Hin Huri. unfold list_resources in Hin.
    apply in_app_or in Hin as [Hin|Hin].
    + destruct (truthy_str _ || truthy_str _); [|contradiction].
      destruct Hin as [<-|[]]. discriminate.
    + apply in_map_iff in Hin as [[k s] [<- Hin]].
      pose proof (proj1 (Forall_forall _ _) Hall _ Hin) as [Hid _].
      simpl in Hid. subst k.
      pose proof (in_own_get _ _ _ Hnd Hin) as Hown.
      exists s. repeat split; try assumption.
      * now apply read_stored_strategy.
      * now apply read_strategy_quiet.
  - intros k s Hown. unfold list_resources. apply in_or_app. right.
    apply in_map. now apply own_get_in.
Qed.

(** ** [activate_strategy] on a stored record *)

Lemma own_set_own_set {A} (o : list (string * A)) k v w :
  own_set (own_set o k v) k w = own_set o k w.
Proof.
  induction o as [|[k' v'] o IH]; simpl.
  - now rewrite String.eqb_refl.
  - destruct (k' =? k) eqn:E; simpl; [now rewrite String.eqb_refl|].
    now rewrite E, IH.
Qed.

Lemma own_set_same_resource (o : list (string * Strategy)) k s b :
  own_get o k = Some s ->
  map strategy_resource (own_set o k (set_active s b)) = map strategy_resource o.
Proof.
  induction o as [|[k' s'] o IH]; simpl; [discriminate|].
  destruct (String.eqb_spec k' k) as [->|Hne]; simpl.
  - intros H. now injection H as ->.
  - intros H. now rewrite IH.
Qed.

Lemma activate_stored st args k s b :
  ActivateStrategy.strategyId args = Some k ->
  k <> "" ->
  own_get (strategies st) k = Some s ->
  ActivateStrategy.active args = Some b
  \/ (ActivateStrategy.active args = None
      /\ Object_prototype_active st = None /\ b = false)
  \/ (ActivateStrategy.active args = None
      /\ Object_prototype_active st = Some b) ->
  activate_strategy st args
  = returned (with_strategies st (own_set (strategies st) k (set_active s b)))
             (Text ("Strategy " ++ k ++ " " ++ (if b then "activated" else "deactivated"))).
Proof.
  intros Hk Hne Hown Hb. unfold activate_strategy. rewrite Hk.
  apply String.eqb_neq in Hne. cbn [truthy_str show]. rewrite Hne. cbn [negb].
  rewrite (get_own _ _ _ _ Hown).
  destruct Hb as [-> | [[-> [-> ->]] | [-> ->]]]; reflexivity.
Qed.

(** X10. [activate_strategy] on the id of a stored record returns and sets
    the flag of that record to the [active] the handler reads off the
    arguments: the one of the call when it has one; otherwise the
    [Object.prototype.active] that an earlier [activate_strategy] on
    [__proto__] wrote, which the arguments object inherits; and [false]
    when there is neither.  The record's other fields, the other records,
    the order of the records, the list of resources, the credentials, the
    client and [Object.prototype] stay as they were, and a read of the
    strategy shows the new flag. *)
Theorem activate_sets_flag env st args k s b :
  ActivateStrategy.strategyId args = Some k ->
  k <> "" ->
  own_get (strategies st) k = Some s ->
  ActivateStrategy.active args = Some b
  \/ (ActivateStrategy.active args = None
      /\ Object_prototype_active st = None /\ b = false)
  \/ (ActivateStrategy.active args = None
      /\ Object_prototype_active st = Some b) ->
  let st' := final (activate_strategy st args) in
  completion (activate_strategy st args)
  = Returned (text_result
                (Text ("Strategy " ++ k ++ " "
                       ++ (if b then "activated" else "deactivated"))))
  /\ own_get (strategies st') k = Some (set_active s b)
  /\ (forall k', k' <> k -> own_get (strategies st') k' = own_get (strategies st) k')
  /\ map fst (strategies st') = map fst (strategies st)
  /\ list_resources st' = list_resources st
  /\ userCredentials st' = userCredentials st
  /\ hyperliquidClient st' = hyperliquidClient st
  /\ Object_prototype_active st' = Object_prototype_active st
  /\ completion (read_resource env st' ("hyperliquid://strategy/" ++ k))
     = Returned (read_result ("hyperliquid://strategy/" ++ k)
                   (JSON_stringify_strategy (set_active s b))).
Proof.
  intros Hk Hne Hown Hb st'. subst st'.
  rewrite (activate_stored st args k s b Hk Hne Hown Hb).
  cbn [completion final returned with_strategies strategies userCredentials
       hyperliquidClient Object_prototype_active].
  split; [reflexivity|].
  split; [apply own_get_own_set_same|].
  split; [intros k' Hk'; apply own_get_own_set_other; congruence|].
  split; [now rewrite own_set_keys, Hown|].
  split; [unfold list_resources; cbn [with_strategies userCredentials strategies];
          now rewrite (own_set_same_resource _ _ _ _ Hown)|].
  split; [reflexivity|]. split; [reflexivity|]. split; [reflexivity|].
  apply read_stored_strategy. apply own_get_own_set_same.
Qed.

(** X11. Of two [activate_strategy] calls on the same stored record the
    later one decides: the state after both is the state after the later
    one alone (so repeating a call changes nothing). *)
Theorem activate_last_wins st k s b1 b2 :
  k <> "" ->
  own_get (strategies st) k = Some s ->
  let first := {| ActivateStrategy.strategyId := Some k;
                  ActivateStrategy.active := Some b1 |} in
  let second := {| ActivateStrategy.strategyId := Some k;
                   ActivateStrategy.active := Some b2 |} in
  final (activate_strategy (final (activate_strategy st first)) second)
  = final (activate_strategy st second).
Proof.
  intros Hne Hown first second.
  rewrite (activate_stored st first k s b1 eq_refl Hne Hown (or_introl eq_refl)).
  rewrite (activate_stored st second k s b2 eq_refl Hne Hown (or_introl eq_refl)).
  cbn [final returned].
  rewrite (activate_stored
             (with_strategies st (own_set (strategies st) k (set_active s b1)))
             second k (set_active s b1) b2 eq_refl Hne
             (own_get_own_set_same _ _ _) (or_introl eq_refl)).
  cbn [final returned with_strategies strategies userCredentials hyperliquidClient
       Object_prototype_active].
  now rewrite own_set_own_set.
Qed.

(** ** The calls a request makes *)

Ltac open_try :=
  unfold place_order_body, account_body, catch_rethrow, bind, await, ret, throw.

(** X12. Every order that [place_order] submits is the only one of its
    run and is the order of the call: symbol, size (never zero or [NaN])
    and reduce-only flag as given, a buy exactly when [side] is [buy], a
    limit order good-till-cancelled at the given non-zero price exactly
    when [orderType] is [limit], and otherwise a market order without a
    price, whatever price the call carries.  A private key is stored. *)
Theorem submitted_order_is_the_call env st args o :
  In o (submitted (calls (place_order env st args))) ->
  submitted (calls (place_order env st args)) = [o]
  /\ truthy_str (PlaceOrderArgs.symbol args) = true
  /\ coin o = show (PlaceOrderArgs.symbol args)
  /\ sz o = Number (PlaceOrderArgs.size args)
  /\ Num.truthy (sz o) = true
  /\ is_buy o = is_string (PlaceOrderArgs.side args) "buy"
  /\ reduce_only o
     = match PlaceOrderArgs.reduceOnly args with Some b => b | None => false end
  /\ (if is_string (PlaceOrderArgs.orderType args) "limit"
      then order_type o = Limit_Gtc
           /\ limit_px o = PlaceOrderArgs.price args
           /\ truthy_num (PlaceOrderArgs.price args) = true
      else order_type o = Market /\ limit_px o = None)
  /\ truthy_str (privateKey (userCredentials st)) = true.
Proof.
  unfold place_order.
  destruct (truthy_str (PlaceOrderArgs.symbol args)) eqn:Hsym; [|intros []].
  destruct (truthy_str (PlaceOrderArgs.side args)) eqn:Hside; [|intros []].
  destruct (Num.truthy (Number (PlaceOrderArgs.size args))) eqn:Hsize; [|intros []].
  destruct (truthy_str (PlaceOrderArgs.orderType args)) eqn:Htype; [|intros []].
  cbn [negb orb].
  destruct (hyperliquidClient (ensure_client st)); [|intros []].
  rewrite ensure_client_credentials.
  destruct (truthy_str (privateKey (userCredentials st))) eqn:Hkey; [|intros []].
  cbn [negb]. open_try.
  destruct (connect (exchange env)); [|intros []].
  destruct (is_string (PlaceOrderArgs.orderType args) "limit") eqn:Hlimit.
  - destruct (truthy_num (PlaceOrderArgs.price args)) eqn:Hprice; [|intros []].
    cbn [negb].
    match goal with |- context [placeOrder ?e ?r] => destruct (placeOrder e r) end;
      simpl; (intros [<-|[]]); repeat split; assumption.
  - match goal with |- context [placeOrder ?e ?r] => destruct (placeOrder e r) end;
      simpl; (intros [<-|[]]); repeat split; assumption.
Qed.

(** X13. Whatever the request, the first call on the exchange client, if
    there is any, is [connect]; and when [connect] fails nothing else is
    called and the request ends in [InternalError]. *)
Theorem connect_comes_first env st r :
  calls_of env st r = []
  \/ exists rest,
      calls_of env st r = Connect :: rest
      /\ forall e, connect (exchange env) = Threw e ->
                   rest = []
                   /\ exists m, error_of env st r = Some (McpError InternalError m).
Proof.
  destruct r as [|u|c]; simpl; [now left| |].
  - unfold read_resource.
    destruct (u =? "hyperliquid://account").
    + unfold read_account.
      destruct (hyperliquidClient (ensure_client st)); [|now left].
      right. open_try.
      destruct (connect (exchange env)) as [[]|e0]; simpl.
      * destruct (truthy_str _); simpl.
        -- destruct (getClearinghouseState _ _); simpl.
           ++ destruct (spot_section _ _ _) as [t spot]. simpl.
              eexists. split; [reflexivity | intros; discriminate].
           ++ eexists. split; [reflexivity | intros; discriminate].
        -- eexists. split; [reflexivity | intros; discriminate].
      * eexists. split; [reflexivity|]. intros e _. split; [reflexivity | eauto].
    + destruct (startsWith u "hyperliquid://strategy/"); [|now left].
      unfold read_strategy. destruct (get _ _ _) as [s|[k|[|]]|]; now left.
  - destruct c as [args|args|args|args|args|args|tool]; simpl.
    + unfold authenticate.
      destruct (negb (truthy_str _) && negb (truthy_str _)); [now left|].
      destruct (truthy_str _ && negb (ethers_Wallet _)); [now left|].
      simpl. destruct (initializeClient _); now left.
    + unfold get_market_data.
      destruct (negb (truthy_str _)); [now left|].
      destruct (hyperliquidClient (ensure_client st)); [|now left].
      right. open_try.
      destruct (connect (exchange env)) as [[]|e0]; simpl.
      * destruct (getL2Book _ _); simpl;
          (eexists; split; [reflexivity | intros; discriminate]).
      * eexists. split; [reflexivity|]. intros e _. split; [reflexivity | eauto].
    + unfold place_order.
      destruct (negb (truthy_str _) || negb (truthy_str _) || negb (Num.truthy _)
                || negb (truthy_str _)); [now left|].
      destruct (hyperliquidClient (ensure_client st)); [|now left].
      destruct (negb (truthy_str _)); [now left|].
      right. open_try.
      destruct (connect (exchange env)) as [[]|e0]; simpl.
      * destruct (is_string _ "limit"); [destruct (negb (truthy_num _))|]; simpl;
          try (eexists; split; [reflexivity | intros; discriminate]);
          match goal with |- context [placeOrder ?e ?r] => destruct (placeOrder e r) end;
          simpl; (eexists; split; [reflexivity | intros; discriminate]).
      * eexists. split; [reflexivity|]. intros e _. split; [reflexivity | eauto].
    + unfold cancel_order.
      destruct (negb (truthy_str _) || negb (truthy_str _)); [now left|].
      destruct (hyperliquidClient (ensure_client st)); [|now left].
      destruct (negb (truthy_str _)); [now left|].
      right. open_try.
      destruct (connect (exchange env)) as [[]|e0]; simpl.
      * destruct (cancelOrder _ _ _); simpl;
          (eexists; split; [reflexivity | intros; discriminate]).
      * eexists. split; [reflexivity|]. intros e _. split; [reflexivity | eauto].
    + unfold create_strategy.
      destruct (CreateStrategy.name args); [|now left].
      destruct (CreateStrategy.description args); [|now left].
      destruct (CreateStrategy.config args); [|now left].
      destruct (negb (truthy_str _) || negb (truthy_str _) || negb (truthy_json _));
        now left.
    + unfold activate_strategy.
      destruct (negb (truthy_str _)); [now left|].
      destruct (get _ _ _) as [s|[b|[|]]|]; try now left.
      destruct (b =? "__proto__"); now left.
    + now left.
Qed.

(** X14. An order is placed or cancelled only by a [place_order] or
    [cancel_order] request, and only while a private key is stored: every
    trading call of a request is the order of a [place_order] call or the
    cancellation, by symbol and parsed order id, of a [cancel_order] call. *)
Theorem trading_needs_a_key env st r c :
  In c (calls_of env st r) ->
  trading c = true ->
  truthy_str (privateKey (userCredentials st)) = true
  /\ match r with
     | CallTool (call_place_order args) => exists o, c = PlaceOrder o
     | CallTool (call_cancel_order args) =>
         c = CancelOrder (show (CancelOrderArgs.symbol args))
                         (parseInt10 (show (CancelOrderArgs.orderId args)))
     | _ => False
     end.
Proof.
  destruct r as [|u|t]; simpl; [intros [] | |].
  - unfold read_resource.
    destruct (u =? "hyperliquid://account").
    + unfold read_account.
      destruct (hyperliquidClient (ensure_client st)); [|intros []].
      open_try.
      destruct (connect (exchange env)) as [[]|e0]; simpl.
      * destruct (truthy_str _); simpl.
        -- destruct (getClearinghouseState _ _); simpl.
           ++ unfold spot_section.
              destruct (getSpotClearinghouseState _ _) as [spotState|]; simpl.
              ** destruct (has_balances spotState); simpl.
                 --- destruct (getSpotMetaAndAssetCtxs _) as [[meta ctxs]|]; simpl;
                       intros [<-|[<-|[<-|[<-|[]]]]]; discriminate.
                 --- intros [<-|[<-|[<-|[]]]]; discriminate.
              ** intros [<-|[<-|[<-|[]]]]; discriminate.
           ++ intros [<-|[<-|[]]]; discriminate.
        -- intros [<-|[]]; discriminate.
      * intros [<-|[]]; discriminate.
    + destruct (startsWith u "hyperliquid://strategy/"); [|intros []].
      unfold read_strategy. destruct (get _ _ _) as [s|[k|[|]]|]; intros [].
  - destruct t as [args|args|args|args|args|args|tool]; simpl.
    + unfold authenticate.
      destruct (negb (truthy_str _) && negb (truthy_str _)); [intros []|].
      destruct (truthy_str _ && negb (ethers_Wallet _)); [intros []|].
      simpl. destruct (initializeClient _); intros [].
    + unfold get_market_data.
      destruct (negb (truthy_str _)); [intros []|].
      destruct (hyperliquidClient (ensure_client st)); [|intros []].
      open_try.
      destruct (connect (exchange env)) as [[]|e0]; simpl.
      * destruct (getL2Book _ _); simpl; intros [<-|[<-|[]]]; discriminate.
      * intros [<-|[]]; discriminate.
    + unfold place_order.
      destruct (negb (truthy_str _) || negb (truthy_str _) || negb (Num.truthy _)
                || negb (truthy_str _)); [intros []|].
      destruct (hyperliquidClient (ensure_client st)); [|intros []].
      rewrite ensure_client_credentials.
      destruct (truthy_str (privateKey (userCredentials st))); [|intros []].
      cbn [negb]. open_try.
      destruct (connect (exchange env)) as [[]|e0]; simpl.
      * destruct (is_string _ "limit"); [destruct (negb (truthy_num _))|]; simpl;
          try (intros [<-|[]]; discriminate);
          match goal with |- context [placeOrder ?e ?r] => destruct (placeOrder e r) end;
          simpl; (intros [<-|[<-|[]]]; [discriminate|]); intros _; eauto.
      * intros [<-|[]]; discriminate.
    + unfold cancel_order.
      destruct (negb (truthy_str _) || negb (truthy_str _)); [intros []|].
      destruct (hyperliquidClient (ensure_client st)); [|intros []].
      rewrite ensure_client_credentials.
      destruct (truthy_str (privateKey (userCredentials st))); [|intros []].
      cbn [negb]. open_try.
      destruct (connect (exchange env)) as [[]|e0]; simpl.
      * destruct (cancelOrder _ _ _); simpl;
          (intros [<-|[<-|[]]]; [discriminate|]); intros _; auto.
      * intros [<-|[]]; discriminate.
    + unfold create_strategy.
      destruct (CreateStrategy.name args); [|intros []].
      destruct (CreateStrategy.description args); [|intros []].
      destruct (CreateStrategy.config args); [|intros []].
      destruct (negb (truthy_str _) || negb (truthy_str _) || negb (truthy_json _));
        intros [].
    + unfold activate_strategy.
      destruct (negb (truthy_str _)); [intros []|].
      destruct (get _ _ _) as [s|[b|[|]]|]; try (intros []).
      destruct (b =? "__proto__"); intros [].
    + intros [].
Qed.

Lemma no_credentials_no_client st :
  hyperliquidClient st = None ->
  truthy_str (privateKey (userCredentials st)) = false ->
  truthy_str (walletAddress (userCredentials st)) = false ->
  ensure_client st = st.
Proof.
  intros Hc Hk Hw. unfold ensure_client, initializeClient. rewrite Hc, Hk, Hw.
  destruct st. simpl in *. now subst.
Qed.

(** X15. While the session has neither a client nor a key nor an address,
    no request other than [authenticate] reaches the exchange or changes
    the session, and the four operations that need a client (the account
    read, [get_market_data] with a symbol, [place_order] and [cancel_order]
    with their required properties) end in [InvalidRequest]. *)
Theorem nothing_without_credentials env st r :
  hyperliquidClient st = None ->
  truthy_str (privateKey (userCredentials st)) = false ->
  truthy_str (walletAddress (userCredentials st)) = false ->
  is_authenticate r = false ->
  let refused :=
    error_of env st r
    = Some (McpError InvalidRequest "No credentials provided. Please authenticate first.") in
  calls_of env st r = []
  /\ hyperliquidClient (handle env st r) = None
  /\ userCredentials (handle env st r) = userCredentials st
  /\ match r with
     | ReadResource u => u = "hyperliquid://account" -> refused
     | CallTool (call_get_market_data args) =>
         truthy_str (GetMarketData.symbol args) = true -> refused
     | CallTool (call_place_order args) =>
         truthy_str (PlaceOrderArgs.symbol args) = true ->
         truthy_str (PlaceOrderArgs.side args) = true ->
         Num.truthy (Number (PlaceOrderArgs.size args)) = true ->
         truthy_str (PlaceOrderArgs.orderType args) = true -> refused
     | CallTool (call_cancel_order args) =>
         truthy_str (CancelOrderArgs.symbol args) = true ->
         truthy_str (CancelOrderArgs.orderId args) = true -> refused
     | _ => True
     end.
Proof.
  intros Hc Hk Hw Hr refused. subst refused.
  pose proof (no_credentials_no_client st Hc Hk Hw) as He.
  destruct r as [|u|t]; simpl.
  - now repeat split.
  - unfold read_resource.
    destruct (String.eqb_spec u "hyperliquid://account") as [->|Hu].
    + unfold read_account. rewrite He, Hc. simpl. now repeat split.
    + destruct (startsWith u "hyperliquid://strategy/").
      * unfold read_strategy.
        destruct (get _ _ _) as [s|[k|[|]]|]; simpl;
          (split; [reflexivity|]); (split; [assumption|]); (split; [reflexivity|]);
          intros E; contradiction.
      * simpl. split; [reflexivity|]. split; [assumption|]. split; [reflexivity|].
        intros E; contradiction.
  - destruct t as [args|args|args|args|args|args|tool]; simpl; try discriminate.
    + unfold get_market_data.
      destruct (truthy_str (GetMarketData.symbol args)); cbn [negb];
        [rewrite He, Hc|]; simpl; repeat split; try assumption; discriminate.
    + unfold place_order.
      destruct (truthy_str (PlaceOrderArgs.symbol args));
        destruct (truthy_str (PlaceOrderArgs.side args));
        destruct (Num.truthy (Number (PlaceOrderArgs.size args)));
        destruct (truthy_str (PlaceOrderArgs.orderType args)); cbn [negb orb];
        try (rewrite He, Hc); simpl; repeat split; try assumption; discriminate.
    + unfold cancel_order.
      destruct (truthy_str (CancelOrderArgs.symbol args));
        destruct (truthy_str (CancelOrderArgs.orderId args)); cbn [negb orb];
        try (rewrite He, Hc); simpl; repeat split; try assumption; discriminate.
    + unfold create_strategy.
      destruct (CreateStrategy.name args); [|now repeat split].
      destruct (CreateStrategy.description args); [|now repeat split].
      destruct (CreateStrategy.config args); [|now repeat split].
      destruct (negb (truthy_str _) || negb (truthy_str _) || negb (truthy_json _));
        now repeat split.
    + unfold activate_strategy.
      destruct (negb (truthy_str _)); [now repeat split|].
      destruct (get _ _ _) as [s|[b|[|]]|]; try now repeat split.
      destruct (b =? "__proto__"); now repeat split.
    + now repeat split.
Qed.

(** ** The account read *)

(** X16. With a client at hand but no wallet address stored (a session
    authenticated by private key alone), the account read connects,
    fetches nothing, and returns the empty object. *)
Theorem account_without_address env st client :
  hyperliquidClient (ensure_client st) = Some client ->
  connect (exchange env) = Returned tt ->
  truthy_str (walletAddress (userCredentials st)) = false ->
  completion (read_resource env st "hyperliquid://account")
  = Returned (read_result "hyperliquid://account" (JSON_stringify_account EmptyAccount))
  /\ calls (read_resource env st "hyperliquid://account") = [Connect].
Proof.
  intros Hclient Hconnect Hwallet.
  unfold read_resource. simpl String.eqb. cbv iota.
  unfold read_account. rewrite Hclient.
  open_try. rewrite Hconnect, ensure_client_credentials, Hwallet.
  split; reflexivity.
Qed.

(** X17. When the spot fetch answers with no state, no balances or an
    empty list of balances, the market contexts are not fetched and the
    answer is passed on as it is. *)
Theorem account_without_balances env st client perpState spotState :
  hyperliquidClient (ensure_client st) = Some client ->
  connect (exchange env) = Returned tt ->
  truthy_str (walletAddress (userCredentials st)) = true ->
  getClearinghouseState (exchange env) (show (walletAddress (userCredentials st)))
  = Returned perpState ->
  getSpotClearinghouseState (exchange env) (show (walletAddress (userCredentials st)))
  = Returned spotState ->
  spotState = None \/ spotState = Some {| balances := None |}
  \/ spotState = Some {| balances := Some [] |} ->
  completion (read_resource env st "hyperliquid://account")
  = Returned (read_result "hyperliquid://account"
                (JSON_stringify_account (Account perpState spotState (network st))))
  /\ calls (read_resource env st "hyperliquid://account")
     = [Connect;
        GetClearinghouseState (show (walletAddress (userCredentials st)));
        GetSpotClearinghouseState (show (walletAddress (userCredentials st)))].
Proof.
  intros Hclient Hconnect Hwallet Hperp Hspot Hempty.
  unfold read_resource. simpl String.eqb. cbv iota.
  unfold read_account. rewrite Hclient.
  open_try. rewrite Hconnect, ensure_client_credentials, Hwallet, Hperp.
  unfold spot_section. rewrite Hspot.
  destruct Hempty as [-> | [-> | ->]]; split; reflexivity.
Qed.

(** *** The price map *)

Lemma fold_priceMap ctxs k : forall acc,
  k <> "__proto__" ->
  own_get
    (fold_left
       (fun priceMap assetCtx =>
          set_number priceMap (ctx_coin assetCtx) (parseFloat (markPx assetCtx)))
       ctxs acc) k
  = match last_markPx ctxs k with
    | Some px => Some (parseFloat px)
    | None => own_get acc k
    end.
Proof.
  induction ctxs as [|c ctxs IH]; intros acc Hk; [reflexivity|].
  simpl. rewrite (IH _ Hk).
  destruct (last_markPx ctxs k); [reflexivity|].
  unfold set_number.
  destruct (String.eqb_spec (ctx_coin c) k) as [->|Hne].
  - apply String.eqb_neq in Hk. rewrite Hk. apply own_get_own_set_same.
  - destruct (ctx_coin c =? "__proto__"); [reflexivity|].
    now apply own_get_own_set_other.
Qed.

Lemma fold_priceMap_proto ctxs : forall acc,
  own_get
    (fold_left
       (fun priceMap assetCtx =>
          set_number priceMap (ctx_coin assetCtx) (parseFloat (markPx assetCtx)))
       ctxs acc) "__proto__"
  = own_get acc "__proto__".
Proof.
  induction ctxs as [|c ctxs IH]; intros acc; [reflexivity|].
  simpl. rewrite IH. unfold set_number.
  destruct (String.eqb_spec (ctx_coin c) "__proto__") as [E|Hne]; [reflexivity|].
  now apply own_get_own_set_other.
Qed.

(** X18. The price map holds, for every coin, the parsed mark price of the
    last market context that names the coin, and nothing for a coin no
    context names; a context for the coin [__proto__] leaves no entry. *)
Theorem priceMap_last_context_wins ctxs k :
  (k <> "__proto__" ->
   own_get (build_priceMap ctxs) k = option_map parseFloat (last_markPx ctxs k))
  /\ own_get (build_priceMap ctxs) "__proto__" = None.
Proof.
  unfold build_priceMap. split.
  - intros Hk. rewrite (fold_priceMap ctxs k [] Hk).
    now destruct (last_markPx ctxs k).
  - apply fold_priceMap_proto.
Qed.

(** X19. After the stable-coin check the map has a usable (non-zero,
    non-[NaN]) price for [USDC-SPOT], the price of every other coin is what
    it was, and a second check changes nothing. *)
Theorem ensure_USDC_usable pa pm :
  (exists p, own_get (ensure_USDC pa pm) "USDC-SPOT" = Some p /\ Num.truthy p = true)
  /\ (forall k, k <> "USDC-SPOT" -> own_get (ensure_USDC pa pm) k = own_get pm k)
  /\ ensure_USDC pa (ensure_USDC pa pm) = ensure_USDC pa pm.
Proof.
  assert (Hget : forall m : list (string * number), get pa m "USDC-SPOT"
                           = match own_get m "USDC-SPOT" with
                             | Some p => Own p
                             | None => Absent
                             end).
  { intros m. unfold get. now destruct (own_get m "USDC-SPOT"). }
  assert (Hset : forall m, own_get (set_number m "USDC-SPOT" (Num.of_Z 1)) "USDC-SPOT"
                           = Some (Num.of_Z 1)).
  { intros m. unfold set_number. simpl. apply own_get_own_set_same. }
  assert (Hfirst : exists p, own_get (ensure_USDC pa pm) "USDC-SPOT" = Some p
                             /\ Num.truthy p = true).
  { unfold ensure_USDC. rewrite Hget.
    destruct (own_get pm "USDC-SPOT") as [p|] eqn:E; simpl.
    - destruct (Num.truthy p) eqn:Hp; simpl.
      + destruct (Num.strict_eq p Num.zero); [|now exists p].
        exists (Num.of_Z 1). now rewrite Hset.
      + exists (Num.of_Z 1). now rewrite Hset.
    - exists (Num.of_Z 1). now rewrite Hset. }
  split; [exact Hfirst|]. split.
  - intros k Hk. unfold ensure_USDC.
    destruct (slot_falsy _ || slot_is_zero _); [|reflexivity].
    unfold set_number. simpl. apply own_get_own_set_other. congruence.
  - destruct Hfirst as [p [Hp Ht]].
    unfold ensure_USDC at 1. rewrite Hget, Hp. simpl. rewrite Ht. simpl.
    destruct (Num.strict_eq p Num.zero) eqn:Hz; [|reflexivity].
    exfalso. destruct p as [s|s| |s m e]; try discriminate;
      destruct s; vm_compute in Hz; discriminate.
Qed.

(** X20. A coin whose entry in the price map is zero or [NaN] (a mark
    price that does not parse) is priced like a coin without entry: the
    balance gets the price zero and the quantity times zero as value, and
    keeps its coin, total and other fields. *)
Theorem unusable_price_is_zero pa pm b p :
  own_get pm (balance_coin b) = Some p ->
  Num.truthy p = false ->
  enrich pa pm b
  = {| balance_coin := balance_coin b;
       balance_total := balance_total b;
       balance_others := balance_others b;
       price := Some (NumberToString Num.zero);
       usdValue := Some (NumberToString
                           (Num.mul (parseFloat (balance_total b)) Num.zero)) |}.
Proof.
  intros Hown Hp. unfold enrich. rewrite (get_own pa pm _ p Hown).
  cbn [or_zero]. now rewrite Hp.
Qed.

(** ** The dashboard's API endpoint *)

Lemma dashboard_perpetuals_section w addr :
  Dashboard.perpetuals_section w addr
  = ([GetClearinghouseState addr],
     match getClearinghouseState (Dashboard.sdk w) addr with
     | Returned perpState => Dashboard.Fetched perpState
     | Threw _ => Dashboard.SectionError "Failed to fetch perpetuals data"
     end).
Proof.
  unfold Dashboard.perpetuals_section.
  now destruct (getClearinghouseState (Dashboard.sdk w) addr).
Qed.

Lemma dashboard_spot_section w addr :
  fst (Dashboard.spot_section w addr)
  = GetSpotClearinghouseState addr
      :: match getSpotClearinghouseState (Dashboard.sdk w) addr with
         | Returned _ => [GetSpotMetaAndAssetCtxs]
         | Threw _ => []
         end
  /\ (snd (Dashboard.spot_section w addr)
      = Dashboard.SectionError "Failed to fetch spot data"
      <-> (exists e, getSpotClearinghouseState (Dashboard.sdk w) addr = Threw e)
          \/ (exists e, getSpotMetaAndAssetCtxs (Dashboard.sdk w) = Threw e)).
Proof.
  unfold Dashboard.spot_section.
  destruct (getSpotClearinghouseState (Dashboard.sdk w) addr) as [spotState|e2].
  - destruct (getSpotMetaAndAssetCtxs (Dashboard.sdk w)) as [[meta ctxs]|e3]; simpl.
    + split; [reflexivity|]. split; [discriminate|].
      intros [[e H]|[e H]]; discriminate.
    + split; [reflexivity|]. split; [eauto | reflexivity].
  - simpl. split; [reflexivity|]. split; [eauto | reflexivity].
Qed.

(** X21. In the endpoint's account info the two sections fail apart:
    with a client whose address resolves, the answer is always a success
    with status 200; both the perpetual and the spot state are requested
    whatever the other fetch did, and [connect] is not called; the
    perpetual section is the fetched state or, if that fetch failed, an
    error marker; the spot section is an error marker exactly when the
    spot-state fetch or the market-context fetch failed. *)
Theorem dashboard_sections_fail_apart w c addr :
  Dashboard.resolve_address (Dashboard.client_internals c) = Returned (Some addr) ->
  addr <> "" ->
  let r := Dashboard.handleGetAccountInfo w (Some c) in
  exists view,
    Dashboard.response r = Dashboard.ok (Dashboard.AccountData view)
    /\ Dashboard.client_after r = Some c
    /\ Dashboard.view_walletAddress view = addr
    /\ Dashboard.view_perpetuals view
       = match getClearinghouseState (Dashboard.sdk w) addr with
         | Returned perpState => Dashboard.Fetched perpState
         | Threw _ => Dashboard.SectionError "Failed to fetch perpetuals data"
         end
    /\ (Dashboard.view_spot view = Dashboard.SectionError "Failed to fetch spot data"
        <-> (exists e, getSpotClearinghouseState (Dashboard.sdk w) addr = Threw e)
            \/ (exists e, getSpotMetaAndAssetCtxs (Dashboard.sdk w) = Threw e))
    /\ In (GetClearinghouseState addr) (Dashboard.sdk_calls r)
    /\ In (GetSpotClearinghouseState addr) (Dashboard.sdk_calls r)
    /\ ~ In Connect (Dashboard.sdk_calls r).
Proof.
  intros Haddr Hne r. subst r. unfold Dashboard.handleGetAccountInfo.
  rewrite Haddr. apply String.eqb_neq in Hne.
  cbn [truthy_str show]. rewrite Hne. cbn [negb].
  rewrite dashboard_perpetuals_section.
  destruct (dashboard_spot_section w addr) as [Hcalls Hiff].
  destruct (Dashboard.spot_section w addr) as [t2 spot].
  cbn [fst snd] in Hcalls, Hiff. subst t2.
  eexists. split; [reflexivity|].
  cbn [Dashboard.client_after Dashboard.sdk_calls Dashboard.view_walletAddress
       Dashboard.view_perpetuals Dashboard.view_spot].
  split; [reflexivity|]. split; [reflexivity|]. split; [reflexivity|].
  split; [exact Hiff|]. split; [now left|]. split; [now right; left|].
  destruct (getSpotClearinghouseState (Dashboard.sdk w) addr);
    simpl; intuition discriminate.
Qed.


(** X23. An [authenticate] request with a key or an address: when the
    constructor throws, the answer is 500 and the stored client stays; when
    it returns, the new client replaces the stored one before [connect] is
    awaited, so it stays stored even when [connect] fails and the answer is
    500, and a later [getAccountInfo] is then not refused as
    unauthenticated. *)
Theorem dashboard_authenticate_outcomes w w' client params_ :
  truthy_str (Authenticate.privateKey params_)
  || truthy_str (Authenticate.walletAddress params_) = true ->
  let r := Dashboard.handler w client (Dashboard.post "authenticate" params_) in
  match Dashboard.new_client w (options (requested params_)) with
  | Threw e =>
      Dashboard.response r
      = Dashboard.failure 500 (Dashboard.message_or e "Authentication failed")
      /\ Dashboard.client_after r = client
      /\ Dashboard.sdk_calls r = []
  | Returned internals =>
      Dashboard.client_after r
      = Some {| Dashboard.client_options := options (requested params_);
                Dashboard.client_internals := internals |}
      /\ Dashboard.sdk_calls r = [Connect]
      /\ match connect (Dashboard.sdk w) with
         | Returned _ =>
             Dashboard.response r
             = Dashboard.ok
                 (Dashboard.Message
                    ("Successfully authenticated with Hyperliquid "
                     ++ (if testnet (requested params_) then "testnet" else "mainnet")))
         | Threw e =>
             Dashboard.response r
             = Dashboard.failure 500 (Dashboard.message_or e "Authentication failed")
         end
      /\ Dashboard.status
           (Dashboard.response (Dashboard.handleGetAccountInfo w' (Dashboard.client_after r)))
         <> 401
  end.
Proof.
  intros Hany r. subst r. unfold Dashboard.handler, Dashboard.post.
  cbn [Dashboard.method Dashboard.action Dashboard.params is_string].
  simpl String.eqb. cbn [negb].
  unfold Dashboard.handleAuthenticate, Dashboard.authenticate_with.
  apply orb_true_iff in Hany.
  assert (H1 : negb (truthy_str (Authenticate.privateKey params_))
               && negb (truthy_str (Authenticate.walletAddress params_)) = false).
  { destruct Hany as [-> | ->]; simpl; [reflexivity | apply andb_false_r]. }
  rewrite H1. fold (requested params_).
  change {| client_privateKey := Authenticate.privateKey params_;
            client_testnet := match Authenticate.testnet params_ with
                              | Some b => b
                              | None => true
                              end;
            client_walletAddress := Authenticate.walletAddress params_;
            client_vaultAddress := Authenticate.vaultAddress params_;
            enableWs := true |}
    with (options (requested params_)).
  destruct (Dashboard.new_client w (options (requested params_))) as [internals|e];
    [|now repeat split].
  assert (Hnot : forall cl,
             Dashboard.status
               (Dashboard.response (Dashboard.handleGetAccountInfo w' (Some cl))) <> 401).
  { intros cl. unfold Dashboard.handleGetAccountInfo.
    destruct (Dashboard.resolve_address _) as [a|e]; [|discriminate].
    destruct (negb (truthy_str a)); [discriminate|].
    destruct (Dashboard.perpetuals_section _ _), (Dashboard.spot_section _ _).
    discriminate. }
  destruct (connect (Dashboard.sdk w));
    (split; [reflexivity|]); (split; [reflexivity|]); (split; [reflexivity|]);
    exact (Hnot {| Dashboard.client_options := options (requested params_);
                   Dashboard.client_internals := internals |}).
Qed.


(** X25. The address the endpoint fetches for is the [walletAddress] the
    client holds, if it is non-empty, and otherwise the address of the
    client's wallet; with neither, the answer is 400 and nothing is
    fetched, and when the wallet fails to give its address the answer is
    500 and nothing is fetched. *)
Theorem dashboard_address_resolution w c :
  let i := Dashboard.client_internals c in
  let r := Dashboard.handleGetAccountInfo w (Some c) in
  let fetched_for (a : string) :=
    exists view,
      Dashboard.response r = Dashboard.ok (Dashboard.AccountData view)
      /\ Dashboard.view_walletAddress view = a
      /\ In (GetClearinghouseState a) (Dashboard.sdk_calls r) in
  (forall a, Dashboard.client_walletAddress_field i = Some a -> a <> "" -> fetched_for a)
  /\ (truthy_str (Dashboard.client_walletAddress_field i) = false ->
      match Dashboard.client_wallet i with
      | Some (Returned a) =>
          if a =? ""
          then Dashboard.response r = Dashboard.failure 400 "No wallet address available"
               /\ Dashboard.sdk_calls r = []
          else fetched_for a
      | Some (Threw e) =>
          Dashboard.response r
          = Dashboard.failure 500
              (Dashboard.message_or e "Failed to fetch account information")
          /\ Dashboard.sdk_calls r = []
      | None =>
          Dashboard.response r = Dashboard.failure 400 "No wallet address available"
          /\ Dashboard.sdk_calls r = []
      end).
Proof.
  intros i r fetched_for. subst i r fetched_for.
  assert (Hfetch : forall a,
             Dashboard.resolve_address (Dashboard.client_internals c) = Returned (Some a) ->
             a <> "" ->
             exists view,
               Dashboard.response (Dashboard.handleGetAccountInfo w (Some c))
               = Dashboard.ok (Dashboard.AccountData view)
               /\ Dashboard.view_walletAddress view = a
               /\ In (GetClearinghouseState a)
                     (Dashboard.sdk_calls (Dashboard.handleGetAccountInfo w (Some c)))).
  { intros a Ha Hne.
    unfold Dashboard.handleGetAccountInfo. rewrite Ha.
    apply String.eqb_neq in Hne. cbn [truthy_str show]. rewrite Hne. cbn [negb].
    rewrite dashboard_perpetuals_section.
    destruct (Dashboard.spot_section w a) as [t2 spot].
    eexists. split; [reflexivity|]. split; [reflexivity | now left]. }
  split.
  - intros a Ha Hne. apply Hfetch; [|exact Hne].
    unfold Dashboard.resolve_address. rewrite Ha.
    apply String.eqb_neq in Hne. simpl. now rewrite Hne.
  - intros Hfield.
    destruct (Dashboard.client_wallet (Dashboard.client_internals c))
      as [[a|e]|] eqn:Hw.
    + destruct (String.eqb_spec a "") as [->|Hne].
      * unfold Dashboard.handleGetAccountInfo, Dashboard.resolve_address.
        rewrite Hfield, Hw. now split.
      * apply Hfetch; [|exact Hne].
        unfold Dashboard.resolve_address. now rewrite Hfield, Hw.
    + unfold Dashboard.handleGetAccountInfo, Dashboard.resolve_address.
      rewrite Hfield, Hw. now split.
    + unfold Dashboard.handleGetAccountInfo, Dashboard.resolve_address.
      rewrite Hfield, Hw. now split.
Qed.

End Server.

(** * The further properties at concrete requests *)

Lemma missing_required_property_witness :
  let r := call_tool_request (host := SampleHost.host) (Scenario.env_of SampleHost.up)
                             SampleHost.authenticated "place_order" Scenario.sizeless in
  In Scenario.place_order_tool list_tools
  /\ In "size" (required Scenario.place_order_tool)
  /\ (tool_name Scenario.place_order_tool, "size") <> ("activate_strategy", "active")
  /\ has Scenario.sizeless "size" = false
  /\ error_code (completion r) = Some InvalidParams
  /\ final r = SampleHost.authenticated
  /\ calls r = [].
Proof.
  cbv zeta.
  assert (H1 : In Scenario.place_order_tool list_tools)
    by (right; right; left; reflexivity).
  assert (H2 : In "size" (required Scenario.place_order_tool))
    by (right; right; left; reflexivity).
  assert (H3 : (tool_name Scenario.place_order_tool, "size")
               <> ("activate_strategy", "active")) by discriminate.
  split; [exact H1|]. split; [exact H2|]. split; [exact H3|]. split; [reflexivity|].
  exact (@missing_required_property SampleHost.host (Scenario.env_of SampleHost.up)
           SampleHost.authenticated Scenario.place_order_tool "size" Scenario.sizeless
           H1 H2 H3 eq_refl).
Defined.

Lemma authenticate_replaces_session_witness :
  let args := Scenario.sign_in (Some SampleHost.key) None (Some false) in
  let r := authenticate (host := SampleHost.host) SampleHost.authenticated args in
  truthy_str (Authenticate.privateKey args) || truthy_str (Authenticate.walletAddress args)
  = true
  /\ ethers_Wallet (JsHost := SampleHost.host) (formattedPrivateKey SampleHost.key) = true
  /\ new_Hyperliquid (JsHost := SampleHost.host) (options (requested args)) = true
  /\ completion r
     = Returned (text_result (Text "Successfully authenticated with Hyperliquid mainnet"))
  /\ userCredentials (final r)
     = {| privateKey := Some SampleHost.key; walletAddress := None;
          testnet := false; vaultAddress := None |}
  /\ calls r = [].
Proof.
  cbv zeta. do 3 (split; [reflexivity|]).
  destruct (@authenticate_replaces_session SampleHost.host SampleHost.authenticated
              (Scenario.sign_in (Some SampleHost.key) None (Some false)) eq_refl)
    as [H1 [H2 H3]]; [| reflexivity | ].
  - intros key Hk _. injection Hk as <-. reflexivity.
  - split; [exact H1|]. split; [now rewrite H2 | exact H3].
Defined.

Lemma authenticate_rejects_malformed_key_witness :
  let args := Scenario.sign_in (Some "not a key") (Some SampleHost.address) None in
  let r := authenticate (host := SampleHost.host) SampleHost.authenticated args in
  Authenticate.privateKey args = Some "not a key"
  /\ "not a key" <> ""
  /\ ethers_Wallet (JsHost := SampleHost.host) (formattedPrivateKey "not a key") = false
  /\ completion r = Threw (McpError InvalidParams "Invalid private key format")
  /\ final r = SampleHost.authenticated.
Proof.
  cbv zeta. split; [reflexivity|]. split; [discriminate|]. split; [reflexivity|].
  assert (Hne : "not a key" <> "") by discriminate.
  destruct (@authenticate_rejects_malformed_key SampleHost.host SampleHost.authenticated
              (Scenario.sign_in (Some "not a key") (Some SampleHost.address) None)
              "not a key" eq_refl Hne eq_refl)
    as [H1 [H2 _]].
  split; [exact H1 | exact H2].
Defined.

Lemma authenticate_failed_construction_witness :
  let args := Scenario.sign_in None (Some SampleHost.address) (Some false) in
  let r := authenticate (host := Scenario.testnet_only) SampleHost.authenticated args in
  truthy_str (Authenticate.privateKey args) || truthy_str (Authenticate.walletAddress args)
  = true
  /\ new_Hyperliquid (JsHost := Scenario.testnet_only) (options (requested args)) = false
  /\ completion r = Threw (McpError InternalError "Failed to initialize Hyperliquid client")
  /\ privateKey (userCredentials (final r)) = None
  /\ hyperliquidClient (final r) = None.
Proof.
  cbv zeta. do 2 (split; [reflexivity|]).
  destruct (@authenticate_failed_construction Scenario.testnet_only
              SampleHost.authenticated
              (Scenario.sign_in None (Some SampleHost.address) (Some false)) eq_refl)
    as [H1 [H2 [H3 _]]]; [| reflexivity | ].
  - intros key Hk. discriminate.
  - split; [exact H1|]. split; [now rewrite H2 | exact H3].
Defined.

Lemma session_kept_without_authenticate_witness :
  forallb (fun er => negb (is_authenticate (snd er))) Scenario.busy = true
  /\ hyperliquidClient SampleHost.authenticated
     = Some (options (userCredentials SampleHost.authenticated))
  /\ userCredentials (serve (host := SampleHost.host) SampleHost.authenticated Scenario.busy)
     = userCredentials SampleHost.authenticated
  /\ hyperliquidClient (serve (host := SampleHost.host) SampleHost.authenticated
                              Scenario.busy)
     = Some (options (userCredentials SampleHost.authenticated)).
Proof.
  do 2 (split; [reflexivity|]).
  exact (@session_kept_without_authenticate SampleHost.host Scenario.busy
           SampleHost.authenticated _ eq_refl eq_refl).
Defined.

Lemma strategy_never_removed_witness :
  let k := "strategy-1700000000000-301" in
  own_get (strategies Scenario.one_strategy) k = Some (Scenario.momentum_record false)
  /\ forallb (fun er => negb (regenerates (host := SampleHost.host) k er))
             (tl Scenario.busy) = true
  /\ exists s',
      own_get (strategies (serve (host := SampleHost.host) Scenario.one_strategy
                                 (tl Scenario.busy))) k = Some s'
      /\ same_definition (Scenario.momentum_record false) s'.
Proof.
  cbv zeta. do 2 (split; [reflexivity|]).
  destruct (@strategy_never_removed SampleHost.host (tl Scenario.busy)
              Scenario.one_strategy "strategy-1700000000000-301"
              (Scenario.momentum_record false) eq_refl)
    as [s' [H1 H2]].
  exists s'. split; [exact H1 | exact (H2 eq_refl)].
Defined.

Lemma one_strategy_well_formed : well_formed Scenario.one_strategy.
Proof.
  split; simpl.
  - constructor; [intros [] | constructor].
  - constructor; [split; reflexivity | constructor].
Defined.

Lemma listed_strategies_are_readable_witness :
  let u := "hyperliquid://strategy/strategy-1700000000000-301" in
  let res := {| uri := u; mimeType := "application/json";
                resource_name := "momentum";
                resource_description := "Trading strategy: buys strength" |} in
  well_formed Scenario.one_strategy
  /\ In res (list_resources Scenario.one_strategy)
  /\ (uri res =? "hyperliquid://account") = false
  /\ exists s,
      resource_name res = name s
      /\ completion (read_resource (host := SampleHost.host) (Scenario.env_of SampleHost.up)
                                   Scenario.one_strategy u)
         = Returned (read_result u (JSON_stringify_strategy s)).
Proof.
  cbv zeta. split; [exact one_strategy_well_formed|].
  assert (Hin : In {| uri := "hyperliquid://strategy/strategy-1700000000000-301";
                      mimeType := "application/json";
                      resource_name := "momentum";
                      resource_description := "Trading strategy: buys strength" |}
                   (list_resources Scenario.one_strategy))
    by (left; reflexivity).
  split; [exact Hin|]. split; [reflexivity|].
  destruct (@listed_strategies_are_readable SampleHost.host
              (Scenario.env_of SampleHost.up) Scenario.one_strategy
              one_strategy_well_formed) as [Hread _].
  destruct (Hread _ Hin eq_refl) as [s [_ [_ [Hname [_ [Hc _]]]]]].
  exists s. split; [exact Hname | exact Hc].
Defined.

Lemma activate_sets_flag_witness :
  let k := "strategy-1700000000000-301" in
  let polluted :=
    final (activate_strategy Scenario.one_strategy (SampleHost.activate "__proto__")) in
  let bare := {| ActivateStrategy.strategyId := Some k;
                 ActivateStrategy.active := None |} in
  let st' := final (activate_strategy polluted bare) in
  ActivateStrategy.strategyId bare = Some k
  /\ k <> ""
  /\ own_get (strategies polluted) k = Some (Scenario.momentum_record false)
  /\ ActivateStrategy.active bare = None
  /\ Object_prototype_active polluted = Some true
  /\ own_get (strategies st') k = Some (Scenario.momentum_record true)
  /\ list_resources st' = list_resources polluted.
Proof.
  cbv zeta. split; [reflexivity|]. split; [discriminate|]. do 3 (split; [reflexivity|]).
  assert (Hne : "strategy-1700000000000-301" <> "") by discriminate.
  destruct (@activate_sets_flag SampleHost.host (Scenario.env_of SampleHost.up)
              (final (activate_strategy Scenario.one_strategy
                                        (SampleHost.activate "__proto__")))
              {| ActivateStrategy.strategyId := Some "strategy-1700000000000-301";
                 ActivateStrategy.active := None |}
              "strategy-1700000000000-301" (Scenario.momentum_record false) true
              eq_refl Hne eq_refl (or_intror (or_intror (conj eq_refl eq_refl))))
    as [_ [H1 [_ [_ [H2 _]]]]].
  split; [exact H1 | exact H2].
Defined.

Lemma activate_last_wins_witness :
  let k := "strategy-1700000000000-301" in
  let on := {| ActivateStrategy.strategyId := Some k; ActivateStrategy.active := Some true |} in
  let off := {| ActivateStrategy.strategyId := Some k;
                ActivateStrategy.active := Some false |} in
  k <> ""
  /\ own_get (strategies Scenario.one_strategy) k = Some (Scenario.momentum_record false)
  /\ final (activate_strategy (final (activate_strategy Scenario.one_strategy on)) off)
     = final (activate_strategy Scenario.one_strategy off).
Proof.
  cbv zeta. split; [discriminate|]. split; [reflexivity|].
  assert (Hne : "strategy-1700000000000-301" <> "") by discriminate.
  exact (activate_last_wins Scenario.one_strategy "strategy-1700000000000-301"
           (Scenario.momentum_record false) true false Hne eq_refl).
Defined.

Lemma submitted_order_is_the_call_witness :
  let o := {| coin := "BTC-PERP"; is_buy := true; sz := Num.of_Z 2; reduce_only := true;
              limit_px := Some (Num.of_Z 100); order_type := Limit_Gtc |} in
  let r := place_order (host := SampleHost.host) (Scenario.env_of SampleHost.up)
                       SampleHost.authenticated (Scenario.limit_order 100) in
  In o (submitted (calls r))
  /\ submitted (calls r) = [o]
  /\ truthy_str (privateKey (userCredentials SampleHost.authenticated)) = true.
Proof.
  cbv zeta.
  assert (Hin : In {| coin := "BTC-PERP"; is_buy := true; sz := Num.of_Z 2;
                      reduce_only := true; limit_px := Some (Num.of_Z 100);
                      order_type := Limit_Gtc |}
                   (submitted
                      (calls (place_order (host := SampleHost.host)
                                (Scenario.env_of SampleHost.up)
                                SampleHost.authenticated (Scenario.limit_order 100)))))
    by (left; reflexivity).
  split; [exact Hin|].
  destruct (@submitted_order_is_the_call SampleHost.host (Scenario.env_of SampleHost.up)
              SampleHost.authenticated (Scenario.limit_order 100) _ Hin)
    as [H1 [_ [_ [_ [_ [_ [_ [_ H2]]]]]]]].
  split; [exact H1 | exact H2].
Defined.

Lemma connect_comes_first_witness :
  let env := Scenario.env_of Scenario.unreachable in
  let r := CallTool (call_place_order (Scenario.limit_order 100)) in
  connect (exchange env) = Threw (OtherError "connection refused")
  /\ calls_of (host := SampleHost.host) env SampleHost.authenticated r = [Connect]
  /\ exists m, error_of (host := SampleHost.host) env SampleHost.authenticated r
               = Some (McpError InternalError m).
Proof.
  cbv zeta. split; [reflexivity|].
  destruct (@connect_comes_first SampleHost.host (Scenario.env_of Scenario.unreachable)
              SampleHost.authenticated
              (CallTool (call_place_order (Scenario.limit_order 100))))
    as [H | [rest [H Hfail]]]; [discriminate H|].
  destruct (Hfail _ eq_refl) as [Hrest Herr]. subst rest.
  split; [exact H | exact Herr].
Defined.

Lemma trading_needs_a_key_witness :
  let o := {| coin := "BTC-PERP"; is_buy := true; sz := Num.of_Z 2; reduce_only := true;
              limit_px := Some (Num.of_Z 100); order_type := Limit_Gtc |} in
  let r := CallTool (call_place_order (Scenario.limit_order 100)) in
  In (PlaceOrder o)
     (calls_of (host := SampleHost.host) (Scenario.env_of SampleHost.up)
               SampleHost.authenticated r)
  /\ trading (PlaceOrder o) = true
  /\ truthy_str (privateKey (userCredentials SampleHost.authenticated)) = true.
Proof.
  cbv zeta.
  assert (Hin : In (PlaceOrder
                      {| coin := "BTC-PERP"; is_buy := true; sz := Num.of_Z 2;
                         reduce_only := true; limit_px := Some (Num.of_Z 100);
                         order_type := Limit_Gtc |})
                   (calls_of (host := SampleHost.host) (Scenario.env_of SampleHost.up)
                             SampleHost.authenticated
                             (CallTool (call_place_order (Scenario.limit_order 100)))))
    by (right; left; reflexivity).
  split; [exact Hin|]. split; [reflexivity|].
  exact (proj1 (@trading_needs_a_key SampleHost.host (Scenario.env_of SampleHost.up)
                  SampleHost.authenticated _ _ Hin eq_refl)).
Defined.

Lemma nothing_without_credentials_witness :
  let env := Scenario.env_of SampleHost.up in
  let r := ReadResource "hyperliquid://account" in
  hyperliquidClient Scenario.one_strategy = None
  /\ truthy_str (privateKey (userCredentials Scenario.one_strategy)) = false
  /\ truthy_str (walletAddress (userCredentials Scenario.one_strategy)) = false
  /\ is_authenticate r = false
  /\ calls_of (host := SampleHost.host) env Scenario.one_strategy r = []
  /\ error_of (host := SampleHost.host) env Scenario.one_strategy r
     = Some (McpError InvalidRequest "No credentials provided. Please authenticate first.").
Proof.
  cbv zeta. do 4 (split; [reflexivity|]).
  destruct (@nothing_without_credentials SampleHost.host (Scenario.env_of SampleHost.up)
              Scenario.one_strategy (ReadResource "hyperliquid://account")
              eq_refl eq_refl eq_refl eq_refl)
    as [H1 [_ [_ H2]]].
  split; [exact H1 | exact (H2 eq_refl)].
Defined.

Lemma account_without_address_witness :
  let env := Scenario.env_of SampleHost.up in
  let r := read_resource (host := SampleHost.host) env Scenario.key_only
                         "hyperliquid://account" in
  hyperliquidClient (ensure_client (host := SampleHost.host) Scenario.key_only)
  = hyperliquidClient Scenario.key_only
  /\ connect (exchange env) = Returned tt
  /\ truthy_str (walletAddress (userCredentials Scenario.key_only)) = false
  /\ completion r
     = Returned (read_result "hyperliquid://account" (JSON_stringify_account EmptyAccount))
  /\ calls r = [Connect].
Proof.
  cbv zeta. do 3 (split; [reflexivity|]).
  exact (@account_without_address SampleHost.host (Scenario.env_of SampleHost.up)
           Scenario.key_only _ eq_refl eq_refl eq_refl).
Defined.

Lemma account_without_balances_witness :
  let env := Scenario.env_of SampleHost.up in
  let r := read_resource (host := SampleHost.host) env SampleHost.authenticated
                         "hyperliquid://account" in
  hyperliquidClient (ensure_client (host := SampleHost.host) SampleHost.authenticated)
  = hyperliquidClient SampleHost.authenticated
  /\ connect (exchange env) = Returned tt
  /\ truthy_str (walletAddress (userCredentials SampleHost.authenticated)) = true
  /\ getClearinghouseState (exchange env) SampleHost.address = Returned (JObject [])
  /\ getSpotClearinghouseState (exchange env) SampleHost.address
     = Returned (Some {| balances := Some [] |})
  /\ completion r
     = Returned (read_result "hyperliquid://account"
                   (JSON_stringify_account
                      (Account (JObject []) (Some {| balances := Some [] |}) "testnet")))
  /\ calls r = [Connect; GetClearinghouseState SampleHost.address;
                GetSpotClearinghouseState SampleHost.address].
Proof.
  cbv zeta. do 5 (split; [reflexivity|]).
  exact (@account_without_balances SampleHost.host (Scenario.env_of SampleHost.up)
           SampleHost.authenticated _ _ _ eq_refl eq_refl eq_refl eq_refl eq_refl
           (or_intror (or_intror eq_refl))).
Defined.

Lemma priceMap_last_context_wins_witness :
  let ctxs := [ {| ctx_coin := "PURR-SPOT"; markPx := "2.5" |};
                {| ctx_coin := "__proto__"; markPx := "7" |};
                {| ctx_coin := "PURR-SPOT"; markPx := "3" |} ] in
  "PURR-SPOT" <> "__proto__"
  /\ own_get (build_priceMap (host := SampleHost.host) ctxs) "PURR-SPOT"
     = Some (Num.of_Z 3)
  /\ own_get (build_priceMap (host := SampleHost.host) ctxs) "__proto__" = None.
Proof.
  cbv zeta. split; [discriminate|].
  assert (Hne : "PURR-SPOT" <> "__proto__") by discriminate.
  destruct (@priceMap_last_context_wins SampleHost.host
              [ {| ctx_coin := "PURR-SPOT"; markPx := "2.5" |};
                {| ctx_coin := "__proto__"; markPx := "7" |};
                {| ctx_coin := "PURR-SPOT"; markPx := "3" |} ] "PURR-SPOT")
    as [H1 H2].
  split; [exact (H1 Hne) | exact H2].
Defined.

Lemma ensure_USDC_usable_witness :
  let pm := [ ("USDC-SPOT", Num.zero); ("PURR-SPOT", Num.make 5 (-1)) ] in
  "PURR-SPOT" <> "USDC-SPOT"
  /\ (exists p, own_get (ensure_USDC None pm) "USDC-SPOT" = Some p
                /\ Num.truthy p = true)
  /\ own_get (ensure_USDC None pm) "PURR-SPOT" = Some (Num.make 5 (-1)).
Proof.
  cbv zeta. split; [discriminate|].
  assert (Hne : "PURR-SPOT" <> "USDC-SPOT") by discriminate.
  destruct (ensure_USDC_usable None
              [ ("USDC-SPOT", Num.zero); ("PURR-SPOT", Num.make 5 (-1)) ])
    as [H1 [H2 _]].
  split; [exact H1 | exact (H2 _ Hne)].
Defined.

Lemma unusable_price_is_zero_witness :
  let pm := build_priceMap (host := SampleHost.host)
              [ {| ctx_coin := "JEFF-SPOT"; markPx := "n/a" |} ] in
  let b := SampleHost.balance "JEFF-SPOT" "4" in
  own_get pm (balance_coin b) = Some Num.NaN
  /\ Num.truthy Num.NaN = false
  /\ price (enrich (host := SampleHost.host) None pm b) = Some "0"
  /\ usdValue (enrich (host := SampleHost.host) None pm b) = Some "0".
Proof.
  cbv zeta. do 2 (split; [reflexivity|]).
  rewrite (@unusable_price_is_zero SampleHost.host None
             (build_priceMap (host := SampleHost.host)
                [ {| ctx_coin := "JEFF-SPOT"; markPx := "n/a" |} ])
             (SampleHost.balance "JEFF-SPOT" "4") Num.NaN eq_refl eq_refl).
  split; reflexivity.
Defined.

Lemma dashboard_sections_fail_apart_witness :
  let w := Dashboard.world SampleHost.perp_down in
  let r := Dashboard.handleGetAccountInfo (host := SampleHost.host) w Dashboard.signed_in in
  Dashboard.resolve_address Dashboard.with_address = Returned (Some SampleHost.address)
  /\ SampleHost.address <> ""
  /\ exists view,
      Dashboard.response r = Dashboard.ok (Dashboard.AccountData view)
      /\ Dashboard.view_perpetuals view
         = Dashboard.SectionError "Failed to fetch perpetuals data"
      /\ Dashboard.view_spot view = Dashboard.Fetched (Dashboard.Formatted []).
Proof.
  cbv zeta. split; [reflexivity|]. split; [discriminate|].
  assert (Hne : SampleHost.address <> "") by discriminate.
  destruct (@dashboard_sections_fail_apart SampleHost.host
              (Dashboard.world SampleHost.perp_down)
              {| Dashboard.client_options := options (userCredentials Scenario.read_only);
                 Dashboard.client_internals := Dashboard.with_address |}
              SampleHost.address eq_refl Hne)
    as [view [Hr [_ [_ [Hperp _]]]]].
  exists view. split; [exact Hr|]. split; [exact Hperp|].
  injection Hr as <-. reflexivity.
Defined.


Lemma dashboard_authenticate_outcomes_witness :
  let w := Dashboard.world Scenario.unreachable in
  let params_ := Scenario.sign_in None (Some SampleHost.address) None in
  let r := Dashboard.handler (host := SampleHost.host) w None
                             (Dashboard.post "authenticate" params_) in
  truthy_str (Authenticate.privateKey params_)
  || truthy_str (Authenticate.walletAddress params_) = true
  /\ Dashboard.response r = Dashboard.failure 500 "connection refused"
  /\ Dashboard.client_after r = Dashboard.signed_in
  /\ Dashboard.sdk_calls r = [Connect].
Proof.
  cbv zeta. split; [reflexivity|].
  destruct (@dashboard_authenticate_outcomes SampleHost.host
              (Dashboard.world Scenario.unreachable)
              (Dashboard.world Scenario.unreachable) None
              (Scenario.sign_in None (Some SampleHost.address) None) eq_refl)
    as [H1 [H2 [H3 _]]].
  split; [exact H3|]. split; [exact H1 | exact H2].
Defined.


Lemma dashboard_address_resolution_witness :
  let c := {| Dashboard.client_options := options (userCredentials Scenario.key_only);
              Dashboard.client_internals :=
                {| Dashboard.client_walletAddress_field := None;
                   Dashboard.client_wallet := None;
                   Dashboard.client_testnet_field := true |} |} in
  let r := Dashboard.handleGetAccountInfo (host := SampleHost.host)
                                          (Dashboard.world SampleHost.up) (Some c) in
  truthy_str (Dashboard.client_walletAddress_field (Dashboard.client_internals c)) = false
  /\ Dashboard.response r = Dashboard.failure 400 "No wallet address available"
  /\ Dashboard.sdk_calls r = [].
Proof.
  cbv zeta. split; [reflexivity|].
  destruct (@dashboard_address_resolution SampleHost.host (Dashboard.world SampleHost.up)
              {| Dashboard.client_options := options (userCredentials Scenario.key_only);
                 Dashboard.client_internals :=
                   {| Dashboard.client_walletAddress_field := None;
                      Dashboard.client_wallet := None;
                      Dashboard.client_testnet_field := true |} |})
    as [_ H].
  exact (H eq_refl).
Defined.
